(** * better-qdrant-mcp-server: validation, store adapter and tool handlers

    A shallow embedding of the TypeScript sources
      - services/validation.ts   (VectorValidationService)
      - services/qdrant.ts       (DefaultQdrantService)
      - services/embeddings/     (the four embedding services and their factory)
      - services/text-processing.ts (TextProcessor)
      - index.ts                 (BetterQdrantServer tool handlers)
    with the recommendation table of validation.ts and the earlier revision
    of the Ollama service, followed by the properties of the specification
    that concern them.

    Conventions of the embedding.
      - A JS [number] that is an element of an embedding vector or a score is
        an IEEE-754 binary64 value ([float]).  Vector sizes, chunk sizes and
        result limits are integers ([Z]) and print in decimal; array lengths
        and indices are [nat].
      - An [async] function is a computation in the monad [M]: it reads the
        immutable environment [Env] (everything the process does not own),
        threads the mutable [State], and either returns or throws.  A handler
        runs from its first statement to its last before the next one
        starts; the one method that writes state shared between handlers
        while it is suspended, [initializeVectorSize()], is also given
        split at its [await] (module [Overlap]), so that calls that overlap
        can be followed.
      - Every call that leaves the process, every file read and every call
        of the external splitter is recorded in the [trace].
      - Logging ([console.error], [console.warn], [console.log]) is left out.

    Not embedded: the tool-call transport with its argument guards.  The
    lazy construction of the FastEmbed embedder is taken as part of the
    call of the embedder.  Of a collection's vector configuration only the
    single-vector form is kept; a map of named vectors is not told apart
    from a missing configuration. *)

From Stdlib Require Import ZArith List String Ascii Floats.
From Stdlib Require Import DecimalString Decimal DecimalNat Bool Lia.
From stdpp Require Import gmap strings list.
Set Warnings "-inexact-float".
Import ListNotations.
Local Open Scope Z_scope.
Local Open Scope string_scope.
Local Open Scope list_scope.

(* ================================================================= *)
(** ** JavaScript values the code observes *)

(** A thrown value: an [Error] object (with its [name] and [message]) or any
    other value, kept as the text [String(value)] yields. *)
Inductive Exn : Type :=
| JsError (name message : string)
| JsThrown (rendering : string).

(** [new Error(message)] *)
Definition newError (message : string) : Exn := JsError "Error" message.

(** [error instanceof Error ? error.message : String(error)] *)
Definition errorMessage (error : Exn) : string :=
  match error with
  | JsError _ message => message
  | JsThrown rendering => rendering
  end.

(** [`${error}`]: [Error.prototype.toString] for error objects. *)
Definition errorToString (error : Exn) : string :=
  match error with
  | JsError name message =>
      if String.eqb name "" then message
      else if String.eqb message "" then name
      else name +:+ ": " +:+ message
  | JsThrown rendering => rendering
  end.

(** The line feed of ['\n']. *)
Definition nl : string := String (ascii_of_nat 10) EmptyString.

(** [`${n}`] for an array length or index. *)
Definition showN (n : nat) : string := NilEmpty.string_of_uint (Nat.to_uint n).

(** [`${z}`] for an integer-valued number. *)
Definition showZ (z : Z) : string := NilEmpty.string_of_int (Z.to_int z).

(** Decimal digits, to tell the numbers inside a message apart. *)
Definition isDigit (c : ascii) : bool :=
  (Nat.leb 48 (nat_of_ascii c)) && (Nat.leb (nat_of_ascii c) 57).

Fixpoint allDigits (s : string) : bool :=
  match s with
  | EmptyString => true
  | String c rest => isDigit c && allDigits rest
  end.

(** A text that does not go on with a digit. *)
Definition stopsDigits (s : string) : bool :=
  match s with
  | EmptyString => true
  | String c _ => negb (isDigit c)
  end.

(** [list.join(sep)] *)
Definition join (sep : string) (parts : list string) : string := String.concat sep parts.

(** [value || fallback] for an optional string: [undefined] and [''] are falsy. *)
Definition orDefault (value : option string) (fallback : string) : string :=
  match value with
  | Some s => if String.eqb s "" then fallback else s
  | None => fallback
  end.

(** [!value] for an optional string. *)
Definition falsyString (value : option string) : bool :=
  match value with
  | Some s => String.eqb s ""
  | None => true
  end.

(** An element of a vector as it reaches the validator.  The declared type is
    [number], but the providers pass on whatever the remote service sent, so
    an element that is not a number is kept together with the number JS
    coerces it to (which is what [Math.abs] sees). *)
Inductive Elem : Type :=
| ENum (value : float)
| EOther (coerced : float).

(** A vector as it reaches the validator: an array, or a value for which
    [Array.isArray] is false (among them [undefined]). *)
Inductive Vec : Type :=
| VArray (elems : list Elem)
| VNotArray.

(** [typeof val !== 'number' || isNaN(val)] *)
Definition isNonNumber (val : Elem) : bool :=
  match val with
  | ENum value => PrimFloat.is_nan value
  | EOther _ => true
  end.

(** [Math.abs(val) > 100] *)
Definition isExtreme (val : Elem) : bool :=
  match val with
  | ENum value => PrimFloat.ltb 100 (PrimFloat.abs value)
  | EOther coerced => PrimFloat.ltb 100 (PrimFloat.abs coerced)
  end.

(* ================================================================= *)
(** ** services/validation.ts: vector data validation *)

Module VectorData.

(** [VectorDataValidationResult] *)
Record Result : Type := {
  isValid : bool;
  errors : list string;
  warnings : list string;
  vectorCount : nat;
  expectedSize : Z
}.

Definition notArrayMessage (index : nat) : string :=
  "Vector at index " +:+ showN index +:+ " is not an array".

Definition sizeMessage (index size : nat) (expected : Z) : string :=
  "Vector at index " +:+ showN index +:+ " has size " +:+ showN size
    +:+ ", expected " +:+ showZ expected.

Definition nonNumericMessage (index count : nat) : string :=
  "Vector at index " +:+ showN index +:+ " contains " +:+ showN count
    +:+ " non-numeric values".

Definition extremeMessage (index count : nat) : string :=
  "Vector at index " +:+ showN index +:+ " contains " +:+ showN count
    +:+ " values with absolute value > 100".

(** The body of the [forEach] callback: the two accumulators [errors] and
    [warnings] are passed in and out. *)
Definition checkVector (expected : Z) (index : nat) (vector : Vec)
    (acc : list string * list string) : list string * list string :=
  let '(errs, warns) := acc in
  match vector with
  | VNotArray => (errs ++ [notArrayMessage index], warns)
  | VArray elems =>
      let errs1 :=
        if Z.eqb (Z.of_nat (List.length elems)) expected then errs
        else errs ++ [sizeMessage index (List.length elems) expected] in
      let nonNumbers := List.filter isNonNumber elems in
      let errs2 :=
        if Nat.ltb 0 (List.length nonNumbers)
        then errs1 ++ [nonNumericMessage index (List.length nonNumbers)]
        else errs1 in
      let extremeValues := List.filter isExtreme elems in
      let warns1 :=
        if Nat.ltb 0 (List.length extremeValues)
        then warns ++ [extremeMessage index (List.length extremeValues)]
        else warns in
      (errs2, warns1)
  end.

(** [vectors.forEach((vector, index) => ...)], from position [index] on. *)
Fixpoint forEachVector (expected : Z) (index : nat) (vectors : list Vec)
    (acc : list string * list string) : list string * list string :=
  match vectors with
  | [] => acc
  | vector :: rest =>
      forEachVector expected (S index) rest (checkVector expected index vector acc)
  end.

(** [validateVectorData(vectors, expectedSize)] *)
Definition validateVectorData (vectors : list Vec) (expected : Z) : Result :=
  let errs0 :=
    if Nat.eqb (List.length vectors) 0 then ["No vectors provided"] else [] in
  let '(errs, warns) := forEachVector expected 0 vectors (errs0, []) in
  {| isValid := Nat.eqb (List.length errs) 0;
     errors := errs;
     warnings := warns;
     vectorCount := List.length vectors;
     expectedSize := expected |}.

(** What one vector adds to the two lists. *)
Definition vectorErrors (expected : Z) (index : nat) (vector : Vec) : list string :=
  fst (checkVector expected index vector ([], [])).

Definition vectorWarnings (expected : Z) (index : nat) (vector : Vec) : list string :=
  snd (checkVector expected index vector ([], [])).

Fixpoint errorsFrom (expected : Z) (index : nat) (vectors : list Vec) : list string :=
  match vectors with
  | [] => []
  | vector :: rest =>
      vectorErrors expected index vector ++ errorsFrom expected (S index) rest
  end.

Fixpoint warningsFrom (expected : Z) (index : nat) (vectors : list Vec) : list string :=
  match vectors with
  | [] => []
  | vector :: rest =>
      vectorWarnings expected index vector ++ warningsFrom expected (S index) rest
  end.

(** The number of elements of a vector beyond the sanity threshold. *)
Definition extremeCount (vector : Vec) : nat :=
  match vector with
  | VArray elems => List.length (List.filter isExtreme elems)
  | VNotArray => 0%nat
  end.

(** An array of the expected length whose elements are all numbers. *)
Definition wellFormed (expected : Z) (vector : Vec) : bool :=
  match vector with
  | VArray elems =>
      Z.eqb (Z.of_nat (List.length elems)) expected
      && forallb (fun v => negb (isNonNumber v)) elems
  | VNotArray => false
  end.

End VectorData.

(* ================================================================= *)
(** ** The process and its surroundings *)

(** [TextChunk] of services/text-processing.ts: the text and the spread
    metadata [{index, source, start, end}] that become a point's payload. *)
Record TextChunk : Type := {
  chunkText : string;
  chunkIndex : nat;
  chunkSource : option string;
  chunkStart : option Z;
  chunkEnd : option Z
}.

(** A document of the external splitter: [pageContent] and the two metadata
    fields the code reads. *)
Record Document : Type := {
  pageContent : string;
  metadataStart : option Z;
  metadataEnd : option Z
}.

(** [{ id, vector, payload }] as handed to [addDocuments]. *)
Record Point : Type := {
  pointId : string;
  pointVector : Vec;
  pointPayload : TextChunk
}.

(** The payload of a search hit is a [Record<string, any>] the store sends
    back; it is kept as what the search handler reads from it: the fields
    [text], [content], [source] and [metadata.source] when truthy (as the
    text a template literal renders), and [JSON.stringify(payload)]. *)
Record HitPayload : Type := {
  payloadText : option string;
  payloadContent : option string;
  payloadSource : option string;
  payloadMetadataSource : option string;
  payloadJson : string
}.

(** [{}] *)
Definition emptyPayload : HitPayload :=
  {| payloadText := None; payloadContent := None; payloadSource := None;
     payloadMetadataSource := None; payloadJson := "{}" |}.

(** An item of the backing client's search response. *)
Record ScoredPoint : Type := {
  scoredId : string;
  scoredScore : float;
  scoredPayload : option HitPayload;
  scoredVector : option Vec
}.

(** [SearchResult] of types.ts. *)
Record SearchResult : Type := {
  resultId : string;
  resultScore : float;
  resultPayload : HitPayload;
  resultVector : option Vec
}.

(** [config.params.vectors] of a collection when it is a single-vector
    configuration with a [size]. *)
Record VectorParams : Type := {
  paramsSize : Z;
  paramsDistance : option string
}.

(** A collection inside the vector store. *)
Record CollectionState : Type := {
  vectorsConfig : option VectorParams;
  points : list Point
}.

(** [TextProcessor]: its two private fields and the configuration the
    current [splitter] object was constructed with. *)
Record TextProcessor : Type := {
  chunkSize : Z;
  chunkOverlap : Z;
  splitter : Z * Z
}.

(** Every call that leaves the process. *)
Inductive Event : Type :=
| QdrantGetCollections
| QdrantCreateCollection (name : string) (size : Z)
| QdrantUpsert (name : string) (batch : list Point)
| QdrantDeleteCollection (name : string)
| QdrantSearch (name : string) (vector : Vec) (limit : Z)
| QdrantGetCollection (name : string)
| AxiosPost (url model : string) (input : list string)
| FastEmbedCall (model : string) (texts : list string)
| ReadFile (path : string)
| CreateDocuments (size overlap : Z) (text : string).

(** The result of running a piece of code: a value or a thrown exception. *)
Inductive Outcome (A : Type) : Type :=
| Ok (value : A)
| Throw (error : Exn).
Arguments Ok {A} value.
Arguments Throw {A} error.

(** What the process does not own.  The answers of the outside world may
    depend on how many outside calls were made before ([nat] arguments are
    the length of the trace at the time of the call), so any schedule of
    failures and answers is an [Env]. *)
Record Env : Type := {
  (** [process.env] *)
  processEnv : string -> option string;
  (** [readFileSync(path, 'utf-8')] *)
  fileContent : string -> Outcome string;
  (** a transport failure of the backing Qdrant call made at this moment *)
  qdrantFault : nat -> option Exn;
  (** the hits the store answers to a search at this moment *)
  searchResponse : nat -> list ScoredPoint;
  (** [axios.post(url, {model, input})]: the embeddings field of the
      response when it is an array, [None] when it is missing or not one *)
  axiosPost : nat -> string -> string -> list string -> Outcome (option (list Vec));
  (** [embedder.embed(texts)] of the fastembed library *)
  fastEmbed : nat -> string -> list string -> Outcome (list (list float));
  (** [new RecursiveCharacterTextSplitter({chunkSize, chunkOverlap})]: the
      exception the constructor raises, if any *)
  newSplitter : Z -> Z -> option Exn;
  (** [splitter.createDocuments([text])] for a splitter of that configuration *)
  createDocuments : Z -> Z -> string -> Outcome (list Document);
  (** the identifiers [uuidv4()] draws, in order *)
  uuid : nat -> string;
  (** [score.toFixed(2)] *)
  toFixed2 : float -> string;
  (** [JSON.stringify(names, null, 2)] *)
  stringify : list string -> string;
  (** [error.stack] of an error object with that name and message *)
  errorStack : string -> string -> string
}.

(** What the process owns or changes: the store behind the Qdrant client, the
    static [dimensionCache] of the Ollama service, the server's one
    [textProcessor], the number of identifiers drawn and the trace. *)
Record State : Type := {
  store : gmap string CollectionState;
  dimensionCache : gmap string Z;
  textProcessor : TextProcessor;
  uuidsDrawn : nat;
  trace : list Event
}.

Definition setStore (s : State) (v : gmap string CollectionState) : State :=
  {| store := v; dimensionCache := dimensionCache s;
     textProcessor := textProcessor s; uuidsDrawn := uuidsDrawn s; trace := trace s |}.

Definition setDimensionCache (s : State) (v : gmap string Z) : State :=
  {| store := store s; dimensionCache := v;
     textProcessor := textProcessor s; uuidsDrawn := uuidsDrawn s; trace := trace s |}.

Definition setTextProcessor (s : State) (v : TextProcessor) : State :=
  {| store := store s; dimensionCache := dimensionCache s;
     textProcessor := v; uuidsDrawn := uuidsDrawn s; trace := trace s |}.

Definition setUuidsDrawn (s : State) (v : nat) : State :=
  {| store := store s; dimensionCache := dimensionCache s;
     textProcessor := textProcessor s; uuidsDrawn := v; trace := trace s |}.

Definition logEvent (s : State) (e : Event) : State :=
  {| store := store s; dimensionCache := dimensionCache s;
     textProcessor := textProcessor s; uuidsDrawn := uuidsDrawn s;
     trace := trace s ++ [e] |}.

(** Asynchronous code: environment in, state through, value or exception out. *)
Definition M (A : Type) : Type := Env -> State -> Outcome A * State.

Definition ret {A : Type} (a : A) : M A := fun _ s => (Ok a, s).

Definition throw {A : Type} (e : Exn) : M A := fun _ s => (Throw e, s).

Definition bind {A B : Type} (c : M A) (k : A -> M B) : M B :=
  fun env s =>
    match c env s with
    | (Ok a, s1) => k a env s1
    | (Throw e, s1) => (Throw e, s1)
    end.

(** [try { body } catch (error) { handler }]: the state changes the body made
    before it threw stay. *)
Definition tryCatch {A : Type} (body : M A) (handler : Exn -> M A) : M A :=
  fun env s =>
    match body env s with
    | (Ok a, s1) => (Ok a, s1)
    | (Throw e, s1) => handler e env s1
    end.

(** A synchronous computation that may throw. *)
Definition lift {A : Type} (o : Outcome A) : M A := fun _ s => (o, s).

Definition getState : M State := fun _ s => (Ok s, s).
Definition getEnv : M Env := fun env s => (Ok env, s).
Definition modify (f : State -> State) : M unit := fun _ s => (Ok tt, f s).

Notation "x <- c1 ;; c2" := (bind c1 (fun x => c2))
  (at level 100, c1 at next level, right associativity).
Notation "c1 ;;; c2" := (bind c1 (fun _ => c2))
  (at level 100, right associativity).

(** [for (const x of xs) { ... }] collecting one result per element. *)
Fixpoint mapM {A B : Type} (f : A -> M B) (xs : list A) : M (list B) :=
  match xs with
  | [] => ret []
  | x :: rest => y <- f x;; ys <- mapM f rest;; ret (y :: ys)
  end.

(** [xs.map((x, i) => f(x, i))], from position [i] on. *)
Fixpoint mapi {A B : Type} (f : A -> nat -> B) (i : nat) (xs : list A) : list B :=
  match xs with
  | [] => []
  | x :: rest => f x i :: mapi f (S i) rest
  end.

(* ================================================================= *)
(** ** The Qdrant client library (external)

    The REST client is not part of the repository.  Its calls are given the
    behaviour of the store's documented contract: a call that the transport
    drops raises the fault of the environment; a call on a collection that
    does not exist raises "Not Found"; creating an existing collection raises
    "Conflict"; listing, fetching and searching do not change the store. *)

Module QdrantClient.

Definition notFound : Exn := JsError "ApiError" "Not Found".
Definition conflict : Exn := JsError "ApiError" "Conflict".

(** One backing call: recorded, then dropped by the transport or served. *)
Definition call {A : Type} (e : Event)
    (serve : nat -> Env -> gmap string CollectionState ->
             Outcome A * gmap string CollectionState) : M A :=
  fun env s =>
    let now := List.length (trace s) in
    let s1 := logEvent s e in
    match qdrantFault env now with
    | Some fault => (Throw fault, s1)
    | None =>
        let '(o, st) := serve now env (store s) in
        (o, setStore s1 st)
    end.

(** [client.getCollections()]: the [collections] field of the response
    (the store always sends one), as names. *)
Definition getCollections : M (option (list string)) :=
  call QdrantGetCollections
    (fun _ _ st => (Ok (Some (List.map fst (map_to_list st))), st)).

(** [client.createCollection(name, {vectors: {size, distance: 'Cosine'}})] *)
Definition createCollection (name : string) (size : Z) : M unit :=
  call (QdrantCreateCollection name size)
    (fun _ _ st =>
       match st !! name with
       | Some _ => (Throw conflict, st)
       | None =>
           (Ok tt,
            <[name := {| vectorsConfig :=
                           Some {| paramsSize := size; paramsDistance := Some "Cosine" |};
                         points := [] |}]> st)
       end).

Definition sameId (batch : list Point) (p : Point) : bool :=
  existsb (fun q => String.eqb (pointId q) (pointId p)) batch.

(** [client.upsert(collection, {wait: true, points})] *)
Definition upsert (name : string) (batch : list Point) : M unit :=
  call (QdrantUpsert name batch)
    (fun _ _ st =>
       match st !! name with
       | None => (Throw notFound, st)
       | Some c =>
           (Ok tt,
            <[name := {| vectorsConfig := vectorsConfig c;
                         points := List.filter (fun p => negb (sameId batch p)) (points c)
                                     ++ batch |}]> st)
       end).

(** [client.deleteCollection(name)] *)
Definition deleteCollection (name : string) : M unit :=
  call (QdrantDeleteCollection name) (fun _ _ st => (Ok tt, delete name st)).

(** [client.search(collection, {vector, limit, with_payload, with_vector})] *)
Definition search (name : string) (vector : Vec) (limit : Z) : M (list ScoredPoint) :=
  call (QdrantSearch name vector limit)
    (fun now env st =>
       match st !! name with
       | None => (Throw notFound, st)
       | Some _ => (Ok (searchResponse env now), st)
       end).

(** [client.getCollection(name)]: [config.params.vectors] of the answer. *)
Definition getCollection (name : string) : M (option VectorParams) :=
  call (QdrantGetCollection name)
    (fun _ _ st =>
       match st !! name with
       | None => (Throw notFound, st)
       | Some c => (Ok (vectorsConfig c), st)
       end).

End QdrantClient.

(* ================================================================= *)
(** ** services/qdrant.ts: DefaultQdrantService *)

Module QdrantService.

(** [handleQdrantError(error, operation)]: never returns. *)
Definition handleQdrantError {A : Type} (error : Exn) (operation : string) : M A :=
  throw (newError ("Failed to " +:+ operation +:+ ": " +:+ errorMessage error)).

(** [listCollections()] *)
Definition listCollections : M (list string) :=
  tryCatch
    (response <- QdrantClient.getCollections;;
     ret (match response with Some names => names | None => [] end))
    (fun error => handleQdrantError error "list collections").

(** [createCollection(name, vectorSize)] *)
Definition createCollection (name : string) (vectorSize : Z) : M unit :=
  tryCatch
    (QdrantClient.createCollection name vectorSize)
    (fun error => handleQdrantError error "create collection").

(** [addDocuments(collection, documents)] *)
Definition addDocuments (collection : string) (documents : list Point) : M unit :=
  tryCatch
    (let batch :=
       List.map (fun doc => {| pointId := pointId doc; pointVector := pointVector doc;
                               pointPayload := pointPayload doc |}) documents in
     QdrantClient.upsert collection batch)
    (fun error => handleQdrantError error "add documents").

(** [deleteCollection(name)] *)
Definition deleteCollection (name : string) : M unit :=
  tryCatch
    (QdrantClient.deleteCollection name)
    (fun error => handleQdrantError error "delete collection").

(** The default of the parameter [limit: number = 10]. *)
Definition limitOrDefault (limit : option Z) : Z :=
  match limit with Some l => l | None => 10 end.

(** [search(collection, vector, limit = 10)] *)
Definition search (collection : string) (vector : Vec) (limit : option Z)
    : M (list SearchResult) :=
  let limit := limitOrDefault limit in
  tryCatch
    (response <- QdrantClient.search collection vector limit;;
     ret (List.map
            (fun point =>
               {| resultId := scoredId point;
                  resultScore := scoredScore point;
                  resultPayload := match scoredPayload point with
                                   | Some p => p
                                   | None => emptyPayload
                                   end;
                  resultVector := scoredVector point |})
            response))
    (fun error => handleQdrantError error "search collection").

(** [collectionExists(name)] *)
Definition collectionExists (name : string) : M bool :=
  tryCatch
    (collections <- listCollections;;
     ret (existsb (String.eqb name) collections))
    (fun _ => ret false).

(** [getCollectionInfo(name)]: [{vectorSize, distance}] or [null]. *)
Definition getCollectionInfo (name : string) : M (option (Z * string)) :=
  tryCatch
    (info <- QdrantClient.getCollection name;;
     ret (match info with
          | Some vectorConfig =>
              Some (paramsSize vectorConfig, orDefault (paramsDistance vectorConfig) "Cosine")
          | None => None
          end))
    (fun _ => ret None).

End QdrantService.

(* ================================================================= *)
(** ** services/embeddings: the providers and their factory *)

Module Embeddings.

(** [EmbeddingService] of types.ts: the provider names. *)
Inductive ServiceKind : Type := openai | openrouter | fastembed | ollama.

(** [EmbeddingServiceConfig] *)
Record Config : Type := {
  configType : ServiceKind;
  configApiKey : option string;
  configEndpoint : option string;
  configModel : option string
}.

(** An instance of one of the four service classes: the three protected
    fields of [BaseEmbeddingService] and, for the Ollama service, the
    private [_vectorSize] ([None] is [null]). *)
Record Service : Type := {
  kind : ServiceKind;
  apiKey : option string;
  endpoint : option string;
  model : option string;
  _vectorSize : option Z
}.

Definition setVectorSize (service : Service) (size : Z) : Service :=
  {| kind := kind service; apiKey := apiKey service; endpoint := endpoint service;
     model := model service; _vectorSize := Some size |}.

Definition defaultModel (k : ServiceKind) : string :=
  match k with
  | openai => "text-embedding-ada-002"
  | openrouter => "openai/text-embedding-ada-002"
  | fastembed => "BAAI/bge-small-en"
  | ollama => "nomic-embed-text"
  end.

(** [`${this.endpoint}`] *)
Definition endpointText (service : Service) : string :=
  match endpoint service with Some e => e | None => "undefined" end.

(** [this.model || this.defaultModel] *)
Definition modelName (service : Service) : string :=
  orDefault (model service) (defaultModel (kind service)).

(** The [vectorSize] property: a constant field of three classes, a getter
    that throws before initialisation in the Ollama class. *)
Definition vectorSize (service : Service) : Outcome Z :=
  match kind service with
  | openai => Ok 1536
  | openrouter => Ok 1536
  | fastembed => Ok 384
  | ollama =>
      match _vectorSize service with
      | Some size => Ok size
      | None =>
          Throw (newError "Vector size not initialized. Call initializeVectorSize() first.")
      end
  end.

(** [createEmbeddingService(config)]: the switch and the constructors
    (each constructor's [validateConfig] included). *)
Definition createEmbeddingService (config : Config) : Outcome Service :=
  match configType config with
  | openai =>
      if falsyString (configApiKey config)
      then Throw (newError "OpenAI API key is required")
      else
        let service :=
          {| kind := openai; apiKey := configApiKey config;
             endpoint := Some (orDefault (configEndpoint config) "https://api.openai.com/v1");
             model := Some (orDefault (configModel config) "text-embedding-ada-002");
             _vectorSize := None |} in
        if falsyString (apiKey service) then Throw (newError "OpenAI API key is required")
        else if falsyString (endpoint service)
             then Throw (newError "OpenAI endpoint is required")
             else Ok service
  | openrouter =>
      if falsyString (configApiKey config)
      then Throw (newError "OpenRouter API key is required")
      else
        let service :=
          {| kind := openrouter; apiKey := configApiKey config;
             endpoint := Some (orDefault (configEndpoint config) "https://openrouter.ai/api/v1");
             model := Some (orDefault (configModel config) "openai/text-embedding-ada-002");
             _vectorSize := None |} in
        if falsyString (apiKey service)
        then Throw (newError "OpenRouterEmbeddingService requires an API key")
        else Ok service
  | ollama =>
      let service :=
        {| kind := ollama; apiKey := None;
           endpoint := Some (orDefault (configEndpoint config)
                               "http://host.docker.internal:11434");
           model := Some (orDefault (configModel config) "nomic-embed-text");
           _vectorSize := None |} in
      if falsyString (endpoint service)
      then Throw (newError "Ollama endpoint is required")
      else Ok service
  | fastembed =>
      Ok {| kind := fastembed; apiKey := None; endpoint := None;
            model := Some (orDefault (configModel config) "BAAI/bge-small-en");
            _vectorSize := None |}
  end.

(** [axios.post(url, {model, input})], recorded. *)
Definition post (url model : string) (input : list string) : M (option (list Vec)) :=
  fun env s =>
    (axiosPost env (List.length (trace s)) url model input,
     logEvent s (AxiosPost url model input)).

(** [this.embedder.embed(texts)] of the fastembed service, recorded. *)
Definition embed (model : string) (texts : list string) : M (list (list float)) :=
  fun env s =>
    (fastEmbed env (List.length (trace s)) model texts,
     logEvent s (FastEmbedCall model texts)).

(** [Array.isArray(embedding) && embedding.every(v => typeof v === 'number')] *)
Definition isNumberArray (embedding : Vec) : bool :=
  match embedding with
  | VArray elems =>
      forallb (fun v => match v with ENum _ => true | EOther _ => false end) elems
  | VNotArray => false
  end.

Definition isArray (v : Vec) : bool :=
  match v with VArray _ => true | VNotArray => false end.

(** ** ollama.ts *)

(** The key of the static [dimensionCache]: [`${endpoint}:${model}`]. *)
Definition modelKey (service : Service) : string :=
  endpointText service +:+ ":" +:+ modelName service.

(** [detectModelDimensions()]: the probe with the single input ['test']. *)
Definition detectModelDimensions (service : Service) : M (list Elem) :=
  data <- post (endpointText service +:+ "/api/embed") (modelName service) ["test"];;
  match data with
  | None | Some [] =>
      throw (newError "Invalid response from Ollama API during dimension detection")
  | Some (embedding :: _) =>
      if isNumberArray embedding
      then match embedding with
           | VArray elems => ret elems
           | VNotArray => ret []
           end
      else throw (newError
             "Invalid embedding format in Ollama response during dimension detection")
  end.

(** The [try] block of [initializeVectorSize()]: probe, set the field,
    store the size in the cache; any failure is wrapped. *)
Definition detectAndCache (service : Service) : M Service :=
  tryCatch
    (testEmbedding <- detectModelDimensions service;;
     let detected := Z.of_nat (List.length testEmbedding) in
     modify (fun s => setDimensionCache s
                        (<[modelKey service := detected]> (dimensionCache s)));;;
     ret (setVectorSize service detected))
    (fun error =>
       throw (newError ("Failed to detect vector dimensions for model "
                          +:+ modelName service +:+ ": " +:+ errorToString error))).

(** [initializeVectorSize()]; the instance it updated is returned.  The
    test [if (cachedSize)] is a truthiness test: a missing entry and an
    entry [0] both fall through to the probe. *)
Definition initializeVectorSize (service : Service) : M Service :=
  s <- getState;;
  let cachedSize := dimensionCache s !! modelKey service in
  match cachedSize with
  | Some size =>
      if negb (Z.eqb size 0) then ret (setVectorSize service size)
      else detectAndCache service
  | None => detectAndCache service
  end.

(** The [forEach] of the Ollama [generateEmbeddings]: the first embedding
    that is malformed or of the wrong length throws. *)
Fixpoint checkEmbeddings (expected : option Z) (index : nat) (embeddings : list Vec)
    : Outcome unit :=
  match embeddings with
  | [] => Ok tt
  | embedding :: rest =>
      match embedding with
      | VArray elems =>
          if negb (isNumberArray embedding)
          then Throw (newError ("Invalid embedding format at index " +:+ showN index
                                  +:+ " in Ollama response"))
          else if match expected with
                  | Some size => Z.eqb (Z.of_nat (List.length elems)) size
                  | None => false
                  end
          then checkEmbeddings expected (S index) rest
          else Throw (newError ("Dimension mismatch at index " +:+ showN index
                                  +:+ ": expected "
                                  +:+ match expected with
                                      | Some size => showZ size
                                      | None => "null"
                                      end
                                  +:+ ", got " +:+ showN (List.length elems)))
      | VNotArray =>
          Throw (newError ("Invalid embedding format at index " +:+ showN index
                             +:+ " in Ollama response"))
      end
  end.

(** The first item whose [embedding] is missing or not an array makes the
    [map] of the OpenAI and OpenRouter services throw. *)
Definition pickEmbeddings (who : string) (items : list Vec) : Outcome (list Vec) :=
  if forallb isArray items then Ok items
  else Throw (newError ("Invalid embedding format in " +:+ who +:+ " response")).

(** [generateEmbeddings(texts)] of the four classes; the instance comes
    back because the Ollama method may initialise it. *)
Definition generateEmbeddings (service : Service) (texts : list string)
    : M (Service * list Vec) :=
  match kind service with
  | openai =>
      data <- post (endpointText service +:+ "/embeddings") (modelName service) texts;;
      match data with
      | None => throw (newError "Invalid response from OpenAI API")
      | Some items => vs <- lift (pickEmbeddings "OpenAI" items);; ret (service, vs)
      end
  | openrouter =>
      data <- post (endpointText service +:+ "/embeddings") (modelName service) texts;;
      match data with
      | None => throw (newError "Invalid response from OpenRouter API")
      | Some items => vs <- lift (pickEmbeddings "OpenRouter" items);; ret (service, vs)
      end
  | ollama =>
      service <- match _vectorSize service with
                 | None => initializeVectorSize service
                 | Some _ => ret service
                 end;;
      data <- post (endpointText service +:+ "/api/embed") (modelName service) texts;;
      match data with
      | None => throw (newError "Invalid response from Ollama API")
      | Some embeddings =>
          lift (checkEmbeddings (_vectorSize service) 0 embeddings);;;
          ret (service, embeddings)
      end
  | fastembed =>
      embeddings <- embed (modelName service) texts;;
      ret (service, List.map (fun e => VArray (List.map ENum e)) embeddings)
  end.

(** [createAndInitializeEmbeddingService(config)]: only the Ollama class
    has an [initializeVectorSize] method. *)
Definition createAndInitializeEmbeddingService (config : Config) : M Service :=
  service <- lift (createEmbeddingService config);;
  match kind service with
  | ollama => initializeVectorSize service
  | _ => ret service
  end.

End Embeddings.

(* ================================================================= *)
(** ** services/validation.ts: compatibility of a provider and a collection *)

Module Compatibility.

Inductive Action : Type := create_collection | compatible | size_mismatch | error.

(** [VectorValidationResult] *)
Record Result : Type := {
  isValid : bool;
  reason : string;
  expectedVectorSize : Z;
  actualVectorSize : option Z;
  action : Action;
  suggestedActions : option (list string)
}.

(** The [QdrantService] a [VectorValidationService] is constructed with:
    the two methods the validator calls. *)
Record Backend : Type := {
  collectionExists : string -> M bool;
  getCollectionInfo : string -> M (option (Z * string))
}.

(** The service the server passes: [createQdrantService(url, apiKey)]. *)
Definition defaultService : Backend :=
  {| collectionExists := QdrantService.collectionExists;
     getCollectionInfo := QdrantService.getCollectionInfo |}.

(** The three suggestions of a size mismatch. *)
Definition suggestions (collectionSize serviceSize : Z) : list string :=
  [ "Use a different embedding service that produces " +:+ showZ collectionSize
      +:+ "-dimensional vectors";
    "Create a new collection with " +:+ showZ serviceSize +:+ "-dimensional vectors";
    "Delete and recreate the collection (WARNING: this will lose all data)" ].

(** [validateEmbeddingCompatibility(collection, embeddingService)].  Each
    read of [embeddingService.vectorSize] runs the getter, in the branches
    and in the [catch] block alike. *)
Definition validateEmbeddingCompatibility (qdrantService : Backend)
    (collection : string) (embeddingService : Embeddings.Service) : M Result :=
  tryCatch
    (exists_ <- collectionExists qdrantService collection;;
     if negb exists_ then
       size <- lift (Embeddings.vectorSize embeddingService);;
       ret {| isValid := true;
              reason := "Collection does not exist - will be created with correct dimensions";
              expectedVectorSize := size;
              actualVectorSize := None;
              action := create_collection;
              suggestedActions := None |}
     else
       collectionInfo <- getCollectionInfo qdrantService collection;;
       match collectionInfo with
       | None =>
           size <- lift (Embeddings.vectorSize embeddingService);;
           ret {| isValid := false;
                  reason := "Could not retrieve collection information";
                  expectedVectorSize := size;
                  actualVectorSize := None;
                  action := error;
                  suggestedActions := None |}
       | Some (collectionSize, _) =>
           size <- lift (Embeddings.vectorSize embeddingService);;
           if negb (Z.eqb collectionSize size) then
             ret {| isValid := false;
                    reason := "Vector size mismatch: collection expects "
                                +:+ showZ collectionSize
                                +:+ ", but embedding service produces " +:+ showZ size;
                    expectedVectorSize := size;
                    actualVectorSize := Some collectionSize;
                    action := size_mismatch;
                    suggestedActions := Some (suggestions collectionSize size) |}
           else
             ret {| isValid := true;
                    reason := "Vector dimensions are compatible";
                    expectedVectorSize := size;
                    actualVectorSize := Some collectionSize;
                    action := compatible;
                    suggestedActions := None |}
       end)
    (fun e =>
       size <- lift (Embeddings.vectorSize embeddingService);;
       ret {| isValid := false;
              reason := "Validation failed: " +:+ errorMessage e;
              expectedVectorSize := size;
              actualVectorSize := None;
              action := error;
              suggestedActions := None |}).

(** The five verdicts of the check, for a provider of dimension [size]. *)
Definition createVerdict (size : Z) : Result :=
  {| isValid := true;
     reason := "Collection does not exist - will be created with correct dimensions";
     expectedVectorSize := size; actualVectorSize := None;
     action := create_collection; suggestedActions := None |}.

Definition compatibleVerdict (size collectionSize : Z) : Result :=
  {| isValid := true; reason := "Vector dimensions are compatible";
     expectedVectorSize := size; actualVectorSize := Some collectionSize;
     action := compatible; suggestedActions := None |}.

Definition mismatchVerdict (size collectionSize : Z) : Result :=
  {| isValid := false;
     reason := "Vector size mismatch: collection expects " +:+ showZ collectionSize
                 +:+ ", but embedding service produces " +:+ showZ size;
     expectedVectorSize := size; actualVectorSize := Some collectionSize;
     action := size_mismatch;
     suggestedActions := Some (suggestions collectionSize size) |}.

Definition noInfoVerdict (size : Z) : Result :=
  {| isValid := false; reason := "Could not retrieve collection information";
     expectedVectorSize := size; actualVectorSize := None;
     action := error; suggestedActions := None |}.

Definition failedVerdict (size : Z) (e : Exn) : Result :=
  {| isValid := false; reason := "Validation failed: " +:+ errorMessage e;
     expectedVectorSize := size; actualVectorSize := None;
     action := error; suggestedActions := None |}.

End Compatibility.

(* ================================================================= *)
(** ** services/text-processing.ts: TextProcessor *)

Module TextProcessing.

(** [new TextProcessor()]: the defaults of the constructor. *)
Definition initial : TextProcessor :=
  {| chunkSize := 1000; chunkOverlap := 200; splitter := (1000, 200) |}.

(** The second statement of both setters: a new splitter from the two
    fields; when its constructor throws the old splitter stays. *)
Definition rebuildSplitter : M unit :=
  fun env s =>
    let tp := textProcessor s in
    match newSplitter env (chunkSize tp) (chunkOverlap tp) with
    | Some e => (Throw e, s)
    | None =>
        (Ok tt,
         setTextProcessor s {| chunkSize := chunkSize tp; chunkOverlap := chunkOverlap tp;
                               splitter := (chunkSize tp, chunkOverlap tp) |})
    end.

(** [setChunkSize(size)] *)
Definition setChunkSize (size : Z) : M unit :=
  modify (fun s =>
            let tp := textProcessor s in
            setTextProcessor s {| chunkSize := size; chunkOverlap := chunkOverlap tp;
                                  splitter := splitter tp |});;;
  rebuildSplitter.

(** [setChunkOverlap(overlap)] *)
Definition setChunkOverlap (overlap : Z) : M unit :=
  modify (fun s =>
            let tp := textProcessor s in
            setTextProcessor s {| chunkSize := chunkSize tp; chunkOverlap := overlap;
                                  splitter := splitter tp |});;;
  rebuildSplitter.

(** [this.splitter.createDocuments([text])], recorded. *)
Definition splitDocuments (content : string) : M (list Document) :=
  fun env s =>
    let '(size, overlap) := splitter (textProcessor s) in
    (createDocuments env size overlap content,
     logEvent s (CreateDocuments size overlap content)).

(** [processText(text, source)]: the current splitter does the work. *)
Definition processText (text : string) (source : option string) : M (list TextChunk) :=
  documents <- splitDocuments text;;
  ret (mapi (fun doc index =>
               {| chunkText := pageContent doc;
                  chunkIndex := index;
                  chunkSource := source;
                  chunkStart := metadataStart doc;
                  chunkEnd := metadataEnd doc |}) 0%nat documents).

(** [processFile(content, filename)] *)
Definition processFile (content filename : string) : M (list TextChunk) :=
  processText content (Some filename).

End TextProcessing.

(* ================================================================= *)
(** ** index.ts: the tool handlers of BetterQdrantServer *)

Module Server.

Import Embeddings.

Record AddDocumentsArgs : Type := {
  filePath : string;
  addCollection : string;
  addEmbeddingService : ServiceKind;
  argChunkSize : option Z;
  argChunkOverlap : option Z
}.

Record SearchArgs : Type := {
  query : string;
  searchCollection : string;
  searchEmbeddingService : ServiceKind;
  limit : option Z
}.

(** What a handler returns: the text of its single content item and the
    [isError] flag (absent is [false]). *)
Record ToolResult : Type := {
  text : string;
  isError : bool
}.

Definition success (t : string) : ToolResult := {| text := t; isError := false |}.
Definition failure (t : string) : ToolResult := {| text := t; isError := true |}.

(** [this.validationService = new VectorValidationService(this.qdrantService)] *)
Definition validationService : string -> Service -> M Compatibility.Result :=
  Compatibility.validateEmbeddingCompatibility Compatibility.defaultService.

(** [if (n)] for an optional number: [undefined] and [0] are falsy. *)
Definition truthyNumber (n : option Z) : bool :=
  match n with
  | Some z => negb (Z.eqb z 0)
  | None => false
  end.

(** [args.embeddingService.toUpperCase()] *)
Definition upperName (k : ServiceKind) : string :=
  match k with
  | openai => "OPENAI"
  | openrouter => "OPENROUTER"
  | fastembed => "FASTEMBED"
  | ollama => "OLLAMA"
  end.

(** The configuration both handlers read from [process.env]. *)
Definition configFromEnv (k : ServiceKind) : M Config :=
  env <- getEnv;;
  ret {| configType := k;
         configApiKey := processEnv env (upperName k +:+ "_API_KEY");
         configEndpoint := processEnv env (upperName k +:+ "_ENDPOINT");
         configModel := processEnv env (upperName k +:+ "_MODEL") |}.

(** "Create and initialize embedding service", the same in both handlers. *)
Definition buildService (k : ServiceKind) : M Service :=
  config <- configFromEnv k;;
  createAndInitializeEmbeddingService config.

(** [readFileSync(path, 'utf-8')] *)
Definition readFileSync (path : string) : M string :=
  fun env s => (fileContent env path, logEvent s (ReadFile path)).

(** [uuidv4()] *)
Definition uuidv4 : M string :=
  fun env s => (Ok (uuid env (uuidsDrawn s)), setUuidsDrawn s (S (uuidsDrawn s))).

(** The message of a negative compatibility verdict (both handlers). *)
Definition compatibilityErrorMessage (r : Compatibility.Result) : string :=
  let errorMessage := "Embedding compatibility error: " +:+ Compatibility.reason r in
  match Compatibility.suggestedActions r with
  | Some actions =>
      errorMessage +:+ nl +:+ nl +:+ "Suggested actions:" +:+ nl
        +:+ join nl (List.map (fun a => "- " +:+ a) actions)
  | None => errorMessage
  end.

(** The message of a negative vector verdict in [handleAddDocuments]. *)
Definition vectorErrorMessage (v : VectorData.Result) : string :=
  let errorMessage := "Vector validation failed:" +:+ nl +:+ join nl (VectorData.errors v) in
  if Nat.ltb 0 (List.length (VectorData.warnings v))
  then errorMessage +:+ nl +:+ nl +:+ "Warnings:" +:+ nl +:+ join nl (VectorData.warnings v)
  else errorMessage.

(** "Configure text processor if custom settings provided". *)
Definition configureTextProcessor (args : AddDocumentsArgs) : M unit :=
  (if truthyNumber (argChunkSize args)
   then TextProcessing.setChunkSize (default 0 (argChunkSize args))
   else ret tt);;;
  (if truthyNumber (argChunkOverlap args)
   then TextProcessing.setChunkOverlap (default 0 (argChunkOverlap args))
   else ret tt).

(** Read and split the file, build the embedding service. *)
Definition readAndBuild (args : AddDocumentsArgs) : M (list TextChunk * Service) :=
  content <- readFileSync (filePath args);;
  chunks <- TextProcessing.processFile content (filePath args);;
  embeddingService <- buildService (addEmbeddingService args);;
  ret (chunks, embeddingService).

(** [handleAddDocuments], first part: up to the compatibility check. *)
Definition prepareDocuments (args : AddDocumentsArgs)
    : M (list TextChunk * Service) :=
  configureTextProcessor args;;;
  readAndBuild args.

(** [handleAddDocuments], last part: what follows the two validations. *)
Definition storeDocuments (args : AddDocumentsArgs) (chunks : list TextChunk)
    (embeddingService : Service) (compatibilityResult : Compatibility.Result)
    (embeddings : list Vec) (vectorValidation : VectorData.Result) : M ToolResult :=
  (match Compatibility.action compatibilityResult with
   | Compatibility.create_collection =>
       size <- lift (vectorSize embeddingService);;
       QdrantService.createCollection (addCollection args) size
   | _ => ret tt
   end);;;
  documents <- mapM (fun ci =>
                       id <- uuidv4;;
                       ret {| pointId := id;
                              pointVector := nth (snd ci) embeddings VNotArray;
                              pointPayload := fst ci |})
                 (mapi (fun chunk i => (chunk, i)) 0%nat chunks);;
  QdrantService.addDocuments (addCollection args) documents;;;
  let successMessage :=
    "Successfully processed and added " +:+ showN (List.length chunks)
      +:+ " chunks to collection " +:+ addCollection args in
  ret (success
         (if Nat.ltb 0 (List.length (VectorData.warnings vectorValidation))
          then successMessage +:+ nl +:+ nl +:+ "Warnings:" +:+ nl
                 +:+ join nl (VectorData.warnings vectorValidation)
          else successMessage)).

(** [handleAddDocuments], middle part: from the compatibility verdict on. *)
Definition embedAndStore (args : AddDocumentsArgs) (chunks : list TextChunk)
    (embeddingService : Service) (compatibilityResult : Compatibility.Result)
    : M ToolResult :=
  if negb (Compatibility.isValid compatibilityResult)
  then ret (failure (compatibilityErrorMessage compatibilityResult))
  else
    generated <- generateEmbeddings embeddingService (List.map chunkText chunks);;
    let '(embeddingService, embeddings) := generated in
    size <- lift (vectorSize embeddingService);;
    let vectorValidation := VectorData.validateVectorData embeddings size in
    if negb (VectorData.isValid vectorValidation)
    then ret (failure (vectorErrorMessage vectorValidation))
    else storeDocuments args chunks embeddingService compatibilityResult
           embeddings vectorValidation.

(** [handleAddDocuments], second part: from the compatibility check on. *)
Definition validateAndStore (args : AddDocumentsArgs)
    (prepared : list TextChunk * Service) : M ToolResult :=
  let '(chunks, embeddingService) := prepared in
  compatibilityResult <- validationService (addCollection args) embeddingService;;
  embedAndStore args chunks embeddingService compatibilityResult.

(** The [catch] block of [handleAddDocuments]. *)
Definition addDocumentsFailed (e : Exn) : M ToolResult :=
  ret (failure ("Error adding documents: " +:+ errorMessage e)).

(** [handleAddDocuments(args)] *)
Definition handleAddDocuments (args : AddDocumentsArgs) : M ToolResult :=
  tryCatch
    (prepared <- prepareDocuments args;;
     validateAndStore args prepared)
    addDocumentsFailed.



(** One hit of the result text. *)
Definition formatResult (toFixed : float -> string) (result : SearchResult) (index : nat)
    : string :=
  let payload := resultPayload result in
  let body :=
    match payloadText payload with
    | Some t => t
    | None => match payloadContent payload with
              | Some c => c
              | None => payloadJson payload
              end
    end in
  let source :=
    match payloadSource payload with
    | Some src => Some src
    | None => payloadMetadataSource payload
    end in
  "Result " +:+ showN (index + 1) +:+ " (Score: " +:+ toFixed (resultScore result)
    +:+ "):" +:+ nl +:+ body +:+ nl
    +:+ match source with
        | Some src => "Source: " +:+ src +:+ nl
        | None => ""
        end
    +:+ nl.

(** [handleSearch], from the compatibility verdict on. *)
Definition embedAndSearch (args : SearchArgs) (embeddingService : Service)
    (compatibilityResult : Compatibility.Result) : M ToolResult :=
  if negb (Compatibility.isValid compatibilityResult)
  then ret (failure (compatibilityErrorMessage compatibilityResult))
  else
    generated <- generateEmbeddings embeddingService [query args];;
    let '(embeddingService, embeddings) := generated in
    let queryEmbedding := nth 0 embeddings VNotArray in
    size <- lift (vectorSize embeddingService);;
    let vectorValidation := VectorData.validateVectorData [queryEmbedding] size in
    if negb (VectorData.isValid vectorValidation)
    then ret (failure ("Query vector validation failed: "
                         +:+ join ", " (VectorData.errors vectorValidation)))
    else
      results <- QdrantService.search (searchCollection args) queryEmbedding (limit args);;
      env <- getEnv;;
      let formatted := String.concat "" (mapi (formatResult (toFixed2 env)) 0%nat results) in
      let responseText :=
        if String.eqb formatted "" then "No results found." else formatted in
      ret (success
             (if Nat.ltb 0 (List.length (VectorData.warnings vectorValidation))
              then responseText +:+ nl +:+ "Query vector warnings:" +:+ nl
                     +:+ join nl (VectorData.warnings vectorValidation)
              else responseText)).

(** [handleSearch(args)] *)
Definition handleSearch (args : SearchArgs) : M ToolResult :=
  tryCatch
    (embeddingService <- buildService (searchEmbeddingService args);;
     compatibilityResult <-
       validationService (searchCollection args) embeddingService;;
     embedAndSearch args embeddingService compatibilityResult)
    (fun e => ret (failure ("Error searching: " +:+ errorMessage e))).

(** [handleListCollections()] *)
Definition handleListCollections : M ToolResult :=
  tryCatch
    (collections <- QdrantService.listCollections;;
     env <- getEnv;;
     ret (success (stringify env collections)))
    (fun e =>
       env <- getEnv;;
       let errorDetails :=
         match e with
         | JsError name message =>
             name +:+ ": " +:+ message +:+ nl +:+ "Stack: " +:+ errorStack env name message
         | JsThrown rendering => rendering
         end in
       ret (failure ("Error listing collections: " +:+ errorDetails))).

(** [handleDeleteCollection(args)] *)
Definition handleDeleteCollection (collection : string) : M ToolResult :=
  tryCatch
    (QdrantService.deleteCollection collection;;;
     ret (success ("Successfully deleted collection: " +:+ collection)))
    (fun e => ret (failure ("Error deleting collection: " +:+ errorMessage e))).

(** The state of a freshly started server process. *)
Definition startState (st : gmap string CollectionState) : State :=
  {| store := st; dimensionCache := ∅; textProcessor := TextProcessing.initial;
     uuidsDrawn := 0%nat; trace := [] |}.

(** A tool call that reaches a handler of this embedding. *)
Inductive Request : Type :=
| ListCollections
| AddDocuments (args : AddDocumentsArgs)
| Search (args : SearchArgs)
| DeleteCollection (collection : string).

(** The [switch] of the [CallToolRequestSchema] handler. *)
Definition handle (request : Request) : M ToolResult :=
  match request with
  | ListCollections => handleListCollections
  | AddDocuments args => handleAddDocuments args
  | Search args => handleSearch args
  | DeleteCollection collection => handleDeleteCollection collection
  end.

(** The process serving requests one after the other: the state each one
    leaves is the state the next one finds. *)
Fixpoint serve (env : Env) (requests : list Request) (s : State) : State :=
  match requests with
  | [] => s
  | request :: rest => serve env rest (snd (handle request env s))
  end.

End Server.

(* ================================================================= *)
(** ** ollama.ts: resolution calls that overlap

    [initializeVectorSize()] is suspended once, at the [await] of the POST
    in [detectModelDimensions()]; while it waits, other calls run.  The
    method is split here at that point: [start] is what runs up to the
    [await], [resume] what runs when the answer has arrived.  (Run one
    after the other they are [Embeddings.initializeVectorSize].) *)

Module Overlap.

Import Embeddings.

(** A call waiting for the answer to its probe: the instance, and when the
    request was sent. *)
Record Pending : Type := {
  pendingService : Service;
  sentAt : nat
}.

(** [axios.post(...)] up to the [await]: the request is sent. *)
Definition send (service : Service) : M (Service + Pending) :=
  fun _ s =>
    (Ok (inr {| pendingService := service; sentAt := List.length (trace s) |}),
     logEvent s (AxiosPost (endpointText service +:+ "/api/embed") (modelName service)
                   ["test"])).

(** [initializeVectorSize()] up to its [await]: with a cached size the call
    ends here, without one the probe is sent and the call waits. *)
Definition start (service : Service) : M (Service + Pending) :=
  s <- getState;;
  let cachedSize := dimensionCache s !! modelKey service in
  match cachedSize with
  | Some size =>
      if negb (Z.eqb size 0) then ret (inl (setVectorSize service size))
      else send service
  | None => send service
  end.

(** The answer to the request of a waiting call. *)
Definition receive (p : Pending) : M (option (list Vec)) :=
  fun env s =>
    (axiosPost env (sentAt p)
       (endpointText (pendingService p) +:+ "/api/embed")
       (modelName (pendingService p)) ["test"], s).

(** [initializeVectorSize()] from its [await] on: the rest of
    [detectModelDimensions()], the assignment of [_vectorSize], the write to
    the cache, and the [catch] block around them. *)
Definition resume (p : Pending) : M Service :=
  let service := pendingService p in
  tryCatch
    (testEmbedding <-
       (data <- receive p;;
        match data with
        | None | Some [] =>
            throw (newError "Invalid response from Ollama API during dimension detection")
        | Some (embedding :: _) =>
            if isNumberArray embedding
            then match embedding with
                 | VArray elems => ret elems
                 | VNotArray => ret []
                 end
            else throw (newError
                   "Invalid embedding format in Ollama response during dimension detection")
        end);;
     let detected := Z.of_nat (List.length testEmbedding) in
     modify (fun s => setDimensionCache s
                        (<[modelKey service := detected]> (dimensionCache s)));;;
     ret (setVectorSize service detected))
    (fun error =>
       throw (newError ("Failed to detect vector dimensions for model "
                          +:+ modelName service +:+ ": " +:+ errorToString error))).

(** What the event loop does next: it lets a new resolution call run up to
    its [await], it lets a waiting call (numbered by its place among the
    waiting ones) run on with its answer, or it serves a tool invocation. *)
Inductive Action : Type :=
| Start (service : Service)
| Resume (waiting : nat)
| Handle (request : Server.Request).

(** The process with the resolution calls in flight. *)
Definition World : Type := State * list Pending.

Definition step (env : Env) (w : World) (a : Action) : World :=
  let '(s, inFlight) := w in
  match a with
  | Start service =>
      match start service env s with
      | (Ok (inr p), s1) => (s1, inFlight ++ [p])
      | (_, s1) => (s1, inFlight)
      end
  | Resume waiting =>
      match nth_error inFlight waiting with
      | Some p => (snd (resume p env s), firstn waiting inFlight ++ skipn (S waiting) inFlight)
      | None => w
      end
  | Handle request => (snd (Server.handle request env s), inFlight)
  end.

Definition run (env : Env) (actions : list Action) (w : World) : World :=
  fold_left (step env) actions w.

(** No call in flight is resolving [key]. *)
Definition quiet (key : string) (inFlight : list Pending) : bool :=
  forallb (fun p => negb (String.eqb (modelKey (pendingService p)) key)) inFlight.

End Overlap.

(* ================================================================= *)
(** ** What a run leaves alone *)

(** The store calls that change the store. *)
Definition mutates (e : Event) : bool :=
  match e with
  | QdrantCreateCollection _ _ | QdrantUpsert _ _ | QdrantDeleteCollection _ => true
  | _ => false
  end.

(** From [s] to [s']: the store is the same and no mutating call was made. *)
Definition storeUntouched (s s' : State) : Prop :=
  store s' = store s
  /\ exists events, trace s' = trace s ++ events
                    /\ forallb (fun e => negb (mutates e)) events = true.

(** From [s] to [s']: every nonzero entry of the dimension cache is still there. *)
Definition cacheKept (s s' : State) : Prop :=
  forall (key : string) (size : Z),
    dimensionCache s !! key = Some size -> size <> 0 ->
    dimensionCache s' !! key = Some size.

(** From [s] to [s']: the dimension cache is the same. *)
Definition cacheSame (s s' : State) : Prop :=
  dimensionCache s' = dimensionCache s.

(** From [s] to [s']: the text processor is the same and the trace has
    only grown. *)
Definition settingsKept (s s' : State) : Prop :=
  textProcessor s' = textProcessor s
  /\ exists events, trace s' = trace s ++ events.

(** A computation all of whose runs relate the state they find to the state
    they leave. *)
Definition keeps (R : State -> State -> Prop) {A : Type} (c : M A) : Prop :=
  forall env s, R s (snd (c env s)).

(* ================================================================= *)
(** ** services/validation.ts: the recommendation table *)

Module Recommendations.

(** [EmbeddingServiceRecommendation] *)
Record Recommendation : Type := {
  service : string;
  model : string;
  vectorSize : Z;
  useCase : string;
  pros : list string;
  cons : list string
}.

(** [getEmbeddingServiceRecommendations()] *)
Definition getEmbeddingServiceRecommendations : list Recommendation :=
  [ {| service := "openai";
       model := "text-embedding-ada-002";
       vectorSize := 1536;
       useCase := "General purpose, high quality embeddings";
       pros := ["High quality"; "Widely supported"; "Good for production"];
       cons := ["Requires API key"; "Costs money per request"] |};
    {| service := "ollama";
       model := "nomic-embed-text";
       vectorSize := 768;
       useCase := "Local embeddings, privacy-focused";
       pros := ["Free"; "Local processing"; "No API key needed"];
       cons := ["Requires local Ollama installation"; "Smaller vector size"] |};
    {| service := "fastembed";
       model := "BAAI/bge-small-en";
       vectorSize := 384;
       useCase := "Fast local embeddings, minimal resource usage";
       pros := ["Very fast"; "Small footprint"; "No network required"];
       cons := ["Smallest vector size"; "Limited language support"] |};
    {| service := "openrouter";
       model := "openai/text-embedding-ada-002";
       vectorSize := 1536;
       useCase := "OpenAI-compatible with multiple providers";
       pros := ["Multiple provider options"; "OpenAI compatibility"];
       cons := ["Requires API key"; "Variable pricing"] |} ].

(** The name of a provider in the tool arguments and in the table. *)
Definition serviceName (k : Embeddings.ServiceKind) : string :=
  match k with
  | Embeddings.openai => "openai"
  | Embeddings.openrouter => "openrouter"
  | Embeddings.fastembed => "fastembed"
  | Embeddings.ollama => "ollama"
  end.

(** The rows of the table for one provider. *)
Definition rowsFor (k : Embeddings.ServiceKind) : list Recommendation :=
  List.filter (fun r => String.eqb (service r) (serviceName k))
    getEmbeddingServiceRecommendations.

End Recommendations.

(* ================================================================= *)
(** ** ollama.ts, earlier revision: one request per text

    The first [OllamaEmbeddingService] of the file has the fixed
    [vectorSize = 768] and embeds the texts one after the other through
    [/api/embeddings].  Its requests are kept in a log of their own. *)

Module LegacyOllama.

(** The body of one request: [{model, prompt}] and the address. *)
Record Request : Type := {
  url : string;
  requestModel : string;
  prompt : string
}.

(** [new OllamaEmbeddingService(endpoint, model)] of that revision; the
    endpoint default is never empty, so [validateConfig] passes. *)
Definition create (endpoint model : option string) : Embeddings.Service :=
  {| Embeddings.kind := Embeddings.ollama; Embeddings.apiKey := None;
     Embeddings.endpoint := Some (orDefault endpoint "http://localhost:11434");
     Embeddings.model := Some (orDefault model "nomic-embed-text");
     Embeddings._vectorSize := None |}.

(** [readonly vectorSize = 768] *)
Definition vectorSize (service : Embeddings.Service) : Z := 768.

Definition requestOf (service : Embeddings.Service) (text : string) : Request :=
  {| url := Embeddings.endpointText service +:+ "/api/embeddings";
     requestModel := Embeddings.modelName service;
     prompt := text |}.

Section Run.

(** [response.data.embedding] of the answer to a request, given how many
    requests were made before it: the call may reject, the field may be
    missing or falsy ([None]), or hold an array or something else. *)
Variable axiosPost : nat -> Request -> Outcome (option Vec).

(** The [for (const text of texts)] loop: [embeddings] is the array built
    so far, [log] the requests made so far. *)
Fixpoint embedEach (service : Embeddings.Service) (texts : list string)
    (embeddings : list Vec) (log : list Request) : Outcome (list Vec) * list Request :=
  match texts with
  | [] => (Ok embeddings, log)
  | text :: rest =>
      let request := requestOf service text in
      match axiosPost (List.length log) request with
      | Throw e => (Throw e, log ++ [request])
      | Ok (Some (VArray elems)) =>
          embedEach service rest (embeddings ++ [VArray elems]) (log ++ [request])
      | Ok _ => (Throw (newError "Invalid response from Ollama API"), log ++ [request])
      end
  end.

(** [generateEmbeddings(texts)] *)
Definition generateEmbeddings (service : Embeddings.Service) (texts : list string)
    (log : list Request) : Outcome (list Vec) * list Request :=
  embedEach service texts [] log.

End Run.

End LegacyOllama.

(** The one request with which a service of the three providers that embed
    over the network sends a batch.  (The FastEmbed service embeds in the
    process, with an embedder it builds on first use.) *)
Definition batchRequest (service : Embeddings.Service) (texts : list string)
    : option Event :=
  match Embeddings.kind service with
  | Embeddings.openai | Embeddings.openrouter =>
      Some (AxiosPost (Embeddings.endpointText service +:+ "/embeddings")
              (Embeddings.modelName service) texts)
  | Embeddings.ollama =>
      Some (AxiosPost (Embeddings.endpointText service +:+ "/api/embed")
              (Embeddings.modelName service) texts)
  | Embeddings.fastembed => None
  end.

(** The events of the creation step of an ingest. *)
Definition creationEvents (name : string) (service : Embeddings.Service)
    (verdict : Compatibility.Result) : list Event :=
  match Compatibility.action verdict, Embeddings.vectorSize service with
  | Compatibility.create_collection, Ok size => [QdrantCreateCollection name size]
  | _, _ => []
  end.

(** A collection of the store whose single-vector configuration has [size]. *)
Definition holdsSize (st : gmap string CollectionState) (name : string) (size : Z) : bool :=
  match st !! name with
  | Some c =>
      match vectorsConfig c with
      | Some params => Z.eqb (paramsSize params) size
      | None => false
      end
  | None => false
  end.

(** An array whose elements are all numbers other than [NaN]: [NaN] is the
    one number the vector validator counts as non-numeric. *)
Definition freeOfNaN (vector : Vec) : bool :=
  match vector with
  | VArray elems =>
      forallb (fun v => match v with
                        | ENum value => negb (PrimFloat.is_nan value)
                        | EOther _ => false
                        end) elems
  | VNotArray => false
  end.

(* ================================================================= *)
(** ** Sample surroundings *)

Module Sample.

Import Embeddings Server.

(** A reachable store, a file, an OpenAI key, embedding servers that answer
    every text with three numbers, a splitter that returns the text as one
    document. *)
Definition env : Env :=
  {| processEnv := fun name => if String.eqb name "OPENAI_API_KEY" then Some "sk-test"
                               else None;
     fileContent := fun _ => Ok "alpha beta gamma";
     qdrantFault := fun _ => None;
     searchResponse := fun _ => [];
     axiosPost := fun _ _ _ input =>
                    Ok (Some (List.map (fun _ => VArray [ENum 1; ENum 0; ENum 0]) input));
     fastEmbed := fun _ _ texts => Ok (List.map (fun _ => repeat 0.5%float 384) texts);
     newSplitter := fun size overlap =>
                      if Z.ltb overlap size then None
                      else Some (newError "Cannot have chunkOverlap >= chunkSize");
     createDocuments := fun _ _ content =>
                          Ok [{| pageContent := content; metadataStart := None;
                                 metadataEnd := None |}];
     uuid := fun n => "id-" +:+ showN n;
     toFixed2 := fun _ => "0.00";
     stringify := fun names => "[" +:+ join ", " names +:+ "]";
     errorStack := fun name message => name +:+ ": " +:+ message |}.

(** The same with a store that cannot be reached. *)
Definition unreachable : Env :=
  {| processEnv := processEnv env; fileContent := fileContent env;
     qdrantFault := fun _ => Some (JsError "Error" "fetch failed");
     searchResponse := searchResponse env; axiosPost := axiosPost env;
     fastEmbed := fastEmbed env; newSplitter := newSplitter env;
     createDocuments := createDocuments env; uuid := uuid env;
     toFixed2 := toFixed2 env; stringify := stringify env; errorStack := errorStack env |}.

(** The same with an Ollama server that answers the first request with an
    empty embedding and every later one with three numbers. *)
Definition emptyFirst : Env :=
  {| processEnv := processEnv env; fileContent := fileContent env;
     qdrantFault := qdrantFault env;
     searchResponse := searchResponse env;
     axiosPost := fun now _ _ input =>
                    if Nat.eqb now 0 then Ok (Some (List.map (fun _ => VArray []) input))
                    else Ok (Some (List.map (fun _ => VArray [ENum 1; ENum 0; ENum 0]) input));
     fastEmbed := fastEmbed env; newSplitter := newSplitter env;
     createDocuments := createDocuments env; uuid := uuid env;
     toFixed2 := toFixed2 env; stringify := stringify env; errorStack := errorStack env |}.

(** The same with embedding servers that refuse the connection. *)
Definition silent : Env :=
  {| processEnv := processEnv env; fileContent := fileContent env;
     qdrantFault := qdrantFault env;
     searchResponse := searchResponse env;
     axiosPost := fun _ _ _ _ => Throw (newError "connect ECONNREFUSED");
     fastEmbed := fun _ _ _ => Throw (newError "model file not found");
     newSplitter := newSplitter env;
     createDocuments := createDocuments env; uuid := uuid env;
     toFixed2 := toFixed2 env; stringify := stringify env; errorStack := errorStack env |}.

(** The same with a store that serves the first call and drops the second. *)
Definition secondCallFails : Env :=
  {| processEnv := processEnv env; fileContent := fileContent env;
     qdrantFault := fun now => if Nat.eqb now 1 then Some (newError "socket hang up")
                               else None;
     searchResponse := searchResponse env; axiosPost := axiosPost env;
     fastEmbed := fastEmbed env; newSplitter := newSplitter env;
     createDocuments := createDocuments env; uuid := uuid env;
     toFixed2 := toFixed2 env; stringify := stringify env; errorStack := errorStack env |}.

(** The same with embedding servers that answer with no embedding at all. *)
Definition mute : Env :=
  {| processEnv := processEnv env; fileContent := fileContent env;
     qdrantFault := qdrantFault env;
     searchResponse := searchResponse env;
     axiosPost := fun _ _ _ _ => Ok (Some []);
     fastEmbed := fun _ _ _ => Ok [];
     newSplitter := newSplitter env;
     createDocuments := createDocuments env; uuid := uuid env;
     toFixed2 := toFixed2 env; stringify := stringify env; errorStack := errorStack env |}.

(** A store with the collection ["small"] of dimension 384. *)
Definition small384 : gmap string CollectionState :=
  {[ "small" := {| vectorsConfig := Some {| paramsSize := 384; paramsDistance := Some "Cosine" |};
                   points := [] |} ]}.

(** The same with an Ollama server whose model is replaced after the first
    request: three numbers per text at first, two from then on. *)
Definition replaced : Env :=
  {| processEnv := processEnv env; fileContent := fileContent env;
     qdrantFault := qdrantFault env;
     searchResponse := searchResponse env;
     axiosPost := fun now _ _ input =>
                    if Nat.eqb now 0
                    then Ok (Some (List.map (fun _ => VArray [ENum 1; ENum 0; ENum 0]) input))
                    else Ok (Some (List.map (fun _ => VArray [ENum 1; ENum 0]) input));
     fastEmbed := fastEmbed env; newSplitter := newSplitter env;
     createDocuments := createDocuments env; uuid := uuid env;
     toFixed2 := toFixed2 env; stringify := stringify env; errorStack := errorStack env |}.

(** A store with the collection ["docs"] of dimension 768. *)
Definition docs768 : gmap string CollectionState :=
  {[ "docs" := {| vectorsConfig := Some {| paramsSize := 768; paramsDistance := Some "Cosine" |};
                  points := [] |} ]}.

(** An Ollama service after and before [initializeVectorSize()]. *)
Definition ollama768 : Service :=
  {| kind := ollama; apiKey := None; endpoint := Some "http://localhost:11434";
     model := Some "nomic-embed-text"; _vectorSize := Some 768 |}.

(** An Ollama service for another model, before [initializeVectorSize()]. *)
Definition ollamaOther : Service :=
  {| kind := ollama; apiKey := None; endpoint := Some "http://localhost:11434";
     model := Some "mxbai-embed-large"; _vectorSize := None |}.

(** A FastEmbed service: 384 dimensions. *)
Definition fastembed384 : Service :=
  {| kind := fastembed; apiKey := None; endpoint := None;
     model := Some "BAAI/bge-small-en"; _vectorSize := None |}.

Definition ollamaFresh : Service :=
  {| kind := ollama; apiKey := None; endpoint := Some "http://localhost:11434";
     model := Some "nomic-embed-text"; _vectorSize := None |}.

(** A [QdrantService] whose two read methods reject. *)
Definition rejecting : Compatibility.Backend :=
  {| Compatibility.collectionExists := fun _ => throw (newError "connect ECONNREFUSED");
     Compatibility.getCollectionInfo := fun _ => throw (newError "connect ECONNREFUSED") |}.

(** A [QdrantService] that sees the collection and rejects the metadata fetch. *)
Definition rejectingInfo : Compatibility.Backend :=
  {| Compatibility.collectionExists := fun _ => ret true;
     Compatibility.getCollectionInfo := fun _ => throw (JsThrown "timeout") |}.

Definition searchMissing : SearchArgs :=
  {| query := "hello"; searchCollection := "missing";
     searchEmbeddingService := ollama; limit := None |}.

Definition searchSmall : SearchArgs :=
  {| query := "hello"; searchCollection := "small";
     searchEmbeddingService := fastembed; limit := None |}.




Definition addWithOpenAI : AddDocumentsArgs :=
  {| filePath := "notes.txt"; addCollection := "fresh"; addEmbeddingService := openai;
     argChunkSize := None; argChunkOverlap := None |}.

Definition addOllama : AddDocumentsArgs :=
  {| filePath := "notes.txt"; addCollection := "fresh"; addEmbeddingService := ollama;
     argChunkSize := None; argChunkOverlap := None |}.

Definition addPlain : AddDocumentsArgs :=
  {| filePath := "notes.txt"; addCollection := "docs"; addEmbeddingService := ollama;
     argChunkSize := None; argChunkOverlap := None |}.

End Sample.



(* ================================================================= *)
(** * Properties *)

(** ** Texts with numbers in them *)

#[local] Arguments String.append : simpl nomatch.

Lemma string_of_uint_digits (d : uint) : allDigits (NilEmpty.string_of_uint d) = true.
Proof. induction d; simpl; auto. Qed.

Lemma showN_digits (n : nat) : allDigits (showN n) = true.
Proof. apply string_of_uint_digits. Qed.

Lemma showN_inj (n m : nat) : showN n = showN m -> n = m.
Proof.
  unfold showN. intros H.
  apply (f_equal NilEmpty.uint_of_string) in H.
  rewrite !NilEmpty.usu in H.
  apply Unsigned.to_uint_inj. congruence.
Qed.

Lemma append_cancel (p a b : string) : p +:+ a = p +:+ b -> a = b.
Proof. induction p as [|c p IH]; simpl; [auto | intros [= H]; auto]. Qed.

(** Two numbers followed by non-digits: equal texts have equal parts. *)
Lemma digits_split (a b r1 r2 : string) :
  allDigits a = true -> allDigits b = true ->
  stopsDigits r1 = true -> stopsDigits r2 = true ->
  a +:+ r1 = b +:+ r2 -> a = b /\ r1 = r2.
Proof.
  revert b. induction a as [|c a IH]; intros [|d b] Ha Hb H1 H2 E; simpl in *.
  - auto.
  - subst r1. simpl in H1. apply andb_prop in Hb as [Hd _].
    rewrite Hd in H1. discriminate.
  - subst r2. simpl in H2. apply andb_prop in Ha as [Hc _].
    rewrite Hc in H2. discriminate.
  - injection E as -> E.
    apply andb_prop in Ha as [_ Ha]. apply andb_prop in Hb as [_ Hb].
    destruct (IH b Ha Hb H1 H2 E) as [-> ->]. auto.
Qed.

Lemma showN_split (n m : nat) (r1 r2 : string) :
  stopsDigits r1 = true -> stopsDigits r2 = true ->
  showN n +:+ r1 = showN m +:+ r2 -> n = m /\ r1 = r2.
Proof.
  intros H1 H2 E.
  destruct (digits_split _ _ _ _ (showN_digits n) (showN_digits m) H1 H2 E) as [En Er].
  split; [apply showN_inj; exact En | exact Er].
Qed.

(** ** The vector data validator *)

Section VectorDataFacts.

Import VectorData.
Variable expected : Z.

Lemma checkVector_acc (index : nat) (vector : Vec) (errs warns : list string) :
  checkVector expected index vector (errs, warns)
  = (errs ++ vectorErrors expected index vector,
     warns ++ vectorWarnings expected index vector).
Proof.
  unfold vectorErrors, vectorWarnings, checkVector.
  destruct vector as [elems|]; simpl; [|now rewrite app_nil_r].
  destruct (Z.eqb _ expected);
    destruct (Nat.ltb 0 (List.length (List.filter isNonNumber elems)));
    destruct (Nat.ltb 0 (List.length (List.filter isExtreme elems)));
    simpl; rewrite ?app_nil_r, <- ?app_assoc; reflexivity.
Qed.

Lemma forEachVector_acc (vectors : list Vec) :
  forall (index : nat) (errs warns : list string),
    forEachVector expected index vectors (errs, warns)
    = (errs ++ errorsFrom expected index vectors,
       warns ++ warningsFrom expected index vectors).
Proof.
  induction vectors as [|v rest IH]; intros index errs warns;
    cbn [forEachVector errorsFrom warningsFrom].
  - now rewrite !app_nil_r.
  - rewrite checkVector_acc, IH, <- !app_assoc. reflexivity.
Qed.

(** The verdict, list by list. *)
Lemma validateVectorData_unfold (vectors : list Vec) :
  validateVectorData vectors expected
  = let errs := (if Nat.eqb (List.length vectors) 0 then ["No vectors provided"] else [])
                  ++ errorsFrom expected 0 vectors in
    {| isValid := Nat.eqb (List.length errs) 0;
       errors := errs;
       warnings := warningsFrom expected 0 vectors;
       vectorCount := List.length vectors;
       expectedSize := expected |}.
Proof.
  unfold validateVectorData. rewrite forEachVector_acc. reflexivity.
Qed.

Lemma vectorWarnings_count (index : nat) (vector : Vec) :
  vectorWarnings expected index vector
  = if Nat.ltb 0 (extremeCount vector)
    then [extremeMessage index (extremeCount vector)] else [].
Proof.
  unfold vectorWarnings, checkVector, extremeCount.
  destruct vector as [elems|]; simpl; [|reflexivity].
  destruct (Nat.ltb 0 (List.length (List.filter isExtreme elems))); reflexivity.
Qed.

Lemma vectorErrors_wellFormed (index : nat) (vector : Vec) :
  wellFormed expected vector = true -> vectorErrors expected index vector = [].
Proof.
  unfold wellFormed, vectorErrors, checkVector.
  destruct vector as [elems|]; [|discriminate].
  intros H. apply andb_prop in H as [Hsize Hnum].
  rewrite Hsize.
  assert (List.filter isNonNumber elems = []) as ->; [|reflexivity].
  clear Hsize. induction elems as [|e elems IH]; [reflexivity|].
  simpl in *. apply andb_prop in Hnum as [He Hrest].
  destruct (isNonNumber e); [discriminate | auto].
Qed.

Lemma errorsFrom_wellFormed (vectors : list Vec) :
  forallb (wellFormed expected) vectors = true ->
  forall index, errorsFrom expected index vectors = [].
Proof.
  induction vectors as [|v rest IH]; intros H index; [reflexivity|].
  simpl in *. apply andb_prop in H as [Hv Hrest].
  rewrite (vectorErrors_wellFormed _ _ Hv), (IH Hrest). reflexivity.
Qed.

(** Membership in the lists of a batch is membership in the list of one
    of its vectors. *)
Lemma in_errorsFrom (msg : string) (vectors : list Vec) :
  forall start,
    In msg (errorsFrom expected start vectors) <->
    exists i v, nth_error vectors i = Some v
                /\ In msg (vectorErrors expected (start + i) v).
Proof.
  induction vectors as [|v rest IH]; intros start; simpl.
  - split; [tauto | intros (i & w & H & _); destruct i; discriminate].
  - rewrite in_app_iff, IH. split.
    + intros [H | (i & w & Hn & Hin)].
      * exists 0%nat, v. rewrite Nat.add_0_r. auto.
      * exists (S i), w. rewrite Nat.add_succ_r. auto.
    + intros ([|i] & w & Hn & Hin); simpl in Hn.
      * injection Hn as <-. rewrite Nat.add_0_r in Hin. auto.
      * right. exists i, w. rewrite Nat.add_succ_r in Hin. auto.
Qed.

Lemma in_warningsFrom (msg : string) (vectors : list Vec) :
  forall start,
    In msg (warningsFrom expected start vectors) <->
    exists i v, nth_error vectors i = Some v
                /\ In msg (vectorWarnings expected (start + i) v).
Proof.
  induction vectors as [|v rest IH]; intros start; simpl.
  - split; [tauto | intros (i & w & H & _); destruct i; discriminate].
  - rewrite in_app_iff, IH. split.
    + intros [H | (i & w & Hn & Hin)].
      * exists 0%nat, v. rewrite Nat.add_0_r. auto.
      * exists (S i), w. rewrite Nat.add_succ_r. auto.
    + intros ([|i] & w & Hn & Hin); simpl in Hn.
      * injection Hn as <-. rewrite Nat.add_0_r in Hin. auto.
      * right. exists i, w. rewrite Nat.add_succ_r in Hin. auto.
Qed.

End VectorDataFacts.

Example validateVectorData_valid_sample :
  VectorData.validateVectorData
    [VArray [ENum 0.1; ENum 0.2; ENum 0.3]; VArray [ENum 0.4; ENum 0.5; ENum 0.6]] 3
  = {| VectorData.isValid := true; VectorData.errors := []; VectorData.warnings := [];
       VectorData.vectorCount := 2; VectorData.expectedSize := 3 |}.
Proof. reflexivity. Qed.

Example validateVectorData_invalid_sample :
  VectorData.errors (VectorData.validateVectorData
    [VArray [ENum 0.1; ENum 0.2]; VArray [ENum 0.4; ENum 0.5; ENum 0.6; ENum 0.7]] 3)
  = ["Vector at index 0 has size 2, expected 3";
     "Vector at index 1 has size 4, expected 3"].
Proof. reflexivity. Qed.

(** ** The messages of the validator are pairwise different *)

Section Messages.

Import VectorData.

Lemma sizeMessage_inj (i n j m : nat) (e e' : Z) :
  sizeMessage i n e = sizeMessage j m e' -> i = j /\ n = m.
Proof.
  unfold sizeMessage. intros H.
  apply append_cancel in H.
  apply showN_split in H as [-> H]; [|reflexivity..].
  apply (append_cancel " has size ") in H.
  apply showN_split in H as [-> _]; [|reflexivity..].
  auto.
Qed.

Lemma sizeMessage_not_notArray (i n j : nat) (e : Z) :
  sizeMessage i n e <> notArrayMessage j.
Proof.
  unfold sizeMessage, notArrayMessage. intros H.
  apply append_cancel in H.
  apply showN_split in H as [_ H]; [discriminate | reflexivity..].
Qed.

Lemma sizeMessage_not_nonNumeric (i n j k : nat) (e : Z) :
  sizeMessage i n e <> nonNumericMessage j k.
Proof.
  unfold sizeMessage, nonNumericMessage. intros H.
  apply append_cancel in H.
  apply showN_split in H as [_ H]; [discriminate | reflexivity..].
Qed.

Lemma sizeMessage_not_noVectors (i n : nat) (e : Z) :
  sizeMessage i n e <> "No vectors provided".
Proof. unfold sizeMessage. simpl. discriminate. Qed.

Lemma extremeMessage_not_nonNumeric (i n j k : nat) :
  extremeMessage i n <> nonNumericMessage j k.
Proof.
  unfold extremeMessage, nonNumericMessage. intros H.
  apply append_cancel in H.
  apply showN_split in H as [_ H]; [|reflexivity..].
  apply (append_cancel " contains ") in H.
  apply showN_split in H as [_ H]; [discriminate | reflexivity..].
Qed.

Lemma extremeMessage_not_size (i n j m : nat) (e : Z) :
  extremeMessage i n <> sizeMessage j m e.
Proof.
  unfold extremeMessage, sizeMessage. intros H.
  apply append_cancel in H.
  apply showN_split in H as [_ H]; [discriminate | reflexivity..].
Qed.

Lemma extremeMessage_not_notArray (i n j : nat) :
  extremeMessage i n <> notArrayMessage j.
Proof.
  unfold extremeMessage, notArrayMessage. intros H.
  apply append_cancel in H.
  apply showN_split in H as [_ H]; [discriminate | reflexivity..].
Qed.

Lemma extremeMessage_not_noVectors (i n : nat) :
  extremeMessage i n <> "No vectors provided".
Proof. unfold extremeMessage. simpl. discriminate. Qed.

Variable expected : Z.

(** The errors one vector adds, spelled out. *)
Lemma vectorErrors_array (index : nat) (elems : list Elem) :
  vectorErrors expected index (VArray elems)
  = (if Z.eqb (Z.of_nat (List.length elems)) expected then []
     else [sizeMessage index (List.length elems) expected])
    ++ (if Nat.ltb 0 (List.length (List.filter isNonNumber elems))
        then [nonNumericMessage index (List.length (List.filter isNonNumber elems))]
        else []).
Proof.
  unfold vectorErrors, checkVector. simpl.
  destruct (Z.eqb _ expected);
    destruct (Nat.ltb 0 (List.length (List.filter isNonNumber elems))); reflexivity.
Qed.

(** A size message among the errors of a vector is that vector's own. *)
Lemma in_vectorErrors_size (j n i : nat) (v : Vec) :
  In (sizeMessage j n expected) (vectorErrors expected i v) ->
  j = i /\ exists elems, v = VArray elems /\ List.length elems = n
                         /\ Z.of_nat n <> expected.
Proof.
  destruct v as [elems|].
  - rewrite vectorErrors_array, in_app_iff. intros [H | H].
    + destruct (Z.eqb_spec (Z.of_nat (List.length elems)) expected) as [|Hne];
        [destruct H|].
      destruct H as [H | []]. symmetry in H.
      apply sizeMessage_inj in H as [-> ->]. eauto.
    + destruct (Nat.ltb 0 _); [|destruct H].
      destruct H as [H | []]. symmetry in H.
      now apply sizeMessage_not_nonNumeric in H.
  - unfold vectorErrors, checkVector. simpl. intros [H | []].
    symmetry in H. now apply sizeMessage_not_notArray in H.
Qed.

(** An offending vector carries its size message exactly once. *)
Lemma count_vectorErrors_size (index : nat) (elems : list Elem) :
  Z.of_nat (List.length elems) <> expected ->
  count_occ string_dec (vectorErrors expected index (VArray elems))
    (sizeMessage index (List.length elems) expected) = 1%nat.
Proof.
  intros Hne. rewrite vectorErrors_array, count_occ_app.
  destruct (Z.eqb (Z.of_nat (List.length elems)) expected) eqn:E;
    [apply Z.eqb_eq in E; contradiction|].
  cbn [count_occ]. destruct (string_dec _ _) as [?|C]; [|contradiction].
  destruct (Nat.ltb 0 _); [reflexivity || cbn [count_occ] | reflexivity].
  destruct (string_dec _ _) as [C|?]; [|reflexivity].
  symmetry in C. now apply sizeMessage_not_nonNumeric in C.
Qed.

Lemma count_errorsFrom_size (vectors : list Vec) :
  forall (start i : nat) (elems : list Elem),
    nth_error vectors i = Some (VArray elems) ->
    Z.of_nat (List.length elems) <> expected ->
    count_occ string_dec (errorsFrom expected start vectors)
      (sizeMessage (start + i) (List.length elems) expected) = 1%nat.
Proof.
  induction vectors as [|v rest IH]; intros start i elems Hn Hne.
  - destruct i; discriminate.
  - cbn [errorsFrom]. rewrite count_occ_app. destruct i as [|i]; simpl in Hn.
    + injection Hn as ->. rewrite Nat.add_0_r, count_vectorErrors_size by assumption.
      assert (count_occ string_dec (errorsFrom expected (S start) rest)
                (sizeMessage start (List.length elems) expected) = 0%nat) as ->;
        [|reflexivity].
      apply count_occ_not_In. rewrite in_errorsFrom.
      intros (k & w & _ & Hin). apply in_vectorErrors_size in Hin as [E _]. lia.
    + assert (count_occ string_dec (vectorErrors expected start v)
                (sizeMessage (start + S i) (List.length elems) expected) = 0%nat) as ->.
      { apply count_occ_not_In. intros Hin.
        apply in_vectorErrors_size in Hin as [E _]. lia. }
      rewrite Nat.add_succ_r. apply (IH (S start) i elems Hn Hne).
Qed.

End Messages.

(** C6. For every batch and every index whose vector is an array of a length
    other than the expected one, the errors of the single call contain the
    message naming that index, its length and the expected length exactly
    once, whatever the other vectors are; and every size message among the
    errors names such an index, so there is one per offending index. *)
Theorem validateVectorData_reports_every_wrong_length
    (vectors : list Vec) (expected : Z) :
  let verdict := VectorData.validateVectorData vectors expected in
  (forall (index : nat) (elems : list Elem),
      nth_error vectors index = Some (VArray elems) ->
      Z.of_nat (List.length elems) <> expected ->
      count_occ string_dec (VectorData.errors verdict)
        (VectorData.sizeMessage index (List.length elems) expected) = 1%nat)
  /\ (forall (index size : nat),
         In (VectorData.sizeMessage index size expected) (VectorData.errors verdict) ->
         exists elems, nth_error vectors index = Some (VArray elems)
                       /\ List.length elems = size /\ Z.of_nat size <> expected).
Proof.
  cbv zeta. rewrite validateVectorData_unfold. cbv zeta. cbn [VectorData.errors]. split.
  - intros index elems Hn Hne. rewrite count_occ_app.
    pose proof (count_errorsFrom_size expected vectors 0 index elems Hn Hne) as Hc.
    rewrite Nat.add_0_l in Hc. rewrite Hc.
    destruct (Nat.eqb _ 0); [|reflexivity].
    cbn [count_occ]. destruct (string_dec _ _) as [C|?]; [|reflexivity].
    symmetry in C. now apply sizeMessage_not_noVectors in C.
  - intros index size Hin. apply in_app_iff in Hin as [Hin | Hin].
    + destruct (Nat.eqb _ 0); [|destruct Hin].
      destruct Hin as [C | []]. symmetry in C. now apply sizeMessage_not_noVectors in C.
    + apply in_errorsFrom in Hin as (i & v & Hn & Hin).
      apply in_vectorErrors_size in Hin as [-> (elems & -> & Hl & Hne)].
      exists elems. auto.
Qed.

Section Warnings.

Import VectorData.
Variable expected : Z.

Lemma not_in_vectorErrors_extreme (j n i : nat) (v : Vec) :
  ~ In (extremeMessage j n) (vectorErrors expected i v).
Proof.
  destruct v as [elems|].
  - rewrite vectorErrors_array, in_app_iff. intros [H | H].
    + destruct (Z.eqb _ expected); [destruct H|].
      destruct H as [H | []]. symmetry in H. now apply extremeMessage_not_size in H.
    + destruct (Nat.ltb 0 _); [|destruct H].
      destruct H as [H | []]. symmetry in H. now apply extremeMessage_not_nonNumeric in H.
  - unfold vectorErrors, checkVector. cbn [fst app]. intros [H | []].
    symmetry in H. now apply extremeMessage_not_notArray in H.
Qed.

Lemma warningsFrom_quiet (vectors : list Vec) :
  (forall j other, nth_error vectors j = Some other -> extremeCount other = 0%nat) ->
  forall start, warningsFrom expected start vectors = [].
Proof.
  induction vectors as [|v rest IH]; intros H start; [reflexivity|].
  cbn [warningsFrom]. rewrite vectorWarnings_count, (H 0%nat v eq_refl).
  cbn [Nat.ltb Nat.leb app]. apply IH. intros j other Hj. apply (H (S j) other Hj).
Qed.

Lemma warningsFrom_single (vectors : list Vec) :
  forall (start index : nat) (vector : Vec),
    nth_error vectors index = Some vector ->
    extremeCount vector = 1%nat ->
    (forall j other, j <> index -> nth_error vectors j = Some other ->
                     extremeCount other = 0%nat) ->
    warningsFrom expected start vectors = [extremeMessage (start + index) 1].
Proof.
  induction vectors as [|v rest IH]; intros start index vector Hn Hone Hothers.
  - destruct index; discriminate.
  - cbn [warningsFrom]. rewrite vectorWarnings_count. destruct index as [|index].
    + injection Hn as ->. rewrite Hone, Nat.add_0_r. cbn [Nat.ltb Nat.leb].
      rewrite warningsFrom_quiet; [reflexivity|].
      intros j other Hj. apply (Hothers (S j) other); [lia | exact Hj].
    + rewrite (Hothers 0%nat v) by (lia || reflexivity). cbn [Nat.ltb Nat.leb app].
      rewrite Nat.add_succ_r. apply (IH (S start) index vector Hn Hone).
      intros j other Hne Hj. apply (Hothers (S j) other); [lia | exact Hj].
Qed.

End Warnings.

(** C5. The verdict is valid exactly when its error list is empty, whatever
    the warnings; a vector with elements of absolute value above 100 puts
    the message naming their count among the warnings and nothing among the
    errors; hence a batch of well-formed vectors (arrays of the expected
    length, every element a number) with exactly one such element, 150 or
    -150 for instance, is valid with no error and exactly the one warning
    naming 1 value. *)
Theorem validateVectorData_valid_iff_no_errors (vectors : list Vec) (expected : Z) :
  let verdict := VectorData.validateVectorData vectors expected in
  (VectorData.isValid verdict = true <-> VectorData.errors verdict = [])
  /\ (forall (index : nat) (vector : Vec),
         nth_error vectors index = Some vector ->
         (0 < VectorData.extremeCount vector)%nat ->
         In (VectorData.extremeMessage index (VectorData.extremeCount vector))
            (VectorData.warnings verdict))
  /\ (forall (index count : nat),
         ~ In (VectorData.extremeMessage index count) (VectorData.errors verdict))
  /\ (forallb (VectorData.wellFormed expected) vectors = true ->
      forall (index : nat) (vector : Vec),
        nth_error vectors index = Some vector ->
        VectorData.extremeCount vector = 1%nat ->
        (forall j other, j <> index -> nth_error vectors j = Some other ->
                         VectorData.extremeCount other = 0%nat) ->
        VectorData.isValid verdict = true
        /\ VectorData.errors verdict = []
        /\ VectorData.warnings verdict = [VectorData.extremeMessage index 1])
  /\ isExtreme (ENum 150) = true /\ isExtreme (ENum (-150)) = true.
Proof.
  cbv zeta. rewrite validateVectorData_unfold. cbv zeta.
  cbn [VectorData.isValid VectorData.errors VectorData.warnings].
  split; [|split; [|split; [|split; [|split; reflexivity]]]].
  - destruct (_ ++ _) as [|msg rest]; cbn; split; congruence.
  - intros index vector Hn Hpos. apply in_warningsFrom.
    exists index, vector. split; [exact Hn|].
    rewrite vectorWarnings_count. apply Nat.ltb_lt in Hpos. rewrite Hpos. now left.
  - intros index count Hin. apply in_app_iff in Hin as [Hin | Hin].
    + destruct (Nat.eqb _ 0); [|destruct Hin].
      destruct Hin as [C | []]. symmetry in C.
      now apply extremeMessage_not_noVectors in C.
    + apply in_errorsFrom in Hin as (i & v & _ & Hin).
      now apply not_in_vectorErrors_extreme in Hin.
  - intros Hwf index vector Hn Hone Hothers.
    rewrite (errorsFrom_wellFormed expected vectors Hwf).
    assert (Nat.eqb (List.length vectors) 0 = false) as ->.
    { destruct vectors; [destruct index; discriminate | reflexivity]. }
    rewrite (warningsFrom_single expected vectors 0 index vector Hn Hone Hothers).
    auto.
Qed.

(** The batch of the specification's example: one vector of three numbers,
    one of them 150. *)
Lemma validateVectorData_valid_iff_no_errors_witness :
  forallb (VectorData.wellFormed 3) [VArray [ENum 0.5; ENum 150; ENum (-0.25)]] = true
  /\ VectorData.validateVectorData [VArray [ENum 0.5; ENum 150; ENum (-0.25)]] 3
     = {| VectorData.isValid := true;
          VectorData.errors := [];
          VectorData.warnings := ["Vector at index 0 contains 1 values with absolute value > 100"];
          VectorData.vectorCount := 1;
          VectorData.expectedSize := 3 |}
  /\ VectorData.isValid
       (VectorData.validateVectorData [VArray [ENum 0.5; ENum 150; ENum (-0.25)]] 3) = true
  /\ VectorData.errors
       (VectorData.validateVectorData [VArray [ENum 0.5; ENum 150; ENum (-0.25)]] 3) = []
  /\ VectorData.warnings
       (VectorData.validateVectorData [VArray [ENum 0.5; ENum 150; ENum (-0.25)]] 3)
     = [VectorData.extremeMessage 0 1].
Proof.
  split; [reflexivity|]. split; [reflexivity|].
  apply (proj1 (proj2 (proj2 (proj2
           (validateVectorData_valid_iff_no_errors
              [VArray [ENum 0.5; ENum 150; ENum (-0.25)]] 3))))
           eq_refl 0%nat (VArray [ENum 0.5; ENum 150; ENum (-0.25)]) eq_refl eq_refl).
  intros [|j] other Hne Hj; [congruence | destruct j; discriminate].
Defined.

(** The batch of test-validation.js with two vectors of the wrong length. *)
Lemma validateVectorData_reports_every_wrong_length_witness :
  nth_error [VArray [ENum 0.1; ENum 0.2]; VArray [ENum 0.4; ENum 0.5; ENum 0.6; ENum 0.7]] 1
    = Some (VArray [ENum 0.4; ENum 0.5; ENum 0.6; ENum 0.7])
  /\ Z.of_nat 4 <> 3
  /\ count_occ string_dec
       (VectorData.errors
          (VectorData.validateVectorData
             [VArray [ENum 0.1; ENum 0.2]; VArray [ENum 0.4; ENum 0.5; ENum 0.6; ENum 0.7]] 3))
       (VectorData.sizeMessage 1 4 3) = 1%nat.
Proof.
  split; [reflexivity|]. split; [discriminate|].
  apply (proj1 (validateVectorData_reports_every_wrong_length
                  [VArray [ENum 0.1; ENum 0.2];
                   VArray [ENum 0.4; ENum 0.5; ENum 0.6; ENum 0.7]] 3)
           1%nat [ENum 0.4; ENum 0.5; ENum 0.6; ENum 0.7] eq_refl).
  discriminate.
Defined.

(* ================================================================= *)
(** ** Runs and what they keep *)

Section Keeps.

Variable R : State -> State -> Prop.
Hypothesis R_refl : forall s, R s s.
Hypothesis R_trans : forall a b c, R a b -> R b c -> R a c.

Lemma keeps_ret {A : Type} (a : A) : keeps R (ret a).
Proof. intros env s. apply R_refl. Qed.

Lemma keeps_throw {A : Type} (e : Exn) : keeps R (@throw A e).
Proof. intros env s. apply R_refl. Qed.

Lemma keeps_lift {A : Type} (o : Outcome A) : keeps R (lift o).
Proof. intros env s. apply R_refl. Qed.

Lemma keeps_getState : keeps R getState.
Proof. intros env s. apply R_refl. Qed.

Lemma keeps_getEnv : keeps R getEnv.
Proof. intros env s. apply R_refl. Qed.

Lemma keeps_modify (f : State -> State) : (forall s, R s (f s)) -> keeps R (modify f).
Proof. intros H env s. apply H. Qed.

Lemma keeps_bind {A B : Type} (c : M A) (k : A -> M B) :
  keeps R c -> (forall a, keeps R (k a)) -> keeps R (bind c k).
Proof.
  intros Hc Hk env s. unfold bind. specialize (Hc env s).
  destruct (c env s) as [[a|e] s1]; cbn in *; [|exact Hc].
  apply (R_trans _ _ _ Hc (Hk a env s1)).
Qed.

Lemma keeps_tryCatch {A : Type} (body : M A) (handler : Exn -> M A) :
  keeps R body -> (forall e, keeps R (handler e)) -> keeps R (tryCatch body handler).
Proof.
  intros Hb Hh env s. unfold tryCatch. specialize (Hb env s).
  destruct (body env s) as [[a|e] s1]; cbn in *; [exact Hb|].
  apply (R_trans _ _ _ Hb (Hh e env s1)).
Qed.

Lemma keeps_mapM {A B : Type} (f : A -> M B) (xs : list A) :
  (forall x, keeps R (f x)) -> keeps R (mapM f xs).
Proof.
  intros Hf. induction xs as [|x rest IH]; cbn [mapM].
  - apply keeps_ret.
  - apply keeps_bind; [apply Hf|]. intros y.
    apply keeps_bind; [apply IH|]. intros ys. apply keeps_ret.
Qed.

End Keeps.

(** Breaks a goal [keeps R c] along the structure of [c]; [refl] and [trans]
    are the two facts about [R], [leaf] closes the calls it knows. *)
Ltac keeps_walk refl trans leaf :=
  repeat first
    [ apply (keeps_ret _ refl)
    | apply (keeps_throw _ refl)
    | apply (keeps_lift _ refl)
    | apply (keeps_getState _ refl)
    | apply (keeps_getEnv _ refl)
    | leaf
    | apply (keeps_bind _ trans); [|intros ?]
    | apply (keeps_tryCatch _ trans); [|intros ?]
    | apply (keeps_mapM _ refl trans); intros ?
    | match goal with
      | |- keeps _ (if ?b then _ else _) => destruct b
      | |- keeps _ (match ?x with _ => _ end) => destruct x
      | |- keeps _ (let (_, _) := ?x in _) => destruct x
      end ].

(** *** The store is left alone *)

Lemma storeUntouched_refl (s : State) : storeUntouched s s.
Proof. split; [reflexivity|]. exists []. now rewrite app_nil_r. Qed.

Lemma storeUntouched_trans (a b c : State) :
  storeUntouched a b -> storeUntouched b c -> storeUntouched a c.
Proof.
  intros [Hs1 (e1 & Ht1 & Hm1)] [Hs2 (e2 & Ht2 & Hm2)]. split; [congruence|].
  exists (e1 ++ e2). rewrite Ht2, Ht1, <- app_assoc, forallb_app, Hm1, Hm2. auto.
Qed.

(** A recorded call that answers from the store without changing it. *)
Lemma storeUntouched_call {A : Type} (e : Event)
    (serve : nat -> Env -> gmap string CollectionState ->
             Outcome A * gmap string CollectionState) :
  mutates e = false ->
  (forall now env st, snd (serve now env st) = st) ->
  keeps storeUntouched (QdrantClient.call e serve).
Proof.
  intros He Hserve env s. unfold QdrantClient.call.
  destruct (qdrantFault env _).
  - split; [reflexivity|]. exists [e]. cbn. now rewrite He.
  - specialize (Hserve (List.length (trace s)) env (store s)).
    destruct (serve _ env (store s)) as [o st]. cbn in *. subst st.
    split; [reflexivity|]. exists [e]. cbn. now rewrite He.
Qed.

Lemma storeUntouched_logged {A : Type} (e : Event) (answer : Env -> State -> Outcome A) :
  mutates e = false ->
  keeps storeUntouched (fun env s => (answer env s, logEvent s e)).
Proof.
  intros He env s. split; [reflexivity|]. exists [e]. cbn. now rewrite He.
Qed.

Lemma storeUntouched_same (s s' : State) :
  store s' = store s -> trace s' = trace s -> storeUntouched s s'.
Proof. intros Hs Ht. split; [exact Hs|]. exists []. now rewrite app_nil_r. Qed.

Ltac store_leaf :=
  first
    [ apply storeUntouched_call; [reflexivity | intros ? ? ?; cbn; repeat case_match; reflexivity]
    | apply storeUntouched_logged; reflexivity
    | apply keeps_modify; intros ?; apply storeUntouched_same; reflexivity ].

Ltac store_walk := keeps_walk storeUntouched_refl storeUntouched_trans store_leaf.

Lemma storeUntouched_collectionExists (name : string) :
  keeps storeUntouched (QdrantService.collectionExists name).
Proof.
  unfold QdrantService.collectionExists, QdrantService.listCollections,
    QdrantService.handleQdrantError, QdrantClient.getCollections.
  store_walk.
Qed.

Lemma storeUntouched_getCollectionInfo (name : string) :
  keeps storeUntouched (QdrantService.getCollectionInfo name).
Proof.
  unfold QdrantService.getCollectionInfo, QdrantClient.getCollection.
  store_walk.
Qed.

Lemma storeUntouched_validate (qdrantService : Compatibility.Backend)
    (collection : string) (service : Embeddings.Service) :
  (forall name, keeps storeUntouched (Compatibility.collectionExists qdrantService name)) ->
  (forall name, keeps storeUntouched (Compatibility.getCollectionInfo qdrantService name)) ->
  keeps storeUntouched
    (Compatibility.validateEmbeddingCompatibility qdrantService collection service).
Proof.
  intros Hexists Hinfo. unfold Compatibility.validateEmbeddingCompatibility.
  keeps_walk storeUntouched_refl storeUntouched_trans
    ltac:(first [apply Hexists | apply Hinfo]).
Qed.

Lemma storeUntouched_validationService (collection : string) (service : Embeddings.Service) :
  keeps storeUntouched (Server.validationService collection service).
Proof.
  apply storeUntouched_validate; intros name.
  - apply storeUntouched_collectionExists.
  - apply storeUntouched_getCollectionInfo.
Qed.

Lemma storeUntouched_initializeVectorSize (service : Embeddings.Service) :
  keeps storeUntouched (Embeddings.initializeVectorSize service).
Proof.
  unfold Embeddings.initializeVectorSize, Embeddings.detectAndCache,
    Embeddings.detectModelDimensions, Embeddings.post.
  store_walk.
Qed.

Lemma storeUntouched_generateEmbeddings (service : Embeddings.Service) (texts : list string) :
  keeps storeUntouched (Embeddings.generateEmbeddings service texts).
Proof.
  unfold Embeddings.generateEmbeddings, Embeddings.post, Embeddings.embed.
  keeps_walk storeUntouched_refl storeUntouched_trans
    ltac:(first [apply storeUntouched_initializeVectorSize | store_leaf]).
Qed.

Lemma storeUntouched_createAndInitialize (config : Embeddings.Config) :
  keeps storeUntouched (Embeddings.createAndInitializeEmbeddingService config).
Proof.
  unfold Embeddings.createAndInitializeEmbeddingService.
  keeps_walk storeUntouched_refl storeUntouched_trans
    ltac:(first [apply storeUntouched_initializeVectorSize | store_leaf]).
Qed.

Lemma storeUntouched_rebuildSplitter : keeps storeUntouched TextProcessing.rebuildSplitter.
Proof.
  intros env s. unfold TextProcessing.rebuildSplitter.
  destruct (newSplitter env _ _); [apply storeUntouched_refl|].
  apply storeUntouched_same; reflexivity.
Qed.

Lemma storeUntouched_splitDocuments (content : string) :
  keeps storeUntouched (TextProcessing.splitDocuments content).
Proof.
  intros env s. unfold TextProcessing.splitDocuments.
  destruct (splitter (textProcessor s)) as [size overlap].
  split; [reflexivity|]. now exists [CreateDocuments size overlap content].
Qed.

Lemma storeUntouched_prepareDocuments (args : Server.AddDocumentsArgs) :
  keeps storeUntouched (Server.prepareDocuments args).
Proof.
  unfold Server.prepareDocuments, Server.configureTextProcessor, Server.readAndBuild,
    TextProcessing.setChunkSize,
    TextProcessing.setChunkOverlap, TextProcessing.processFile,
    TextProcessing.processText, Server.readFileSync, Server.buildService, Server.configFromEnv.
  keeps_walk storeUntouched_refl storeUntouched_trans
    ltac:(first [ apply storeUntouched_rebuildSplitter
                | apply storeUntouched_splitDocuments
                | apply storeUntouched_createAndInitialize
                | store_leaf ]).
Qed.

Lemma storeUntouched_handleSearch (args : Server.SearchArgs) :
  keeps storeUntouched (Server.handleSearch args).
Proof.
  unfold Server.handleSearch, Server.embedAndSearch, Server.buildService, Server.configFromEnv,
    QdrantService.search, QdrantService.handleQdrantError, QdrantClient.search.
  keeps_walk storeUntouched_refl storeUntouched_trans
    ltac:(first [ apply storeUntouched_validationService
                | apply storeUntouched_generateEmbeddings
                | apply storeUntouched_createAndInitialize
                | store_leaf ]).
Qed.

(* ================================================================= *)
(** ** The store adapter *)

Lemma call_trace {A : Type} (e : Event)
    (serve : nat -> Env -> gmap string CollectionState ->
             Outcome A * gmap string CollectionState)
    (env : Env) (s s1 : State) (o : Outcome A) :
  QdrantClient.call e serve env s = (o, s1) -> trace s1 = trace s ++ [e].
Proof.
  unfold QdrantClient.call. destruct (qdrantFault env _).
  - intros [= _ <-]. reflexivity.
  - destruct (serve _ env (store s)) as [o' st]. intros [= _ <-]. reflexivity.
Qed.

Lemma rebuilt_documents (documents : list Point) :
  List.map (fun doc => {| pointId := pointId doc; pointVector := pointVector doc;
                          pointPayload := pointPayload doc |}) documents = documents.
Proof.
  induction documents as [|[id v p] rest IH]; [reflexivity|].
  cbn [List.map pointId pointVector pointPayload]. now rewrite IH.
Qed.

(** C7, as the code has it.  When the backing call of an operation fails
    with [e], then: list, create, upsert, delete and search raise
    "Failed to <operation>: <message of e>"; the existence check returns
    [false] and the metadata fetch returns [null].  In every case the state
    is the one the single backing call left, whose trace has that one call
    more: nothing is retried. *)
Theorem store_failure_is_wrapped_or_absorbed
    (env : Env) (s s1 : State) (e : Exn)
    (name : string) (size : Z) (documents : list Point) (vector : Vec) (limit : option Z) :
  (QdrantClient.getCollections env s = (Throw e, s1) ->
   QdrantService.listCollections env s
     = (Throw (newError ("Failed to list collections: " +:+ errorMessage e)), s1)
   /\ QdrantService.collectionExists name env s = (Ok false, s1)
   /\ trace s1 = trace s ++ [QdrantGetCollections])
  /\ (QdrantClient.createCollection name size env s = (Throw e, s1) ->
      QdrantService.createCollection name size env s
        = (Throw (newError ("Failed to create collection: " +:+ errorMessage e)), s1)
      /\ trace s1 = trace s ++ [QdrantCreateCollection name size])
  /\ (QdrantClient.upsert name documents env s = (Throw e, s1) ->
      QdrantService.addDocuments name documents env s
        = (Throw (newError ("Failed to add documents: " +:+ errorMessage e)), s1)
      /\ trace s1 = trace s ++ [QdrantUpsert name documents])
  /\ (QdrantClient.deleteCollection name env s = (Throw e, s1) ->
      QdrantService.deleteCollection name env s
        = (Throw (newError ("Failed to delete collection: " +:+ errorMessage e)), s1)
      /\ trace s1 = trace s ++ [QdrantDeleteCollection name])
  /\ (QdrantClient.search name vector (QdrantService.limitOrDefault limit) env s
        = (Throw e, s1) ->
      QdrantService.search name vector limit env s
        = (Throw (newError ("Failed to search collection: " +:+ errorMessage e)), s1)
      /\ trace s1 = trace s ++ [QdrantSearch name vector (QdrantService.limitOrDefault limit)])
  /\ (QdrantClient.getCollection name env s = (Throw e, s1) ->
      QdrantService.getCollectionInfo name env s = (Ok None, s1)
      /\ trace s1 = trace s ++ [QdrantGetCollection name]).
Proof.
  repeat split.
  - unfold QdrantService.listCollections, tryCatch, bind. now rewrite H.
  - unfold QdrantService.collectionExists, QdrantService.listCollections, tryCatch, bind.
    now rewrite H.
  - apply (call_trace _ _ _ _ _ _ H).
  - unfold QdrantService.createCollection, tryCatch. now rewrite H.
  - apply (call_trace _ _ _ _ _ _ H).
  - unfold QdrantService.addDocuments, tryCatch. rewrite rebuilt_documents. now rewrite H.
  - apply (call_trace _ _ _ _ _ _ H).
  - unfold QdrantService.deleteCollection, tryCatch. now rewrite H.
  - apply (call_trace _ _ _ _ _ _ H).
  - unfold QdrantService.search, tryCatch, bind. now rewrite H.
  - apply (call_trace _ _ _ _ _ _ H).
  - unfold QdrantService.getCollectionInfo, tryCatch, bind. now rewrite H.
  - apply (call_trace _ _ _ _ _ _ H).
Qed.

(** C7 as stated fails: with the store out of reach the existence check and
    the metadata fetch return normally, [false] and [null]. *)
Lemma existence_check_absorbs_failure :
  fst (QdrantClient.getCollections Sample.unreachable (Server.startState Sample.docs768))
    = Throw (JsError "Error" "fetch failed")
  /\ fst (QdrantService.collectionExists "docs" Sample.unreachable
            (Server.startState Sample.docs768)) = Ok false
  /\ fst (QdrantClient.getCollection "docs" Sample.unreachable
            (Server.startState Sample.docs768))
     = Throw (JsError "Error" "fetch failed")
  /\ fst (QdrantService.getCollectionInfo "docs" Sample.unreachable
            (Server.startState Sample.docs768)) = Ok None.
Proof. repeat split; reflexivity. Qed.

Lemma store_failure_is_wrapped_or_absorbed_witness :
  QdrantClient.getCollections Sample.unreachable (Server.startState Sample.docs768)
    = (Throw (JsError "Error" "fetch failed"),
       logEvent (Server.startState Sample.docs768) QdrantGetCollections)
  /\ QdrantService.listCollections Sample.unreachable (Server.startState Sample.docs768)
     = (Throw (newError "Failed to list collections: fetch failed"),
        logEvent (Server.startState Sample.docs768) QdrantGetCollections).
Proof.
  split; [reflexivity|].
  apply (proj1 (store_failure_is_wrapped_or_absorbed
                  Sample.unreachable (Server.startState Sample.docs768)
                  (logEvent (Server.startState Sample.docs768) QdrantGetCollections)
                  (JsError "Error" "fetch failed") "docs" 0 [] VNotArray None)
           eq_refl).
Defined.

(* ================================================================= *)
(** ** The compatibility validator *)

Lemma includes_missing (st : gmap string CollectionState) (name : string) :
  st !! name = None ->
  existsb (String.eqb name) (List.map fst (map_to_list st)) = false.
Proof.
  intros Hnone. apply not_true_is_false. intros Hex.
  apply existsb_exists in Hex as (x & Hin & Heq).
  apply String.eqb_eq in Heq. subst x.
  apply in_map_iff in Hin as ([k v] & Hk & Hin). cbn in Hk. subst k.
  apply list_elem_of_In, elem_of_map_to_list in Hin. congruence.
Qed.

Lemma includes_present (st : gmap string CollectionState) (name : string)
    (c : CollectionState) :
  st !! name = Some c ->
  existsb (String.eqb name) (List.map fst (map_to_list st)) = true.
Proof.
  intros Hsome. apply existsb_exists. exists name. split; [|apply String.eqb_refl].
  apply in_map_iff. exists (name, c). split; [reflexivity|].
  now apply list_elem_of_In, elem_of_map_to_list.
Qed.

(** The existence check of the default service on a store without the
    collection: [false], whether the listing succeeds or fails. *)
Lemma collectionExists_missing (env : Env) (s : State) (name : string) :
  store s !! name = None ->
  QdrantService.collectionExists name env s = (Ok false, logEvent s QdrantGetCollections).
Proof.
  intros Hnone.
  unfold QdrantService.collectionExists, QdrantService.listCollections,
    QdrantService.handleQdrantError, QdrantClient.getCollections, QdrantClient.call,
    tryCatch, bind, ret, throw.
  destruct (qdrantFault env _); [reflexivity|].
  cbn. now rewrite (includes_missing _ _ Hnone).
Qed.

(** The two reads of the default service on a store that has the collection
    and answers both calls. *)
Lemma collectionExists_present (env : Env) (s : State) (name : string)
    (c : CollectionState) :
  store s !! name = Some c ->
  qdrantFault env (List.length (trace s)) = None ->
  QdrantService.collectionExists name env s = (Ok true, logEvent s QdrantGetCollections).
Proof.
  intros Hsome Hup.
  unfold QdrantService.collectionExists, QdrantService.listCollections,
    QdrantClient.getCollections, QdrantClient.call, tryCatch, bind, ret.
  rewrite Hup. cbn. now rewrite (includes_present _ _ _ Hsome).
Qed.

Lemma getCollectionInfo_present (env : Env) (s : State) (name : string)
    (c : CollectionState) (params : VectorParams) :
  store s !! name = Some c ->
  vectorsConfig c = Some params ->
  qdrantFault env (List.length (trace s)) = None ->
  QdrantService.getCollectionInfo name env s
  = (Ok (Some (paramsSize params, orDefault (paramsDistance params) "Cosine")),
     logEvent s (QdrantGetCollection name)).
Proof.
  intros Hsome Hparams Hup.
  unfold QdrantService.getCollectionInfo, QdrantClient.getCollection, QdrantClient.call,
    tryCatch, bind, ret.
  rewrite Hup, Hsome, Hparams. reflexivity.
Qed.

Section Validator.

Import Compatibility.

Variable qdrantService : Backend.
Variables (env : Env) (collection : string) (service : Embeddings.Service) (size : Z).
Hypothesis Hsize : Embeddings.vectorSize service = Ok size.

Lemma validate_missing (s s1 : State) :
  collectionExists qdrantService collection env s = (Ok false, s1) ->
  validateEmbeddingCompatibility qdrantService collection service env s
  = (Ok (createVerdict size), s1).
Proof.
  intros H. unfold validateEmbeddingCompatibility, tryCatch, bind, lift, ret.
  rewrite H. cbn. now rewrite Hsize.
Qed.

Lemma validate_existing (s s1 s2 : State) (collectionSize : Z) (distance : string) :
  collectionExists qdrantService collection env s = (Ok true, s1) ->
  getCollectionInfo qdrantService collection env s1
    = (Ok (Some (collectionSize, distance)), s2) ->
  validateEmbeddingCompatibility qdrantService collection service env s
  = (Ok (if Z.eqb collectionSize size then compatibleVerdict size collectionSize
         else mismatchVerdict size collectionSize), s2).
Proof.
  intros H1 H2. unfold validateEmbeddingCompatibility, tryCatch, bind, lift, ret.
  rewrite H1. cbn. rewrite H2, Hsize. now destruct (Z.eqb collectionSize size).
Qed.

Lemma validate_no_info (s s1 s2 : State) :
  collectionExists qdrantService collection env s = (Ok true, s1) ->
  getCollectionInfo qdrantService collection env s1 = (Ok None, s2) ->
  validateEmbeddingCompatibility qdrantService collection service env s
  = (Ok (noInfoVerdict size), s2).
Proof.
  intros H1 H2. unfold validateEmbeddingCompatibility, tryCatch, bind, lift, ret.
  rewrite H1. cbn. now rewrite H2, Hsize.
Qed.

Lemma validate_exists_throws (s s1 : State) (e : Exn) :
  collectionExists qdrantService collection env s = (Throw e, s1) ->
  validateEmbeddingCompatibility qdrantService collection service env s
  = (Ok (failedVerdict size e), s1).
Proof.
  intros H. unfold validateEmbeddingCompatibility, tryCatch, bind, lift, ret.
  rewrite H. now rewrite Hsize.
Qed.

Lemma validate_info_throws (s s1 s2 : State) (e : Exn) :
  collectionExists qdrantService collection env s = (Ok true, s1) ->
  getCollectionInfo qdrantService collection env s1 = (Throw e, s2) ->
  validateEmbeddingCompatibility qdrantService collection service env s
  = (Ok (failedVerdict size e), s2).
Proof.
  intros H1 H2. unfold validateEmbeddingCompatibility, tryCatch, bind, lift, ret.
  rewrite H1. cbn. rewrite H2. now rewrite Hsize.
Qed.

(** With a provider that has a size the check always returns a verdict. *)
Lemma validate_returns (s : State) :
  exists verdict s',
    validateEmbeddingCompatibility qdrantService collection service env s
    = (Ok verdict, s').
Proof.
  destruct (collectionExists qdrantService collection env s) as [[[|]|e] s1] eqn:H1.
  - destruct (getCollectionInfo qdrantService collection env s1)
      as [[[[collectionSize distance]|]|e] s2] eqn:H2.
    + eexists _, _. apply (validate_existing _ _ _ _ _ H1 H2).
    + eexists _, _. apply (validate_no_info _ _ _ H1 H2).
    + eexists _, _. apply (validate_info_throws _ _ _ _ H1 H2).
  - eexists _, _. apply (validate_missing _ _ H1).
  - eexists _, _. apply (validate_exists_throws _ _ _ H1).
Qed.

End Validator.

(** C2. An existing collection of dimension [collectionSize] whose two reads
    the store answers, and a provider of dimension [size]: equal dimensions
    give valid, [compatible]; different dimensions give invalid,
    [size_mismatch], with the provider's dimension as expected, the
    collection's as actual, and the three suggestions (another provider, a
    new collection, delete and recreate). *)
Theorem existing_collection_compatible_or_mismatch
    (env : Env) (s : State) (collection : string) (c : CollectionState)
    (params : VectorParams) (service : Embeddings.Service) (size : Z) :
  store s !! collection = Some c ->
  vectorsConfig c = Some params ->
  qdrantFault env (List.length (trace s)) = None ->
  qdrantFault env (S (List.length (trace s))) = None ->
  Embeddings.vectorSize service = Ok size ->
  let collectionSize := paramsSize params in
  let run := Compatibility.validateEmbeddingCompatibility Compatibility.defaultService
               collection service env s in
  let after := logEvent (logEvent s QdrantGetCollections) (QdrantGetCollection collection) in
  (size = collectionSize ->
   run = (Ok {| Compatibility.isValid := true;
                Compatibility.reason := "Vector dimensions are compatible";
                Compatibility.expectedVectorSize := size;
                Compatibility.actualVectorSize := Some collectionSize;
                Compatibility.action := Compatibility.compatible;
                Compatibility.suggestedActions := None |}, after))
  /\ (size <> collectionSize ->
      run = (Ok {| Compatibility.isValid := false;
                   Compatibility.reason :=
                     "Vector size mismatch: collection expects " +:+ showZ collectionSize
                       +:+ ", but embedding service produces " +:+ showZ size;
                   Compatibility.expectedVectorSize := size;
                   Compatibility.actualVectorSize := Some collectionSize;
                   Compatibility.action := Compatibility.size_mismatch;
                   Compatibility.suggestedActions :=
                     Some [ "Use a different embedding service that produces "
                              +:+ showZ collectionSize +:+ "-dimensional vectors";
                            "Create a new collection with " +:+ showZ size
                              +:+ "-dimensional vectors";
                            "Delete and recreate the collection (WARNING: this will lose all data)" ]
                |}, after)).
Proof.
  intros Hsome Hparams Hup1 Hup2 Hsize collectionSize run after.
  assert (run = (Ok (if Z.eqb collectionSize size
                     then Compatibility.compatibleVerdict size collectionSize
                     else Compatibility.mismatchVerdict size collectionSize), after)) as ->.
  { apply (validate_existing Compatibility.defaultService env collection service size Hsize
             s (logEvent s QdrantGetCollections) after collectionSize
             (orDefault (paramsDistance params) "Cosine")).
    - apply (collectionExists_present env s collection c Hsome Hup1).
    - apply (getCollectionInfo_present env (logEvent s QdrantGetCollections)
               collection c params Hsome Hparams).
      cbn. rewrite length_app, Nat.add_comm. exact Hup2. }
  split; intros H.
  - subst size. now rewrite Z.eqb_refl.
  - destruct (Z.eqb_spec collectionSize size) as [E|_]; [congruence | reflexivity].
Qed.

(** The collection ["docs"] of dimension 768 with an Ollama service of
    dimension 768 and with a FastEmbed service of dimension 384. *)
Lemma existing_collection_compatible_or_mismatch_witness :
  fst (Compatibility.validateEmbeddingCompatibility Compatibility.defaultService
         "docs" Sample.ollama768 Sample.env (Server.startState Sample.docs768))
  = Ok (Compatibility.compatibleVerdict 768 768)
  /\ fst (Compatibility.validateEmbeddingCompatibility Compatibility.defaultService
            "docs" Sample.fastembed384 Sample.env (Server.startState Sample.docs768))
     = Ok {| Compatibility.isValid := false;
             Compatibility.reason :=
               "Vector size mismatch: collection expects 768, but embedding service produces 384";
             Compatibility.expectedVectorSize := 384;
             Compatibility.actualVectorSize := Some 768;
             Compatibility.action := Compatibility.size_mismatch;
             Compatibility.suggestedActions :=
               Some [ "Use a different embedding service that produces 768-dimensional vectors";
                      "Create a new collection with 384-dimensional vectors";
                      "Delete and recreate the collection (WARNING: this will lose all data)" ]
          |}.
Proof.
  split.
  - exact (f_equal fst
             (proj1 (existing_collection_compatible_or_mismatch
                       Sample.env (Server.startState Sample.docs768) "docs"
                       {| vectorsConfig := Some {| paramsSize := 768;
                                                   paramsDistance := Some "Cosine" |};
                          points := [] |}
                       {| paramsSize := 768; paramsDistance := Some "Cosine" |}
                       Sample.ollama768 768 eq_refl eq_refl eq_refl eq_refl eq_refl)
                eq_refl)).
  - refine (f_equal fst
              (proj2 (existing_collection_compatible_or_mismatch
                        Sample.env (Server.startState Sample.docs768) "docs"
                        {| vectorsConfig := Some {| paramsSize := 768;
                                                    paramsDistance := Some "Cosine" |};
                           points := [] |}
                        {| paramsSize := 768; paramsDistance := Some "Cosine" |}
                        Sample.fastembed384 384 eq_refl eq_refl eq_refl eq_refl eq_refl)
                 _)).
    discriminate.
Defined.

(** The check of the default service on a store without the collection. *)
Lemma validate_default_missing
    (env : Env) (s : State) (collection : string)
    (service : Embeddings.Service) (size : Z) :
  store s !! collection = None ->
  Embeddings.vectorSize service = Ok size ->
  Compatibility.validateEmbeddingCompatibility Compatibility.defaultService
    collection service env s
  = (Ok (Compatibility.createVerdict size), logEvent s QdrantGetCollections).
Proof.
  intros Hnone Hsize.
  apply (validate_missing Compatibility.defaultService env collection service size Hsize).
  apply (collectionExists_missing env s collection Hnone).
Qed.

(** C3. A collection that is not in the store and a provider of any
    dimension [size]: the verdict is valid, [create_collection], with no
    actual dimension.  The run consists of the existence check alone (its
    listing is the one call in the trace): no metadata is fetched, nothing
    is compared, and this holds whether the listing succeeds or fails. *)
Theorem missing_collection_is_create_collection
    (env : Env) (s : State) (collection : string)
    (service : Embeddings.Service) (size : Z) :
  store s !! collection = None ->
  Embeddings.vectorSize service = Ok size ->
  Compatibility.validateEmbeddingCompatibility Compatibility.defaultService
    collection service env s
  = (Ok {| Compatibility.isValid := true;
           Compatibility.reason :=
             "Collection does not exist - will be created with correct dimensions";
           Compatibility.expectedVectorSize := size;
           Compatibility.actualVectorSize := None;
           Compatibility.action := Compatibility.create_collection;
           Compatibility.suggestedActions := None |},
     logEvent s QdrantGetCollections).
Proof.
  intros Hnone Hsize.
  apply (validate_default_missing env s collection service size
           Hnone Hsize).
Qed.

Lemma missing_collection_is_create_collection_witness :
  fst (Compatibility.validateEmbeddingCompatibility Compatibility.defaultService
         "missing" Sample.ollama768 Sample.env (Server.startState Sample.docs768))
  = Ok (Compatibility.createVerdict 768).
Proof.
  exact (f_equal fst
           (missing_collection_is_create_collection
              Sample.env (Server.startState Sample.docs768) "missing"
              Sample.ollama768 768 eq_refl eq_refl)).
Defined.

Lemma createEmbeddingService_kind (config : Embeddings.Config)
    (service : Embeddings.Service) :
  Embeddings.createEmbeddingService config = Ok service ->
  Embeddings.kind service = Embeddings.configType config.
Proof.
  unfold Embeddings.createEmbeddingService.
  destruct (Embeddings.configType config);
    repeat match goal with
           | |- context [if ?b then _ else _] => destruct b
           end;
    intros [= <-]; reflexivity.
Qed.

Lemma initializeVectorSize_sets (service service' : Embeddings.Service)
    (env : Env) (s s1 : State) :
  Embeddings.initializeVectorSize service env s = (Ok service', s1) ->
  exists size, service' = Embeddings.setVectorSize service size.
Proof.
  assert (forall s0, Embeddings.detectAndCache service env s0 = (Ok service', s1) ->
                     exists size, service' = Embeddings.setVectorSize service size) as Hprobe.
  { intros s0. unfold Embeddings.detectAndCache, tryCatch, bind, modify, ret, throw.
    destruct (Embeddings.detectModelDimensions service env s0) as [[elems|e] s2];
      intros [= <- _]. now eexists. }
  unfold Embeddings.initializeVectorSize, bind, getState, ret.
  destruct (dimensionCache s !! Embeddings.modelKey service) as [size|]; [|apply Hprobe].
  destruct (negb (Z.eqb size 0)); [|apply Hprobe].
  intros [= <- _]. now eexists.
Qed.

(** The service a handler builds has a size: the three fixed-size classes
    always, the Ollama class because [initializeVectorSize()] has returned. *)
Lemma built_service_has_size (k : Embeddings.ServiceKind) (env : Env) (s s1 : State)
    (service : Embeddings.Service) :
  Server.buildService k env s = (Ok service, s1) ->
  exists size, Embeddings.vectorSize service = Ok size.
Proof.
  unfold Server.buildService, Server.configFromEnv,
    Embeddings.createAndInitializeEmbeddingService, bind, getEnv, ret, lift.
  destruct (Embeddings.createEmbeddingService _) as [created|e] eqn:Hcreate;
    [|discriminate].
  apply createEmbeddingService_kind in Hcreate. cbn [Embeddings.configType] in Hcreate.
  destruct (Embeddings.kind created) eqn:Hkind.
  - intros [= <- _]. unfold Embeddings.vectorSize. rewrite Hkind. now eexists.
  - intros [= <- _]. unfold Embeddings.vectorSize. rewrite Hkind. now eexists.
  - intros [= <- _]. unfold Embeddings.vectorSize. rewrite Hkind. now eexists.
  - intros Hinit. apply initializeVectorSize_sets in Hinit as [size ->].
    exists size. unfold Embeddings.vectorSize, Embeddings.setVectorSize.
    cbn [Embeddings.kind Embeddings._vectorSize]. now rewrite Hkind.
Qed.

(** C10, as the code has it.  For a provider that has a dimension [size]
    (every service but an Ollama service before [initializeVectorSize()];
    the services the handlers build all have one), and any [QdrantService]
    implementation: the check returns a verdict in every run, and when the
    existence check or the metadata fetch raises [e] that verdict is
    invalid, [error], with the message of [e] in the reason. *)
Theorem store_exception_becomes_error_verdict
    (qdrantService : Compatibility.Backend) (env : Env) (s : State)
    (collection : string) (service : Embeddings.Service) (size : Z) :
  Embeddings.vectorSize service = Ok size ->
  let run := Compatibility.validateEmbeddingCompatibility qdrantService
               collection service env s in
  let failed (e : Exn) :=
    {| Compatibility.isValid := false;
       Compatibility.reason := "Validation failed: " +:+ errorMessage e;
       Compatibility.expectedVectorSize := size;
       Compatibility.actualVectorSize := None;
       Compatibility.action := Compatibility.error;
       Compatibility.suggestedActions := None |} in
  (exists verdict s', run = (Ok verdict, s'))
  /\ (forall e s1,
         Compatibility.collectionExists qdrantService collection env s = (Throw e, s1) ->
         run = (Ok (failed e), s1))
  /\ (forall e s1 s2,
         Compatibility.collectionExists qdrantService collection env s = (Ok true, s1) ->
         Compatibility.getCollectionInfo qdrantService collection env s1 = (Throw e, s2) ->
         run = (Ok (failed e), s2)).
Proof.
  intros Hsize run failed. split; [|split].
  - apply (validate_returns qdrantService env collection service size Hsize).
  - intros e s1 H.
    apply (validate_exists_throws qdrantService env collection service size Hsize _ _ _ H).
  - intros e s1 s2 H1 H2.
    apply (validate_info_throws qdrantService env collection service size Hsize _ _ _ _ H1 H2).
Qed.

Lemma store_exception_becomes_error_verdict_witness :
  Compatibility.validateEmbeddingCompatibility Sample.rejecting "docs" Sample.ollama768
    Sample.env (Server.startState Sample.docs768)
  = (Ok (Compatibility.failedVerdict 768 (newError "connect ECONNREFUSED")),
     Server.startState Sample.docs768)
  /\ Compatibility.validateEmbeddingCompatibility Sample.rejectingInfo "docs" Sample.ollama768
       Sample.env (Server.startState Sample.docs768)
     = (Ok (Compatibility.failedVerdict 768 (JsThrown "timeout")),
        Server.startState Sample.docs768).
Proof.
  split.
  - exact (proj1 (proj2 (store_exception_becomes_error_verdict
                           Sample.rejecting Sample.env (Server.startState Sample.docs768)
                           "docs" Sample.ollama768 768 eq_refl))
             (newError "connect ECONNREFUSED") (Server.startState Sample.docs768) eq_refl).
  - exact (proj2 (proj2 (store_exception_becomes_error_verdict
                           Sample.rejectingInfo Sample.env (Server.startState Sample.docs768)
                           "docs" Sample.ollama768 768 eq_refl))
             (JsThrown "timeout") (Server.startState Sample.docs768)
             (Server.startState Sample.docs768) eq_refl eq_refl).
Defined.

(** C10 as stated fails: with an Ollama service whose size is not yet
    initialised, the [catch] block reads [vectorSize] again and the getter's
    exception leaves the check. *)
Lemma uninitialised_provider_escapes_the_check :
  Compatibility.collectionExists Sample.rejecting "docs" Sample.env
    (Server.startState Sample.docs768)
  = (Throw (newError "connect ECONNREFUSED"), Server.startState Sample.docs768)
  /\ Compatibility.validateEmbeddingCompatibility Sample.rejecting "docs" Sample.ollamaFresh
       Sample.env (Server.startState Sample.docs768)
     = (Throw (newError "Vector size not initialized. Call initializeVectorSize() first."),
        Server.startState Sample.docs768).
Proof. split; reflexivity. Qed.

(* ================================================================= *)
(** ** The dimension cache *)

Lemma keeps_weaken (R R' : State -> State -> Prop) {A : Type} (c : M A) :
  (forall s s', R s s' -> R' s s') -> keeps R c -> keeps R' c.
Proof. intros H Hc env s. apply H, Hc. Qed.

Lemma cacheSame_refl (s : State) : cacheSame s s.
Proof. reflexivity. Qed.

Lemma cacheSame_trans (a b c : State) : cacheSame a b -> cacheSame b c -> cacheSame a c.
Proof. unfold cacheSame. congruence. Qed.

Lemma cacheKept_refl (s : State) : cacheKept s s.
Proof. intros key size H _. exact H. Qed.

Lemma cacheKept_trans (a b c : State) : cacheKept a b -> cacheKept b c -> cacheKept a c.
Proof. intros H1 H2 key size H Hnz. apply H2; [apply H1|]; assumption. Qed.

Lemma cacheSame_kept (s s' : State) : cacheSame s s' -> cacheKept s s'.
Proof. intros H key size Hk _. unfold cacheSame in H. now rewrite H. Qed.

(** The calls that leave the process, the file read and the identifier
    draw do not change the cache. *)
Ltac outside_call :=
  intros ?env ?s;
  cbv [cacheSame
       QdrantClient.getCollections QdrantClient.createCollection QdrantClient.upsert
       QdrantClient.deleteCollection QdrantClient.search QdrantClient.getCollection
       QdrantClient.call Embeddings.post Embeddings.embed Server.readFileSync
       Server.uuidv4 TextProcessing.splitDocuments];
  cbn; repeat (case_match; cbn); reflexivity.

Ltac outside_leaf :=
  match goal with
  | |- keeps _ QdrantClient.getCollections => outside_call
  | |- keeps _ (QdrantClient.createCollection _ _) => outside_call
  | |- keeps _ (QdrantClient.upsert _ _) => outside_call
  | |- keeps _ (QdrantClient.deleteCollection _) => outside_call
  | |- keeps _ (QdrantClient.search _ _ _) => outside_call
  | |- keeps _ (QdrantClient.getCollection _) => outside_call
  | |- keeps _ (Embeddings.post _ _ _) => outside_call
  | |- keeps _ (Embeddings.embed _ _) => outside_call
  | |- keeps _ (Server.readFileSync _) => outside_call
  | |- keeps _ Server.uuidv4 => outside_call
  | |- keeps _ (TextProcessing.splitDocuments _) => outside_call
  end.

Ltac unfold_services :=
  unfold QdrantService.listCollections, QdrantService.createCollection,
    QdrantService.addDocuments, QdrantService.deleteCollection, QdrantService.search,
    QdrantService.collectionExists, QdrantService.getCollectionInfo,
    QdrantService.handleQdrantError.

Lemma cacheSame_detectModelDimensions (service : Embeddings.Service) :
  keeps cacheSame (Embeddings.detectModelDimensions service).
Proof.
  unfold Embeddings.detectModelDimensions.
  keeps_walk cacheSame_refl cacheSame_trans ltac:(idtac; outside_leaf).
Qed.

(** A probe that finds the key absent or at [0] keeps every nonzero entry. *)
Lemma cacheKept_detectAndCache (service : Embeddings.Service) (env : Env) (s : State) :
  (dimensionCache s !! Embeddings.modelKey service = None
   \/ dimensionCache s !! Embeddings.modelKey service = Some 0) ->
  cacheKept s (snd (Embeddings.detectAndCache service env s)).
Proof.
  intros Hfree. unfold Embeddings.detectAndCache, tryCatch, bind, modify, ret, throw.
  pose proof (cacheSame_detectModelDimensions service env s) as Hsame.
  destruct (Embeddings.detectModelDimensions service env s) as [[elems|e] s1]; cbn in *.
  - intros key size Hk Hnz. unfold cacheSame in Hsame.
    destruct (decide (Embeddings.modelKey service = key)) as [<-|Hne].
    + destruct Hfree as [H|H]; rewrite H in Hk; congruence.
    + unfold setDimensionCache. cbn [dimensionCache].
      rewrite lookup_insert_ne by exact Hne. now rewrite Hsame.
  - now apply cacheSame_kept.
Qed.

Lemma cacheKept_initializeVectorSize (service : Embeddings.Service) :
  keeps cacheKept (Embeddings.initializeVectorSize service).
Proof.
  intros env s. unfold Embeddings.initializeVectorSize, bind, getState.
  destruct (dimensionCache s !! Embeddings.modelKey service) as [size|] eqn:Hk.
  - destruct (Z.eqb_spec size 0) as [->|Hnz]; cbn [negb].
    + apply cacheKept_detectAndCache. now right.
    + apply cacheKept_refl.
  - apply cacheKept_detectAndCache. now left.
Qed.

Ltac cache_leaf :=
  first
    [ apply cacheKept_initializeVectorSize
    | apply (keeps_weaken cacheSame cacheKept _ cacheSame_kept); outside_leaf
    | apply keeps_modify; intros ?; apply cacheSame_kept; reflexivity ].

Ltac cache_walk := keeps_walk cacheKept_refl cacheKept_trans cache_leaf.

Lemma cacheKept_rebuildSplitter : keeps cacheKept TextProcessing.rebuildSplitter.
Proof.
  intros env s. unfold TextProcessing.rebuildSplitter.
  destruct (newSplitter env _ _); apply cacheSame_kept; reflexivity.
Qed.

Lemma cacheKept_validationService (collection : string) (service : Embeddings.Service) :
  keeps cacheKept (Server.validationService collection service).
Proof.
  unfold Server.validationService, Compatibility.validateEmbeddingCompatibility,
    Compatibility.defaultService.
  cbn [Compatibility.collectionExists Compatibility.getCollectionInfo].
  unfold_services. cache_walk.
Qed.

Lemma cacheKept_generateEmbeddings (service : Embeddings.Service) (texts : list string) :
  keeps cacheKept (Embeddings.generateEmbeddings service texts).
Proof. unfold Embeddings.generateEmbeddings. cache_walk. Qed.

Lemma cacheKept_createAndInitialize (config : Embeddings.Config) :
  keeps cacheKept (Embeddings.createAndInitializeEmbeddingService config).
Proof. unfold Embeddings.createAndInitializeEmbeddingService. cache_walk. Qed.

Lemma cacheKept_handle (request : Server.Request) : keeps cacheKept (Server.handle request).
Proof.
  destruct request as [|args|args|collection]; cbn [Server.handle].
  - unfold Server.handleListCollections. unfold_services. cache_walk.
  - unfold Server.handleAddDocuments, Server.prepareDocuments,
      Server.configureTextProcessor, Server.readAndBuild, Server.validateAndStore,
      Server.addDocumentsFailed, Server.embedAndStore,
      Server.storeDocuments, TextProcessing.setChunkSize, TextProcessing.setChunkOverlap,
      TextProcessing.processFile, TextProcessing.processText, Server.buildService, Server.configFromEnv.
    unfold_services.
    keeps_walk cacheKept_refl cacheKept_trans
      ltac:(first [ apply cacheKept_rebuildSplitter
                  | apply cacheKept_validationService
                  | apply cacheKept_generateEmbeddings
                  | apply cacheKept_createAndInitialize
                  | cache_leaf ]).
  - unfold Server.handleSearch, Server.embedAndSearch, Server.buildService, Server.configFromEnv.
    unfold_services.
    keeps_walk cacheKept_refl cacheKept_trans
      ltac:(first [ apply cacheKept_validationService
                  | apply cacheKept_generateEmbeddings
                  | apply cacheKept_createAndInitialize
                  | cache_leaf ]).
  - unfold Server.handleDeleteCollection. unfold_services. cache_walk.
Qed.

Lemma cacheKept_serve (env : Env) (requests : list Server.Request) :
  forall s, cacheKept s (Server.serve env requests s).
Proof.
  induction requests as [|request rest IH]; intros s; cbn [Server.serve].
  - apply cacheKept_refl.
  - apply (cacheKept_trans _ _ _ (cacheKept_handle request env s) (IH _)).
Qed.

(** *** Resolution calls that overlap *)

(** Run without anything in between, the two halves are the method. *)
Lemma initializeVectorSize_split (service : Embeddings.Service) (env : Env) (s : State) :
  Embeddings.initializeVectorSize service env s
  = (c <- Overlap.start service;;
     match c with
     | inl done => ret done
     | inr p => Overlap.resume p
     end) env s.
Proof.
  assert (Embeddings.detectAndCache service env s
          = (c <- Overlap.send service;;
             match c with
             | inl done => ret done
             | inr p => Overlap.resume p
             end) env s) as Hsplit.
  { unfold Embeddings.detectAndCache, Embeddings.detectModelDimensions, Embeddings.post,
      Overlap.send, Overlap.resume, Overlap.receive, tryCatch, bind, modify, ret, throw.
    cbn [Overlap.pendingService Overlap.sentAt].
    destruct (axiosPost env _ _ _ _) as [[[|first rest]|]|e]; reflexivity. }
  unfold Embeddings.initializeVectorSize, Overlap.start.
  unfold bind, getState in *.
  destruct (dimensionCache s !! Embeddings.modelKey service) as [size|];
    [destruct (negb (Z.eqb size 0))|]; cbv beta iota;
    first [reflexivity | exact Hsplit].
Qed.

Lemma start_cached (service : Embeddings.Service) (env : Env) (s : State) (size : Z) :
  dimensionCache s !! Embeddings.modelKey service = Some size ->
  size <> 0 ->
  Overlap.start service env s = (Ok (inl (Embeddings.setVectorSize service size)), s).
Proof.
  intros Hcached Hnz. unfold Overlap.start, bind, getState, ret. rewrite Hcached.
  destruct (Z.eqb_spec size 0) as [E|_]; [contradiction | reflexivity].
Qed.

(** A call that starts writes nothing; when it has to wait, it waits with
    its own instance. *)
Lemma start_run (service : Embeddings.Service) (env : Env) (s : State) :
  dimensionCache (snd (Overlap.start service env s)) = dimensionCache s
  /\ forall p, fst (Overlap.start service env s) = Ok (inr p) ->
               Overlap.pendingService p = service.
Proof.
  unfold Overlap.start, Overlap.send, bind, getState, ret.
  destruct (dimensionCache s !! Embeddings.modelKey service) as [size|];
    [destruct (negb (Z.eqb size 0))|]; cbn [fst snd logEvent dimensionCache];
    (split; [reflexivity|]); intros p [= <-]; reflexivity.
Qed.

(** A call that runs on writes at most the entry of its own key. *)
Lemma resume_other_key (p : Overlap.Pending) (env : Env) (s : State) (key : string) :
  Embeddings.modelKey (Overlap.pendingService p) <> key ->
  dimensionCache (snd (Overlap.resume p env s)) !! key = dimensionCache s !! key.
Proof.
  intros Hother.
  unfold Overlap.resume, Overlap.receive, tryCatch, bind, modify, ret, throw.
  destruct (axiosPost env _ _ _ _) as [[[|first rest]|]|e]; try reflexivity.
  destruct (Embeddings.isNumberArray first); [|reflexivity].
  destruct first; cbn [snd setDimensionCache dimensionCache];
    now apply lookup_insert_ne.
Qed.

Lemma quiet_app (key : string) (a b : list Overlap.Pending) :
  Overlap.quiet key (a ++ b) = Overlap.quiet key a && Overlap.quiet key b.
Proof. unfold Overlap.quiet. apply forallb_app. Qed.

Lemma quiet_without (key : string) (inFlight : list Overlap.Pending) (waiting : nat) :
  Overlap.quiet key inFlight = true ->
  Overlap.quiet key (firstn waiting inFlight ++ skipn (S waiting) inFlight) = true.
Proof.
  unfold Overlap.quiet. revert waiting.
  induction inFlight as [|p rest IH]; intros [|waiting] H; cbn in *; auto.
  - now apply andb_prop in H as [_ H].
  - apply andb_prop in H as [Hp H]. rewrite Hp. cbn. exact (IH waiting H).
Qed.

Lemma quiet_nth (key : string) (inFlight : list Overlap.Pending) (waiting : nat)
    (p : Overlap.Pending) :
  Overlap.quiet key inFlight = true ->
  nth_error inFlight waiting = Some p ->
  Embeddings.modelKey (Overlap.pendingService p) <> key.
Proof.
  unfold Overlap.quiet. rewrite forallb_forall. intros H Hp.
  apply nth_error_In in Hp. specialize (H p Hp).
  apply negb_true_iff in H. now apply String.eqb_neq in H.
Qed.

(** A nonzero entry with no call for its key in flight stays, whatever the
    event loop does next. *)
Lemma step_keeps_entry (env : Env) (key : string) (size : Z) (w : Overlap.World)
    (a : Overlap.Action) :
  size <> 0 ->
  dimensionCache (fst w) !! key = Some size ->
  Overlap.quiet key (snd w) = true ->
  dimensionCache (fst (Overlap.step env w a)) !! key = Some size
  /\ Overlap.quiet key (snd (Overlap.step env w a)) = true.
Proof.
  intros Hnz. destruct w as [s inFlight]. cbn [fst snd]. intros Hentry Hquiet.
  destruct a as [service|waiting|request]; cbn [Overlap.step].
  - destruct (string_dec (Embeddings.modelKey service) key) as [Hkey|Hother].
    + subst key. rewrite (start_cached service env s size Hentry Hnz). auto.
    + destruct (start_run service env s) as [Hcache Hpending].
      destruct (Overlap.start service env s) as [[[done|p]|e] s1];
        cbn [fst snd] in *; rewrite ?Hcache; auto.
      split; [exact Hentry|].
      rewrite quiet_app, Hquiet. cbn [andb Overlap.quiet forallb].
      rewrite (Hpending p eq_refl).
      apply String.eqb_neq in Hother. now rewrite Hother.
  - destruct (nth_error inFlight waiting) as [p|] eqn:Hp; cbn [fst snd]; [|auto].
    split.
    + rewrite (resume_other_key p env s key (quiet_nth key inFlight waiting p Hquiet Hp)).
      exact Hentry.
    + now apply quiet_without.
  - split; [|exact Hquiet].
    exact (cacheKept_handle request env s key size Hentry Hnz).
Qed.

Lemma run_keeps_entry (env : Env) (key : string) (size : Z) (actions : list Overlap.Action) :
  size <> 0 ->
  forall w,
    dimensionCache (fst w) !! key = Some size ->
    Overlap.quiet key (snd w) = true ->
    dimensionCache (fst (Overlap.run env actions w)) !! key = Some size
    /\ Overlap.quiet key (snd (Overlap.run env actions w)) = true.
Proof.
  intros Hnz. unfold Overlap.run.
  induction actions as [|a rest IH]; intros w Hentry Hquiet; [auto|].
  cbn [fold_left].
  destruct (step_keeps_entry env key size w a Hnz Hentry Hquiet) as [H1 H2].
  exact (IH _ H1 H2).
Qed.

(** C9, as the code has it.  Once the cache holds a nonzero size for a key,
    a resolution call for that key that starts later returns that size and
    leaves the state as it found it: no probe is recorded and the cache is
    not written.  This stays so after any sequence of tool invocations
    served in between.  It also stays so whatever the event loop does once
    no resolution call for that key is in flight any more: resolution calls
    for this and for other keys may start, waiting calls may run on in any
    order, tool invocations may be served in between; the entry is still
    there and a call that starts for the key ends at once with it. *)
Theorem cached_dimension_is_reused
    (env : Env) (s : State) (key : string) (size : Z) :
  dimensionCache s !! key = Some size ->
  size <> 0 ->
  (forall (requests : list Server.Request) (service : Embeddings.Service),
      Embeddings.modelKey service = key ->
      let later := Server.serve env requests s in
      dimensionCache later !! key = Some size
      /\ Embeddings.initializeVectorSize service env later
         = (Ok (Embeddings.setVectorSize service size), later))
  /\ (forall (inFlight : list Overlap.Pending) (actions : list Overlap.Action),
         Overlap.quiet key inFlight = true ->
         let later := Overlap.run env actions (s, inFlight) in
         dimensionCache (fst later) !! key = Some size
         /\ Overlap.quiet key (snd later) = true
         /\ forall service : Embeddings.Service,
              Embeddings.modelKey service = key ->
              Overlap.start service env (fst later)
              = (Ok (inl (Embeddings.setVectorSize service size)), fst later)).
Proof.
  intros Hk Hnz. split.
  - intros requests service <- later.
    assert (dimensionCache later !! Embeddings.modelKey service = Some size) as Hlater.
    { apply (cacheKept_serve env requests s _ _ Hk Hnz). }
    split; [exact Hlater|].
    unfold Embeddings.initializeVectorSize, bind, getState, ret. rewrite Hlater.
    destruct (Z.eqb_spec size 0) as [E|_]; [contradiction | reflexivity].
  - intros inFlight actions Hquiet later.
    destruct (run_keeps_entry env key size actions Hnz (s, inFlight) Hk Hquiet)
      as [Hentry Hstill].
    split; [exact Hentry|]. split; [exact Hstill|].
    intros service <-. exact (start_cached service env (fst later) size Hentry Hnz).
Qed.

(** A first resolution in the sample surroundings stores 3; after an
    [add_documents] invocation a second resolution reuses it, and so does a
    call that starts after two more calls and an invocation have run. *)
Lemma cached_dimension_is_reused_witness :
  let s := snd (Embeddings.initializeVectorSize Sample.ollamaFresh Sample.env
                  (Server.startState ∅)) in
  let later := Server.serve Sample.env [Server.AddDocuments Sample.addPlain] s in
  let mixed := Overlap.run Sample.env
                 [Overlap.Start Sample.ollamaFresh; Overlap.Start Sample.ollamaOther;
                  Overlap.Handle (Server.AddDocuments Sample.addPlain);
                  Overlap.Resume 0]
                 (s, []) in
  dimensionCache s !! Embeddings.modelKey Sample.ollamaFresh = Some 3
  /\ (dimensionCache later !! Embeddings.modelKey Sample.ollamaFresh = Some 3
      /\ Embeddings.initializeVectorSize Sample.ollamaFresh Sample.env later
         = (Ok (Embeddings.setVectorSize Sample.ollamaFresh 3), later))
  /\ Overlap.start Sample.ollamaFresh Sample.env (fst mixed)
     = (Ok (inl (Embeddings.setVectorSize Sample.ollamaFresh 3)), fst mixed).
Proof.
  cbv zeta.
  pose proof (cached_dimension_is_reused Sample.env
                (snd (Embeddings.initializeVectorSize Sample.ollamaFresh Sample.env
                        (Server.startState ∅)))
                (Embeddings.modelKey Sample.ollamaFresh) 3
                ltac:(vm_compute; reflexivity) ltac:(discriminate)) as [Hserved Hmixed].
  split; [vm_compute; reflexivity|]. split.
  - exact (Hserved [Server.AddDocuments Sample.addPlain] Sample.ollamaFresh eq_refl).
  - exact (proj2 (proj2 (Hmixed [] _ eq_refl)) Sample.ollamaFresh eq_refl).
Defined.

(** C9 as stated fails when resolution calls overlap.  Two calls for the
    same key start before either has its answer, so both send a probe; the
    first to run on stores 3; the second, whose probe was answered with two
    numbers, then overwrites the entry with 2. *)
Lemma in_flight_resolution_overwrites_the_stored_dimension :
  let key := Embeddings.modelKey Sample.ollamaFresh in
  let stored := Overlap.run Sample.replaced
                  [Overlap.Start Sample.ollamaFresh; Overlap.Start Sample.ollamaFresh;
                   Overlap.Resume 0]
                  (Server.startState ∅, []) in
  let after := Overlap.run Sample.replaced [Overlap.Resume 0] stored in
  dimensionCache (fst stored) !! key = Some 3
  /\ dimensionCache (fst after) !! key = Some 2
  /\ trace (fst after)
     = [AxiosPost "http://localhost:11434/api/embed" "nomic-embed-text" ["test"];
        AxiosPost "http://localhost:11434/api/embed" "nomic-embed-text" ["test"]]
  /\ snd after = [].
Proof. vm_compute. repeat split; reflexivity. Qed.

(** The test [if (cachedSize)] takes a stored size of 0 for a missing entry:
    the probe of the first call answers with an empty embedding, 0 is
    stored, and the second call for the same key probes again and stores
    3. *)
Lemma zero_dimension_is_probed_again :
  let first := Embeddings.initializeVectorSize Sample.ollamaFresh Sample.emptyFirst
                 (Server.startState ∅) in
  let second := Embeddings.initializeVectorSize Sample.ollamaFresh Sample.emptyFirst
                  (snd first) in
  dimensionCache (snd first) !! Embeddings.modelKey Sample.ollamaFresh = Some 0
  /\ trace (snd first) = [AxiosPost "http://localhost:11434/api/embed" "nomic-embed-text" ["test"]]
  /\ fst second = Ok (Embeddings.setVectorSize Sample.ollamaFresh 3)
  /\ trace (snd second)
     = [AxiosPost "http://localhost:11434/api/embed" "nomic-embed-text" ["test"];
        AxiosPost "http://localhost:11434/api/embed" "nomic-embed-text" ["test"]]
  /\ dimensionCache (snd second) !! Embeddings.modelKey Sample.ollamaFresh = Some 3.
Proof. vm_compute. repeat split; reflexivity. Qed.

(* ================================================================= *)
(** ** The ingest handler *)

(** C4. In [handleAddDocuments], once the file is split and the provider
    built: a negative compatibility verdict makes the handler return the
    error result at once, and so does a negative vector verdict after the
    embedding call; in both cases the store is the one the handler found
    and the calls made so far are all reads (no collection creation, no
    upsert, no deletion). *)
Theorem validation_failure_precedes_store_mutation
    (env : Env) (s : State) (args : Server.AddDocumentsArgs)
    (chunks : list TextChunk) (service : Embeddings.Service) (s1 : State)
    (verdict : Compatibility.Result) (s2 : State) :
  Server.prepareDocuments args env s = (Ok (chunks, service), s1) ->
  Server.validationService (Server.addCollection args) service env s1 = (Ok verdict, s2) ->
  (Compatibility.isValid verdict = false ->
   Server.handleAddDocuments args env s
     = (Ok {| Server.text := Server.compatibilityErrorMessage verdict;
              Server.isError := true |}, s2)
   /\ storeUntouched s s2)
  /\ (Compatibility.isValid verdict = true ->
      forall (service' : Embeddings.Service) (embeddings : list Vec) (s3 : State) (size : Z),
        Embeddings.generateEmbeddings service (List.map chunkText chunks) env s2
          = (Ok (service', embeddings), s3) ->
        Embeddings.vectorSize service' = Ok size ->
        VectorData.isValid (VectorData.validateVectorData embeddings size) = false ->
        Server.handleAddDocuments args env s
          = (Ok {| Server.text :=
                     Server.vectorErrorMessage (VectorData.validateVectorData embeddings size);
                   Server.isError := true |}, s3)
        /\ storeUntouched s s3).
Proof.
  intros Hprep Hcompat.
  assert (storeUntouched s s1) as H01.
  { pose proof (storeUntouched_prepareDocuments args env s) as H. now rewrite Hprep in H. }
  assert (storeUntouched s1 s2) as H12.
  { pose proof (storeUntouched_validationService (Server.addCollection args) service env s1)
      as H. now rewrite Hcompat in H. }
  split.
  - intros Hinvalid. split; [|apply (storeUntouched_trans _ _ _ H01 H12)].
    unfold Server.handleAddDocuments, tryCatch, bind. rewrite Hprep.
    unfold Server.validateAndStore, bind. rewrite Hcompat.
    unfold Server.embedAndStore. now rewrite Hinvalid.
  - intros Hvalid service' embeddings s3 size Hgen Hsize Hbad.
    assert (storeUntouched s2 s3) as H23.
    { pose proof (storeUntouched_generateEmbeddings service (List.map chunkText chunks)
                    env s2) as H. now rewrite Hgen in H. }
    split; [|apply (storeUntouched_trans _ _ _ H01 (storeUntouched_trans _ _ _ H12 H23))].
    unfold Server.handleAddDocuments, tryCatch, bind. rewrite Hprep.
    unfold Server.validateAndStore, bind. rewrite Hcompat.
    unfold Server.embedAndStore, bind, lift, ret. rewrite Hvalid. cbn [negb].
    rewrite Hgen, Hsize, Hbad. reflexivity.
Qed.

(** Two failing ingests in the sample surroundings: an Ollama model of three
    dimensions against the collection ["docs"] of 768, and an OpenAI service
    (1536 expected) answered with vectors of three numbers. *)
Lemma validation_failure_precedes_store_mutation_witness :
  (exists verdict s2,
      Compatibility.isValid verdict = false
      /\ Server.handleAddDocuments Sample.addPlain Sample.env
           (Server.startState Sample.docs768)
         = (Ok {| Server.text := Server.compatibilityErrorMessage verdict;
                  Server.isError := true |}, s2)
      /\ storeUntouched (Server.startState Sample.docs768) s2)
  /\ (exists embeddings size s3,
         VectorData.isValid (VectorData.validateVectorData embeddings size) = false
         /\ Server.handleAddDocuments Sample.addWithOpenAI Sample.env
              (Server.startState Sample.docs768)
            = (Ok {| Server.text :=
                       Server.vectorErrorMessage
                         (VectorData.validateVectorData embeddings size);
                     Server.isError := true |}, s3)
         /\ storeUntouched (Server.startState Sample.docs768) s3).
Proof.
  split.
  - edestruct (validation_failure_precedes_store_mutation
                 Sample.env (Server.startState Sample.docs768) Sample.addPlain)
      as [Hcompat _].
    + vm_compute. reflexivity.
    + vm_compute. reflexivity.
    + eexists _, _. split; [|apply Hcompat]; reflexivity.
  - edestruct (validation_failure_precedes_store_mutation
                 Sample.env (Server.startState Sample.docs768) Sample.addWithOpenAI)
      as [_ Hvector].
    + vm_compute. reflexivity.
    + vm_compute. reflexivity.
    + edestruct Hvector as [Hresult Hstore].
      * reflexivity.
      * vm_compute. reflexivity.
      * reflexivity.
      * vm_compute. reflexivity.
      * eexists _, _, _. refine (conj _ (conj Hresult Hstore)). vm_compute. reflexivity.
Defined.

(* ================================================================= *)
(** ** The search handler *)

Lemma storeUntouched_buildService (k : Embeddings.ServiceKind) :
  keeps storeUntouched (Server.buildService k).
Proof.
  unfold Server.buildService, Server.configFromEnv.
  keeps_walk storeUntouched_refl storeUntouched_trans
    ltac:(first [apply storeUntouched_createAndInitialize | store_leaf]).
Qed.

(** The backing search on a store without the collection always fails. *)
Lemma search_missing (env : Env) (s : State) (name : string) (vector : Vec) (limit : Z) :
  store s !! name = None ->
  QdrantClient.search name vector limit env s
  = (Throw (match qdrantFault env (List.length (trace s)) with
            | Some fault => fault
            | None => QdrantClient.notFound
            end),
     logEvent s (QdrantSearch name vector limit)).
Proof.
  intros Hnone. unfold QdrantClient.search, QdrantClient.call.
  destruct (qdrantFault env _); [reflexivity|]. now rewrite Hnone.
Qed.

(** C1, as the code has it.  A search whose collection is not in the store
    never asks the store to create it (no run of the search handler changes
    the store or makes a mutating call).  It does not stop at the missing
    collection either: the verdict is valid, so the query is embedded and,
    when its vector passes validation, the similarity search is sent to the
    store; that call fails for the missing collection and the handler
    answers with the error "Error searching: Failed to search collection:
    ...", not with "No results found.". *)
Theorem search_of_missing_collection_reaches_the_store
    (env : Env) (s : State) (args : Server.SearchArgs) :
  store s !! Server.searchCollection args = None ->
  storeUntouched s (snd (Server.handleSearch args env s))
  /\ forall (service service' : Embeddings.Service) (s1 s3 : State)
            (size size' : Z) (embeddings : list Vec),
       Server.buildService (Server.searchEmbeddingService args) env s = (Ok service, s1) ->
       Embeddings.vectorSize service = Ok size ->
       Embeddings.generateEmbeddings service [Server.query args] env
         (logEvent s1 QdrantGetCollections) = (Ok (service', embeddings), s3) ->
       Embeddings.vectorSize service' = Ok size' ->
       VectorData.isValid
         (VectorData.validateVectorData [nth 0 embeddings VNotArray] size') = true ->
       Server.handleSearch args env s
       = (Ok {| Server.text :=
                  "Error searching: Failed to search collection: "
                    +:+ errorMessage (match qdrantFault env (List.length (trace s3)) with
                                      | Some fault => fault
                                      | None => QdrantClient.notFound
                                      end);
                Server.isError := true |},
          logEvent s3 (QdrantSearch (Server.searchCollection args)
                         (nth 0 embeddings VNotArray)
                         (QdrantService.limitOrDefault (Server.limit args)))).
Proof.
  intros Hnone. split; [apply storeUntouched_handleSearch|].
  intros service service' s1 s3 size size' embeddings Hbuild Hsize Hgen Hsize' Hvalid.
  assert (store s1 = store s) as Hs1.
  { pose proof (storeUntouched_buildService (Server.searchEmbeddingService args) env s)
      as [H _]. now rewrite Hbuild in H. }
  assert (store s3 = store s) as Hs3.
  { pose proof (storeUntouched_generateEmbeddings service [Server.query args] env
                  (logEvent s1 QdrantGetCollections)) as [H _].
    rewrite Hgen in H. cbn in H. congruence. }
  unfold Server.handleSearch, tryCatch, bind. rewrite Hbuild.
  unfold Server.validationService.
  rewrite (validate_default_missing env s1
             (Server.searchCollection args) service size); [|congruence|exact Hsize].
  unfold Server.embedAndSearch, Compatibility.createVerdict, bind, lift.
  cbn [Compatibility.isValid negb].
  rewrite Hgen, Hsize', Hvalid. cbn [negb].
  unfold QdrantService.search, QdrantService.handleQdrantError, tryCatch, bind, throw, ret.
  rewrite search_missing by congruence. reflexivity.
Qed.

(** C1 as stated fails: the collection is missing, and the handler embeds
    the query, sends the similarity search to the store and answers with
    the error of that call. *)
Lemma search_of_missing_collection_is_sent :
  store (Server.startState Sample.docs768) !! Server.searchCollection Sample.searchMissing
    = None
  /\ fst (Server.handleSearch Sample.searchMissing Sample.env
            (Server.startState Sample.docs768))
     = Ok {| Server.text := "Error searching: Failed to search collection: Not Found";
             Server.isError := true |}
  /\ trace (snd (Server.handleSearch Sample.searchMissing Sample.env
                   (Server.startState Sample.docs768)))
     = [AxiosPost "http://host.docker.internal:11434/api/embed" "nomic-embed-text" ["test"];
        QdrantGetCollections;
        AxiosPost "http://host.docker.internal:11434/api/embed" "nomic-embed-text" ["hello"];
        QdrantSearch "missing" (VArray [ENum 1; ENum 0; ENum 0]) 10].
Proof. vm_compute. repeat split; reflexivity. Qed.

Lemma search_of_missing_collection_reaches_the_store_witness :
  store (Server.startState Sample.docs768) !! Server.searchCollection Sample.searchMissing
    = None
  /\ storeUntouched (Server.startState Sample.docs768)
       (snd (Server.handleSearch Sample.searchMissing Sample.env
               (Server.startState Sample.docs768)))
  /\ fst (Server.handleSearch Sample.searchMissing Sample.env
            (Server.startState Sample.docs768))
     = Ok {| Server.text := "Error searching: Failed to search collection: Not Found";
             Server.isError := true |}.
Proof.
  split; [vm_compute; reflexivity|].
  destruct (search_of_missing_collection_reaches_the_store Sample.env
              (Server.startState Sample.docs768) Sample.searchMissing) as [Hstore Hsent];
    [vm_compute; reflexivity|].
  split; [exact Hstore|].
  erewrite Hsent; cycle 1.
  - vm_compute. reflexivity.
  - reflexivity.
  - vm_compute. reflexivity.
  - reflexivity.
  - vm_compute. reflexivity.
  - vm_compute. reflexivity.
Defined.

(* ================================================================= *)
(** ** The text processor across invocations *)

Lemma settingsKept_refl (s : State) : settingsKept s s.
Proof. split; [reflexivity|]. exists []. now rewrite app_nil_r. Qed.

Lemma settingsKept_trans (a b c : State) :
  settingsKept a b -> settingsKept b c -> settingsKept a c.
Proof.
  intros [Hp1 (e1 & Ht1)] [Hp2 (e2 & Ht2)]. split; [congruence|].
  exists (e1 ++ e2). now rewrite Ht2, Ht1, <- app_assoc.
Qed.

Ltac settings_call :=
  intros ?env ?s;
  cbv [settingsKept
       QdrantClient.getCollections QdrantClient.createCollection QdrantClient.upsert
       QdrantClient.deleteCollection QdrantClient.search QdrantClient.getCollection
       QdrantClient.call Embeddings.post Embeddings.embed Server.readFileSync
       Server.uuidv4 TextProcessing.splitDocuments modify];
  cbn; repeat (case_match; cbn);
  (split; [reflexivity
          | first [ exists []; symmetry; apply app_nil_r | eexists; reflexivity ] ]).

Ltac settings_leaf :=
  match goal with
  | |- keeps _ QdrantClient.getCollections => settings_call
  | |- keeps _ (QdrantClient.createCollection _ _) => settings_call
  | |- keeps _ (QdrantClient.upsert _ _) => settings_call
  | |- keeps _ (QdrantClient.deleteCollection _) => settings_call
  | |- keeps _ (QdrantClient.search _ _ _) => settings_call
  | |- keeps _ (QdrantClient.getCollection _) => settings_call
  | |- keeps _ (Embeddings.post _ _ _) => settings_call
  | |- keeps _ (Embeddings.embed _ _) => settings_call
  | |- keeps _ (Server.readFileSync _) => settings_call
  | |- keeps _ Server.uuidv4 => settings_call
  | |- keeps _ (TextProcessing.splitDocuments _) => settings_call
  | |- keeps _ (modify _) => settings_call
  end.

Ltac settings_walk :=
  keeps_walk settingsKept_refl settingsKept_trans ltac:(idtac; settings_leaf).

Lemma settingsKept_buildService (k : Embeddings.ServiceKind) :
  keeps settingsKept (Server.buildService k).
Proof.
  unfold Server.buildService, Server.configFromEnv,
    Embeddings.createAndInitializeEmbeddingService, Embeddings.initializeVectorSize,
    Embeddings.detectAndCache, Embeddings.detectModelDimensions.
  settings_walk.
Qed.



Lemma settingsKept_handleSearch (args : Server.SearchArgs) :
  keeps settingsKept (Server.handleSearch args).
Proof.
  unfold Server.handleSearch, Server.embedAndSearch, Server.validationService,
    Compatibility.validateEmbeddingCompatibility, Compatibility.defaultService,
    Embeddings.generateEmbeddings, Embeddings.initializeVectorSize,
    Embeddings.detectAndCache, Embeddings.detectModelDimensions.
  cbn [Compatibility.collectionExists Compatibility.getCollectionInfo].
  unfold_services.
  keeps_walk settingsKept_refl settingsKept_trans
    ltac:(first [apply settingsKept_buildService | settings_leaf]).
Qed.








(* ================================================================= *)
(** * Further properties of the code *)

(** ** The vector data validator, message by message *)

Section MoreMessages.

Import VectorData.

Lemma notArrayMessage_inj (i j : nat) : notArrayMessage i = notArrayMessage j -> i = j.
Proof.
  unfold notArrayMessage. intros H. apply append_cancel in H.
  apply showN_split in H as [-> _]; [reflexivity | reflexivity..].
Qed.

Lemma nonNumericMessage_inj (i n j m : nat) :
  nonNumericMessage i n = nonNumericMessage j m -> i = j /\ n = m.
Proof.
  unfold nonNumericMessage. intros H. apply append_cancel in H.
  apply showN_split in H as [-> H]; [|reflexivity..].
  apply (append_cancel " contains ") in H.
  apply showN_split in H as [-> _]; [|reflexivity..]. auto.
Qed.

Lemma extremeMessage_inj (i n j m : nat) :
  extremeMessage i n = extremeMessage j m -> i = j /\ n = m.
Proof.
  unfold extremeMessage. intros H. apply append_cancel in H.
  apply showN_split in H as [-> H]; [|reflexivity..].
  apply (append_cancel " contains ") in H.
  apply showN_split in H as [-> _]; [|reflexivity..]. auto.
Qed.

Lemma notArrayMessage_not_nonNumeric (i j k : nat) :
  notArrayMessage i <> nonNumericMessage j k.
Proof.
  unfold notArrayMessage, nonNumericMessage. intros H. apply append_cancel in H.
  apply showN_split in H as [_ H]; [discriminate | reflexivity..].
Qed.

Lemma notArrayMessage_not_noVectors (i : nat) : notArrayMessage i <> "No vectors provided".
Proof. unfold notArrayMessage. simpl. discriminate. Qed.

Lemma nonNumericMessage_not_noVectors (i k : nat) :
  nonNumericMessage i k <> "No vectors provided".
Proof. unfold nonNumericMessage. simpl. discriminate. Qed.

Variable expected : Z.

(** The messages one vector adds carry that vector's index. *)
Lemma vectorErrors_cases (msg : string) (i : nat) (v : Vec) :
  In msg (vectorErrors expected i v) ->
  (v = VNotArray /\ msg = notArrayMessage i)
  \/ (exists elems, v = VArray elems
                    /\ Z.of_nat (List.length elems) <> expected
                    /\ msg = sizeMessage i (List.length elems) expected)
  \/ (exists elems, v = VArray elems
                    /\ (0 < List.length (List.filter isNonNumber elems))%nat
                    /\ msg = nonNumericMessage i (List.length (List.filter isNonNumber elems))).
Proof.
  destruct v as [elems|].
  - rewrite vectorErrors_array, in_app_iff. intros [H | H].
    + destruct (Z.eqb_spec (Z.of_nat (List.length elems)) expected) as [|Hne]; [destruct H|].
      destruct H as [<- | []]. right. left. eauto.
    + destruct (Nat.ltb_spec 0 (List.length (List.filter isNonNumber elems))) as [Hpos|];
        [|destruct H].
      destruct H as [<- | []]. right. right. eauto.
  - unfold vectorErrors, checkVector. cbn [fst app]. intros [<- | []]. now left.
Qed.

Lemma vectorErrors_empty_wellFormed (i : nat) (v : Vec) :
  vectorErrors expected i v = [] -> wellFormed expected v = true.
Proof.
  destruct v as [elems|]; [|discriminate].
  rewrite vectorErrors_array. intros H. apply app_eq_nil in H as [Hsize Hnum].
  unfold wellFormed.
  destruct (Z.eqb (Z.of_nat (List.length elems)) expected); [|discriminate].
  cbn [andb].
  destruct (List.filter isNonNumber elems) as [|bad rest] eqn:Hf; [|discriminate].
  clear Hsize Hnum. induction elems as [|e elems IH]; [reflexivity|].
  cbn [List.filter] in Hf. cbn [forallb].
  destruct (isNonNumber e); [discriminate|]. cbn [negb andb]. auto.
Qed.

Lemma errorsFrom_empty_wellFormed (vectors : list Vec) :
  forall start, errorsFrom expected start vectors = [] ->
                forallb (wellFormed expected) vectors = true.
Proof.
  induction vectors as [|v rest IH]; intros start H; [reflexivity|].
  cbn [errorsFrom] in H. apply app_eq_nil in H as [Hv Hrest].
  cbn [forallb]. rewrite (vectorErrors_empty_wellFormed _ _ Hv), (IH _ Hrest). reflexivity.
Qed.

End MoreMessages.

(** X1. The verdict of [validateVectorData] is valid exactly for a batch
    that is not empty and whose vectors are all arrays of the expected
    length with only numbers (no NaN) as elements. *)
Theorem validateVectorData_valid_exactly_wellFormed (vectors : list Vec) (expected : Z) :
  VectorData.isValid (VectorData.validateVectorData vectors expected) = true
  <-> vectors <> [] /\ forallb (VectorData.wellFormed expected) vectors = true.
Proof.
  rewrite validateVectorData_unfold. cbv zeta. cbn [VectorData.isValid]. split.
  - intros H. apply Nat.eqb_eq in H. apply length_zero_iff_nil in H.
    apply app_eq_nil in H as [H0 H1]. split.
    + intros ->. discriminate.
    + apply (errorsFrom_empty_wellFormed expected vectors 0 H1).
  - intros [Hne Hwf]. rewrite (errorsFrom_wellFormed expected vectors Hwf).
    destruct vectors; [contradiction | reflexivity].
Qed.

(** X2. The error "No vectors provided" is reported exactly for the empty
    batch, and the empty batch is reported with that single error and no
    warning, whatever the expected size. *)
Theorem validateVectorData_empty_batch (vectors : list Vec) (expected : Z) :
  (In "No vectors provided"
      (VectorData.errors (VectorData.validateVectorData vectors expected))
   <-> vectors = [])
  /\ VectorData.validateVectorData [] expected
     = {| VectorData.isValid := false;
          VectorData.errors := ["No vectors provided"];
          VectorData.warnings := [];
          VectorData.vectorCount := 0;
          VectorData.expectedSize := expected |}.
Proof.
  split; [|reflexivity].
  rewrite validateVectorData_unfold. cbv zeta. cbn [VectorData.errors]. split.
  - intros H. apply in_app_iff in H as [H | H].
    + destruct vectors; [reflexivity | destruct H].
    + apply in_errorsFrom in H as (i & v & _ & H).
      apply vectorErrors_cases in H as [[_ H] | [(elems & _ & _ & H) | (elems & _ & _ & H)]];
        symmetry in H.
      * now apply notArrayMessage_not_noVectors in H.
      * now apply sizeMessage_not_noVectors in H.
      * now apply nonNumericMessage_not_noVectors in H.
  - intros ->. now left.
Qed.

Section OwnMessages.

Import VectorData.
Variable expected : Z.

(** A message that only the vector at [target] can add is counted in the
    batch as it is counted for that vector. *)
Lemma count_errorsFrom_own (msg : string) (target : nat) :
  (forall j v, In msg (vectorErrors expected j v) -> j = target) ->
  forall (vectors : list Vec) (start i : nat) (v : Vec),
    nth_error vectors i = Some v ->
    (start + i)%nat = target ->
    count_occ string_dec (errorsFrom expected start vectors) msg
    = count_occ string_dec (vectorErrors expected target v) msg.
Proof.
  intros Hown. induction vectors as [|w rest IH]; intros start i v Hn Ht.
  - destruct i; discriminate.
  - cbn [errorsFrom]. rewrite count_occ_app. destruct i as [|i]; cbn [nth_error] in Hn.
    + injection Hn as ->. rewrite Nat.add_0_r in Ht. subst start.
      assert (count_occ string_dec (errorsFrom expected (S target) rest) msg = 0%nat) as ->;
        [|lia].
      apply count_occ_not_In. rewrite in_errorsFrom. intros (k & u & _ & H).
      apply Hown in H. lia.
    + assert (count_occ string_dec (vectorErrors expected start w) msg = 0%nat) as ->.
      { apply count_occ_not_In. intros H. apply Hown in H. lia. }
      apply (IH (S start) i v Hn). lia.
Qed.

Lemma in_errors_cases (vectors : list Vec) (msg : string) :
  In msg (errors (validateVectorData vectors expected)) ->
  msg = "No vectors provided"
  \/ exists i v, nth_error vectors i = Some v /\ In msg (vectorErrors expected i v).
Proof.
  rewrite validateVectorData_unfold. cbv zeta. cbn [errors]. intros H.
  apply in_app_iff in H as [H | H].
  - destruct (Nat.eqb _ 0); [|destruct H]. destruct H as [<- | []]. now left.
  - right. apply in_errorsFrom in H as (i & v & Hi & H). eauto.
Qed.

Lemma in_errors_of_vector (vectors : list Vec) (msg : string) (i : nat) (v : Vec) :
  nth_error vectors i = Some v ->
  In msg (vectorErrors expected i v) ->
  In msg (errors (validateVectorData vectors expected)).
Proof.
  intros Hn H. rewrite validateVectorData_unfold. cbv zeta. cbn [errors].
  apply in_app_iff. right. apply in_errorsFrom. exists i, v. auto.
Qed.

Lemma in_warnings_iff (vectors : list Vec) (index count : nat) :
  In (extremeMessage index count) (warnings (validateVectorData vectors expected))
  <-> exists v, nth_error vectors index = Some v
                /\ extremeCount v = count /\ (0 < count)%nat.
Proof.
  rewrite validateVectorData_unfold. cbv zeta. cbn [warnings].
  rewrite in_warningsFrom. split.
  - intros (i & v & Hn & H). rewrite vectorWarnings_count in H. cbn [Nat.add] in H.
    destruct (Nat.ltb_spec 0 (extremeCount v)) as [Hpos|]; [|destruct H].
    destruct H as [H | []]. apply extremeMessage_inj in H as [-> <-]. eauto.
  - intros (v & Hn & <- & Hpos). exists index, v. split; [exact Hn|].
    rewrite vectorWarnings_count. apply Nat.ltb_lt in Hpos. rewrite Hpos. now left.
Qed.

Lemma length_warningsFrom (vectors : list Vec) :
  forall start, (List.length (warningsFrom expected start vectors)
                 <= List.length vectors)%nat.
Proof.
  induction vectors as [|v rest IH]; intros start; [reflexivity|].
  cbn [warningsFrom]. rewrite length_app, vectorWarnings_count.
  specialize (IH (S start)). destruct (Nat.ltb 0 (extremeCount v)); cbn [List.length]; lia.
Qed.

End OwnMessages.

(** X3. A vector that is not an array gets the one error naming its index
    and nothing else: no size error, no non-numeric error and no warning is
    reported for that index. *)
Theorem validateVectorData_not_array_only_error
    (vectors : list Vec) (expected : Z) (index : nat) :
  nth_error vectors index = Some VNotArray ->
  let verdict := VectorData.validateVectorData vectors expected in
  count_occ string_dec (VectorData.errors verdict) (VectorData.notArrayMessage index) = 1%nat
  /\ (forall size, ~ In (VectorData.sizeMessage index size expected)
                        (VectorData.errors verdict))
  /\ (forall count, ~ In (VectorData.nonNumericMessage index count)
                         (VectorData.errors verdict))
  /\ (forall count, ~ In (VectorData.extremeMessage index count)
                         (VectorData.warnings verdict)).
Proof.
  intros Hn. cbv zeta. split; [|split; [|split]].
  - rewrite validateVectorData_unfold. cbv zeta. cbn [VectorData.errors].
    rewrite count_occ_app.
    rewrite (count_errorsFrom_own expected (VectorData.notArrayMessage index) index)
      with (i := index) (v := VNotArray); [| |exact Hn|reflexivity].
    + assert (Nat.eqb (List.length vectors) 0 = false) as ->.
      { destruct vectors; [destruct index; discriminate | reflexivity]. }
      unfold VectorData.vectorErrors, VectorData.checkVector. cbn [fst app count_occ].
      destruct (string_dec _ _) as [?|C]; [reflexivity | contradiction].
    + intros j v H.
      apply vectorErrors_cases in H
        as [[_ H] | [(elems & _ & _ & H) | (elems & _ & _ & H)]].
      * apply notArrayMessage_inj in H. auto.
      * symmetry in H. now apply sizeMessage_not_notArray in H.
      * now apply notArrayMessage_not_nonNumeric in H.
  - intros size H. apply in_errors_cases in H as [H | (i & v & Hi & H)].
    + now apply sizeMessage_not_noVectors in H.
    + apply in_vectorErrors_size in H as [-> (elems & -> & _)]. congruence.
  - intros count H. apply in_errors_cases in H as [H | (i & v & Hi & H)].
    + now apply nonNumericMessage_not_noVectors in H.
    + apply vectorErrors_cases in H
        as [[_ H] | [(elems & _ & _ & H) | (elems & -> & _ & H)]].
      * symmetry in H. now apply notArrayMessage_not_nonNumeric in H.
      * symmetry in H. now apply sizeMessage_not_nonNumeric in H.
      * apply nonNumericMessage_inj in H as [-> _]. congruence.
  - intros count H. apply in_warnings_iff in H as (v & Hv & Hc & Hpos).
    rewrite Hn in Hv. injection Hv as <-. cbn in Hc. lia.
Qed.

Lemma validateVectorData_not_array_only_error_witness :
  VectorData.errors
    (VectorData.validateVectorData [VArray [ENum 1; ENum 2]; VNotArray] 2)
  = ["Vector at index 1 is not an array"]
  /\ count_occ string_dec
       (VectorData.errors
          (VectorData.validateVectorData [VArray [ENum 1; ENum 2]; VNotArray] 2))
       (VectorData.notArrayMessage 1) = 1%nat.
Proof.
  split; [reflexivity|].
  apply (validateVectorData_not_array_only_error
           [VArray [ENum 1; ENum 2]; VNotArray] 2 1%nat eq_refl).
Defined.

(** X4. An error "contains k non-numeric values" is reported for an index
    exactly when the vector there is an array with k > 0 elements that are
    not numbers or are NaN; it is reported besides a size error when the
    length is wrong as well. *)
Theorem validateVectorData_non_numeric_errors
    (vectors : list Vec) (expected : Z) (index count : nat) :
  let verdict := VectorData.validateVectorData vectors expected in
  (In (VectorData.nonNumericMessage index count) (VectorData.errors verdict)
   <-> exists elems, nth_error vectors index = Some (VArray elems)
                     /\ List.length (List.filter isNonNumber elems) = count
                     /\ (0 < count)%nat)
  /\ (forall elems,
         nth_error vectors index = Some (VArray elems) ->
         List.length (List.filter isNonNumber elems) = count ->
         (0 < count)%nat ->
         Z.of_nat (List.length elems) <> expected ->
         In (VectorData.sizeMessage index (List.length elems) expected)
            (VectorData.errors verdict)
         /\ In (VectorData.nonNumericMessage index count) (VectorData.errors verdict))
  /\ isNonNumber (ENum PrimFloat.nan) = true.
Proof.
  cbv zeta.
  assert (forall elems,
             nth_error vectors index = Some (VArray elems) ->
             List.length (List.filter isNonNumber elems) = count ->
             (0 < count)%nat ->
             In (VectorData.nonNumericMessage index count)
                (VectorData.errors (VectorData.validateVectorData vectors expected))) as Hin.
  { intros elems Hn <- Hpos. apply (in_errors_of_vector expected _ _ _ _ Hn).
    rewrite vectorErrors_array, in_app_iff. right.
    apply Nat.ltb_lt in Hpos. rewrite Hpos. now left. }
  split; [|split; [|reflexivity]].
  - split.
    + intros H. apply in_errors_cases in H as [H | (i & v & Hi & H)].
      * now apply nonNumericMessage_not_noVectors in H.
      * apply vectorErrors_cases in H
          as [[_ H] | [(elems & _ & _ & H) | (elems & -> & Hpos & H)]].
        -- symmetry in H. now apply notArrayMessage_not_nonNumeric in H.
        -- symmetry in H. now apply sizeMessage_not_nonNumeric in H.
        -- apply nonNumericMessage_inj in H as [-> ->]. eauto.
    + intros (elems & Hn & Hc & Hpos). apply (Hin elems Hn Hc Hpos).
  - intros elems Hn Hc Hpos Hne. split; [|apply (Hin elems Hn Hc Hpos)].
    apply (in_errors_of_vector expected _ _ _ _ Hn).
    rewrite vectorErrors_array, in_app_iff. left.
    destruct (Z.eqb_spec (Z.of_nat (List.length elems)) expected); [contradiction|].
    now left.
Qed.

Lemma validateVectorData_non_numeric_errors_witness :
  VectorData.errors
    (VectorData.validateVectorData
       [VArray [ENum 1; ENum PrimFloat.nan; EOther PrimFloat.nan]] 2)
  = ["Vector at index 0 has size 3, expected 2";
     "Vector at index 0 contains 2 non-numeric values"]
  /\ In (VectorData.sizeMessage 0 3 2)
        (VectorData.errors
           (VectorData.validateVectorData
              [VArray [ENum 1; ENum PrimFloat.nan; EOther PrimFloat.nan]] 2))
  /\ In (VectorData.nonNumericMessage 0 2)
        (VectorData.errors
           (VectorData.validateVectorData
              [VArray [ENum 1; ENum PrimFloat.nan; EOther PrimFloat.nan]] 2)).
Proof.
  split; [reflexivity|].
  apply (proj1 (proj2 (validateVectorData_non_numeric_errors
                         [VArray [ENum 1; ENum PrimFloat.nan; EOther PrimFloat.nan]]
                         2 0%nat 2%nat))
           [ENum 1; ENum PrimFloat.nan; EOther PrimFloat.nan] eq_refl eq_refl);
    [repeat constructor | discriminate].
Defined.

(** X5. A warning "contains k values with absolute value > 100" is reported
    for an index exactly when the vector there holds k > 0 such elements;
    there is at most one warning per vector. *)
Theorem validateVectorData_warnings_exactly
    (vectors : list Vec) (expected : Z) (index count : nat) :
  let verdict := VectorData.validateVectorData vectors expected in
  (In (VectorData.extremeMessage index count) (VectorData.warnings verdict)
   <-> exists vector, nth_error vectors index = Some vector
                      /\ VectorData.extremeCount vector = count /\ (0 < count)%nat)
  /\ (List.length (VectorData.warnings verdict) <= List.length vectors)%nat.
Proof.
  cbv zeta. split; [apply in_warnings_iff|].
  rewrite validateVectorData_unfold. cbv zeta. cbn [VectorData.warnings].
  apply length_warningsFrom.
Qed.

(** ** The compatibility validator, beyond the claims *)

Lemma getCollectionInfo_failed (env : Env) (s : State) (name : string) (fault : Exn) :
  qdrantFault env (List.length (trace s)) = Some fault ->
  QdrantService.getCollectionInfo name env s
  = (Ok None, logEvent s (QdrantGetCollection name)).
Proof.
  intros Hfault.
  unfold QdrantService.getCollectionInfo, QdrantClient.getCollection, QdrantClient.call,
    tryCatch, bind, ret.
  now rewrite Hfault.
Qed.

Lemma collectionExists_unreachable (env : Env) (s : State) (name : string) (fault : Exn) :
  qdrantFault env (List.length (trace s)) = Some fault ->
  QdrantService.collectionExists name env s = (Ok false, logEvent s QdrantGetCollections).
Proof.
  intros Hfault.
  unfold QdrantService.collectionExists, QdrantService.listCollections,
    QdrantService.handleQdrantError, QdrantClient.getCollections, QdrantClient.call,
    tryCatch, bind, ret, throw.
  now rewrite Hfault.
Qed.

(** The check throws exactly when the provider's size cannot be read. *)
Lemma validate_without_size (qdrantService : Compatibility.Backend) (env : Env) (s : State)
    (collection : string) (service : Embeddings.Service) (e : Exn) :
  Embeddings.vectorSize service = Throw e ->
  exists s', Compatibility.validateEmbeddingCompatibility qdrantService collection service
               env s = (Throw e, s').
Proof.
  intros Hsize.
  unfold Compatibility.validateEmbeddingCompatibility, tryCatch, bind, lift, ret.
  rewrite Hsize.
  destruct (Compatibility.collectionExists qdrantService collection env s)
    as [[[|]|e1] s1]; cbn [negb]; [|eexists; reflexivity..].
  destruct (Compatibility.getCollectionInfo qdrantService collection env s1)
    as [[[[collectionSize distance]|]|e2] s2]; eexists; reflexivity.
Qed.

(** X6. Whatever [QdrantService] it is given, a verdict the check returns
    is well shaped: the expected size is the provider's; it is valid
    exactly for the actions [create_collection] and [compatible]; an actual
    size is reported exactly for [compatible] (where it equals the expected
    one) and [size_mismatch] (where it differs); suggestions come exactly
    with [size_mismatch]. *)
Theorem verdict_is_well_shaped
    (qdrantService : Compatibility.Backend) (env : Env) (s s' : State)
    (collection : string) (service : Embeddings.Service) (verdict : Compatibility.Result) :
  Compatibility.validateEmbeddingCompatibility qdrantService collection service env s
    = (Ok verdict, s') ->
  Embeddings.vectorSize service = Ok (Compatibility.expectedVectorSize verdict)
  /\ match Compatibility.action verdict with
     | Compatibility.create_collection =>
         Compatibility.isValid verdict = true
         /\ Compatibility.actualVectorSize verdict = None
         /\ Compatibility.suggestedActions verdict = None
     | Compatibility.compatible =>
         Compatibility.isValid verdict = true
         /\ Compatibility.actualVectorSize verdict
            = Some (Compatibility.expectedVectorSize verdict)
         /\ Compatibility.suggestedActions verdict = None
     | Compatibility.size_mismatch =>
         Compatibility.isValid verdict = false
         /\ (exists actual,
                Compatibility.actualVectorSize verdict = Some actual
                /\ actual <> Compatibility.expectedVectorSize verdict
                /\ Compatibility.suggestedActions verdict
                   = Some (Compatibility.suggestions actual
                             (Compatibility.expectedVectorSize verdict)))
     | Compatibility.error =>
         Compatibility.isValid verdict = false
         /\ Compatibility.actualVectorSize verdict = None
         /\ Compatibility.suggestedActions verdict = None
     end.
Proof.
  intros Hrun.
  destruct (Embeddings.vectorSize service) as [size|e] eqn:Hsize.
  2:{ destruct (validate_without_size qdrantService env s collection service e Hsize)
        as [s0 H]. congruence. }
  destruct (Compatibility.collectionExists qdrantService collection env s)
    as [[[|]|e] s1] eqn:H1.
  - destruct (Compatibility.getCollectionInfo qdrantService collection env s1)
      as [[[[collectionSize distance]|]|e] s2] eqn:H2.
    + rewrite (validate_existing qdrantService env collection service size Hsize
                 _ _ _ _ _ H1 H2) in Hrun.
      injection Hrun as <- _.
      destruct (Z.eqb_spec collectionSize size) as [->|Hne]; cbn.
      * auto.
      * split; [reflexivity|]. split; [reflexivity|]. exists collectionSize. auto.
    + rewrite (validate_no_info qdrantService env collection service size Hsize
                 _ _ _ H1 H2) in Hrun.
      injection Hrun as <- _. cbn. auto.
    + rewrite (validate_info_throws qdrantService env collection service size Hsize
                 _ _ _ _ H1 H2) in Hrun.
      injection Hrun as <- _. cbn. auto.
  - rewrite (validate_missing qdrantService env collection service size Hsize _ _ H1)
      in Hrun.
    injection Hrun as <- _. cbn. auto.
  - rewrite (validate_exists_throws qdrantService env collection service size Hsize
               _ _ _ H1) in Hrun.
    injection Hrun as <- _. cbn. auto.
Qed.

Lemma verdict_is_well_shaped_witness :
  Embeddings.vectorSize Sample.fastembed384 = Ok 384
  /\ (exists actual,
         Some 768 = Some actual /\ actual <> 384
         /\ Some (Compatibility.suggestions 768 384)
            = Some (Compatibility.suggestions actual 384)).
Proof.
  split; [reflexivity|].
  exact (proj2 (proj2 (verdict_is_well_shaped Compatibility.defaultService Sample.env
                         (Server.startState Sample.docs768)
                         (logEvent (logEvent (Server.startState Sample.docs768)
                                      QdrantGetCollections) (QdrantGetCollection "docs"))
                         "docs" Sample.fastembed384
                         (Compatibility.mismatchVerdict 384 768) eq_refl))).
Defined.

(** X7. With the service the server uses: when the collection is listed
    and the metadata call that follows fails, the failure does not reach the
    validator's [catch] block; [getCollectionInfo] answers [null] and the
    verdict is invalid, [error], "Could not retrieve collection
    information", after the two read calls. *)
Theorem collection_without_metadata_is_an_error
    (env : Env) (s : State) (collection : string) (c : CollectionState)
    (service : Embeddings.Service) (size : Z) (fault : Exn) :
  store s !! collection = Some c ->
  qdrantFault env (List.length (trace s)) = None ->
  qdrantFault env (S (List.length (trace s))) = Some fault ->
  Embeddings.vectorSize service = Ok size ->
  Compatibility.validateEmbeddingCompatibility Compatibility.defaultService
    collection service env s
  = (Ok {| Compatibility.isValid := false;
           Compatibility.reason := "Could not retrieve collection information";
           Compatibility.expectedVectorSize := size;
           Compatibility.actualVectorSize := None;
           Compatibility.action := Compatibility.error;
           Compatibility.suggestedActions := None |},
     logEvent (logEvent s QdrantGetCollections) (QdrantGetCollection collection)).
Proof.
  intros Hsome Hup Hdown Hsize.
  apply (validate_no_info Compatibility.defaultService env collection service size Hsize
           s (logEvent s QdrantGetCollections)).
  - apply (collectionExists_present env s collection c Hsome Hup).
  - apply (getCollectionInfo_failed env (logEvent s QdrantGetCollections) collection fault).
    cbn. now rewrite length_app, Nat.add_comm.
Qed.

Lemma collection_without_metadata_is_an_error_witness :
  fst (Compatibility.validateEmbeddingCompatibility Compatibility.defaultService
         "docs" Sample.ollama768 Sample.secondCallFails (Server.startState Sample.docs768))
  = Ok (Compatibility.noInfoVerdict 768).
Proof.
  exact (f_equal fst
           (collection_without_metadata_is_an_error Sample.secondCallFails
              (Server.startState Sample.docs768) "docs"
              {| vectorsConfig := Some {| paramsSize := 768; paramsDistance := Some "Cosine" |};
                 points := [] |}
              Sample.ollama768 768 (newError "socket hang up")
              eq_refl eq_refl eq_refl eq_refl)).
Defined.

(** X8. With the service the server uses: when the listing call fails, the
    check answers valid, [create_collection] for every collection name, also
    for a collection that is in the store, because the existence check turns
    the failure into "does not exist". *)
Theorem failed_listing_reads_as_missing_collection
    (env : Env) (s : State) (collection : string) (fault : Exn)
    (service : Embeddings.Service) (size : Z) :
  qdrantFault env (List.length (trace s)) = Some fault ->
  Embeddings.vectorSize service = Ok size ->
  Compatibility.validateEmbeddingCompatibility Compatibility.defaultService
    collection service env s
  = (Ok {| Compatibility.isValid := true;
           Compatibility.reason :=
             "Collection does not exist - will be created with correct dimensions";
           Compatibility.expectedVectorSize := size;
           Compatibility.actualVectorSize := None;
           Compatibility.action := Compatibility.create_collection;
           Compatibility.suggestedActions := None |},
     logEvent s QdrantGetCollections).
Proof.
  intros Hfault Hsize.
  apply (validate_missing Compatibility.defaultService env collection service size Hsize).
  apply (collectionExists_unreachable env s collection fault Hfault).
Qed.

Lemma failed_listing_reads_as_missing_collection_witness :
  store (Server.startState Sample.docs768) !! "docs"
    = Some {| vectorsConfig := Some {| paramsSize := 768; paramsDistance := Some "Cosine" |};
              points := [] |}
  /\ fst (Compatibility.validateEmbeddingCompatibility Compatibility.defaultService
            "docs" Sample.ollama768 Sample.unreachable (Server.startState Sample.docs768))
     = Ok (Compatibility.createVerdict 768).
Proof.
  split; [vm_compute; reflexivity|].
  exact (f_equal fst
           (failed_listing_reads_as_missing_collection Sample.unreachable
              (Server.startState Sample.docs768) "docs" (JsError "Error" "fetch failed")
              Sample.ollama768 768 eq_refl eq_refl)).
Defined.

(** X9. With the service the server uses, the check only reads: it leaves
    the store, the dimension cache and the text processor as they are, and
    it makes one call (the listing) or two (the listing, then the metadata
    fetch of that collection), whatever the provider and the outcome. *)
Theorem compatibility_check_only_reads
    (env : Env) (s : State) (collection : string) (service : Embeddings.Service) :
  let after := snd (Compatibility.validateEmbeddingCompatibility
                      Compatibility.defaultService collection service env s) in
  store after = store s
  /\ dimensionCache after = dimensionCache s
  /\ textProcessor after = textProcessor s
  /\ (trace after = trace s ++ [QdrantGetCollections]
      \/ trace after = trace s ++ [QdrantGetCollections; QdrantGetCollection collection]).
Proof.
  cbv zeta.
  unfold Compatibility.validateEmbeddingCompatibility, Compatibility.defaultService,
    tryCatch, bind, lift, ret.
  cbn [Compatibility.collectionExists Compatibility.getCollectionInfo].
  unfold QdrantService.collectionExists, QdrantService.getCollectionInfo,
    QdrantService.listCollections, QdrantService.handleQdrantError,
    QdrantClient.getCollections, QdrantClient.getCollection, QdrantClient.call,
    tryCatch, bind, ret, throw.
  repeat (case_match; cbn in *; simplify_eq);
    (split; [reflexivity|]; split; [reflexivity|]; split; [reflexivity|]);
    unfold setStore, logEvent; cbn; rewrite <- ?app_assoc; auto.
Qed.

(** ** The store adapter and the validator together *)

Lemma createCollection_done (env : Env) (s s1 : State) (name : string) (size : Z) :
  QdrantService.createCollection name size env s = (Ok tt, s1) ->
  store s !! name = None
  /\ s1 = setStore (logEvent s (QdrantCreateCollection name size))
            (<[name := {| vectorsConfig :=
                            Some {| paramsSize := size; paramsDistance := Some "Cosine" |};
                          points := [] |}]> (store s)).
Proof.
  unfold QdrantService.createCollection, QdrantService.handleQdrantError,
    QdrantClient.createCollection, QdrantClient.call, tryCatch, throw.
  destruct (qdrantFault env (List.length (trace s))); [discriminate|].
  destruct (store s !! name); [discriminate|].
  intros H. injection H as <-. auto.
Qed.

Lemma deleteCollection_done (env : Env) (s s1 : State) (name : string) :
  QdrantService.deleteCollection name env s = (Ok tt, s1) ->
  s1 = setStore (logEvent s (QdrantDeleteCollection name)) (delete name (store s)).
Proof.
  unfold QdrantService.deleteCollection, QdrantService.handleQdrantError,
    QdrantClient.deleteCollection, QdrantClient.call, tryCatch, throw.
  destruct (qdrantFault env (List.length (trace s))); [discriminate|].
  intros H. now injection H as <-.
Qed.

(** X10. A collection that [createCollection] made with a provider's size
    is afterwards judged [compatible] with that provider (while the store
    stays reachable): the adapter writes the size where the validator reads
    it, with the distance "Cosine". *)
Theorem created_collection_is_compatible
    (env : Env) (s s1 : State) (name : string) (size : Z) (service : Embeddings.Service) :
  QdrantService.createCollection name size env s = (Ok tt, s1) ->
  qdrantFault env (List.length (trace s1)) = None ->
  qdrantFault env (S (List.length (trace s1))) = None ->
  Embeddings.vectorSize service = Ok size ->
  QdrantService.getCollectionInfo name env s1
    = (Ok (Some (size, "Cosine")), logEvent s1 (QdrantGetCollection name))
  /\ Compatibility.validateEmbeddingCompatibility Compatibility.defaultService
       name service env s1
     = (Ok {| Compatibility.isValid := true;
              Compatibility.reason := "Vector dimensions are compatible";
              Compatibility.expectedVectorSize := size;
              Compatibility.actualVectorSize := Some size;
              Compatibility.action := Compatibility.compatible;
              Compatibility.suggestedActions := None |},
        logEvent (logEvent s1 QdrantGetCollections) (QdrantGetCollection name)).
Proof.
  intros Hcreate Hup1 Hup2 Hsize.
  destruct (createCollection_done env s s1 name size Hcreate) as [_ ->].
  set (c := {| vectorsConfig := Some {| paramsSize := size; paramsDistance := Some "Cosine" |};
               points := [] |}).
  set (s1 := setStore _ _) in *.
  assert (Hin : store s1 !! name = Some c) by (subst s1; cbn; apply lookup_insert_eq).
  split.
  - exact (getCollectionInfo_present env s1 name c _ Hin eq_refl Hup1).
  - pose proof (validate_existing Compatibility.defaultService env name service size Hsize
                  s1 (logEvent s1 QdrantGetCollections)
                  (logEvent (logEvent s1 QdrantGetCollections) (QdrantGetCollection name))
                  size "Cosine") as H.
    rewrite Z.eqb_refl in H. cbn [negb] in H. apply H.
    + exact (collectionExists_present env s1 name c Hin Hup1).
    + apply (getCollectionInfo_present env (logEvent s1 QdrantGetCollections) name c _
               Hin eq_refl).
      cbn [logEvent trace]. now rewrite length_app, Nat.add_comm.
Qed.

Lemma created_collection_is_compatible_witness :
  let s1 := snd (QdrantService.createCollection "fresh" 768 Sample.env (Server.startState ∅)) in
  fst (Compatibility.validateEmbeddingCompatibility Compatibility.defaultService
         "fresh" Sample.ollama768 Sample.env s1)
  = Ok (Compatibility.compatibleVerdict 768 768).
Proof.
  exact (f_equal fst
           (proj2 (created_collection_is_compatible Sample.env (Server.startState ∅)
                     (snd (QdrantService.createCollection "fresh" 768 Sample.env
                             (Server.startState ∅)))
                     "fresh" 768 Sample.ollama768 eq_refl eq_refl eq_refl eq_refl))).
Defined.

(** X11. After [deleteCollection] has returned, the collection is gone and
    every other collection is as it was; the validator then answers valid,
    [create_collection] for the deleted name, so the next ingest creates the
    collection anew with the size of whatever provider is used. *)
Theorem deleted_collection_is_missing
    (env : Env) (s s1 : State) (name : string) (service : Embeddings.Service) (size : Z) :
  QdrantService.deleteCollection name env s = (Ok tt, s1) ->
  Embeddings.vectorSize service = Ok size ->
  store s1 !! name = None
  /\ (forall other, other <> name -> store s1 !! other = store s !! other)
  /\ Compatibility.validateEmbeddingCompatibility Compatibility.defaultService
       name service env s1
     = (Ok {| Compatibility.isValid := true;
              Compatibility.reason :=
                "Collection does not exist - will be created with correct dimensions";
              Compatibility.expectedVectorSize := size;
              Compatibility.actualVectorSize := None;
              Compatibility.action := Compatibility.create_collection;
              Compatibility.suggestedActions := None |},
        logEvent s1 QdrantGetCollections).
Proof.
  intros Hdelete Hsize.
  rewrite (deleteCollection_done env s s1 name Hdelete).
  set (s2 := setStore _ _).
  assert (Hgone : store s2 !! name = None) by (subst s2; cbn; apply lookup_delete_eq).
  split; [exact Hgone|]. split.
  - intros other Hother. subst s2. cbn. now apply lookup_delete_ne.
  - exact (validate_default_missing env s2 name service size Hgone Hsize).
Qed.

Lemma deleted_collection_is_missing_witness :
  let s1 := snd (QdrantService.deleteCollection "docs" Sample.env
                   (Server.startState Sample.docs768)) in
  fst (Compatibility.validateEmbeddingCompatibility Compatibility.defaultService
         "docs" Sample.fastembed384 Sample.env s1)
  = Ok (Compatibility.createVerdict 384).
Proof.
  exact (f_equal fst
           (proj2 (proj2 (deleted_collection_is_missing Sample.env
                            (Server.startState Sample.docs768)
                            (snd (QdrantService.deleteCollection "docs" Sample.env
                                    (Server.startState Sample.docs768)))
                            "docs" Sample.fastembed384 384 eq_refl eq_refl)))).
Defined.

(** ** The embedding providers *)

Lemma orDefault_truthy (value : option string) (fallback : string) :
  fallback <> "" -> falsyString (Some (orDefault value fallback)) = false.
Proof.
  intros Hfallback. unfold falsyString, orDefault.
  destruct value as [v|]; [destruct (String.eqb_spec v "")|];
    now apply String.eqb_neq.
Qed.

(** X12. The factory refuses a configuration exactly when the provider is
    a hosted one (OpenAI, OpenRouter) and the API key is missing or empty,
    with the message of the [switch]; every other configuration gives a
    service of the requested kind whose model is the configured one or,
    when that is missing or empty, the class's default, whose endpoint is
    set for the three network providers and absent for FastEmbed, and whose
    dynamic size is not yet known.  The [validateConfig] messages of the
    constructors are never raised through the factory. *)
Theorem createEmbeddingService_refuses_only_missing_keys (config : Embeddings.Config) :
  match Embeddings.createEmbeddingService config with
  | Throw e =>
      falsyString (Embeddings.configApiKey config) = true
      /\ ((Embeddings.configType config = Embeddings.openai
           /\ e = newError "OpenAI API key is required")
          \/ (Embeddings.configType config = Embeddings.openrouter
              /\ e = newError "OpenRouter API key is required"))
  | Ok service =>
      Embeddings.kind service = Embeddings.configType config
      /\ Embeddings.model service
         = Some (orDefault (Embeddings.configModel config)
                   (Embeddings.defaultModel (Embeddings.configType config)))
      /\ falsyString (Embeddings.model service) = false
      /\ Embeddings._vectorSize service = None
      /\ match Embeddings.configType config with
         | Embeddings.openai | Embeddings.openrouter =>
             falsyString (Embeddings.configApiKey config) = false
             /\ Embeddings.apiKey service = Embeddings.configApiKey config
             /\ falsyString (Embeddings.endpoint service) = false
         | Embeddings.ollama =>
             Embeddings.apiKey service = None
             /\ falsyString (Embeddings.endpoint service) = false
         | Embeddings.fastembed =>
             Embeddings.apiKey service = None /\ Embeddings.endpoint service = None
         end
  end.
Proof.
  unfold Embeddings.createEmbeddingService.
  destruct (Embeddings.configType config); cbv zeta;
    cbn [Embeddings.apiKey Embeddings.endpoint Embeddings.model Embeddings.kind
         Embeddings._vectorSize Embeddings.defaultModel];
    rewrite ?orDefault_truthy by discriminate;
    try (destruct (falsyString (Embeddings.configApiKey config)) eqn:Hkey);
    cbn [Embeddings.apiKey Embeddings.endpoint Embeddings.model Embeddings.kind
         Embeddings._vectorSize];
    rewrite ?orDefault_truthy by discriminate;
    auto 10.
Qed.

(** An array of [size] numbers. *)
Lemma checkEmbeddings_passed (size : Z) (embeddings : list Vec) :
  forall index,
    Embeddings.checkEmbeddings (Some size) index embeddings = Ok tt ->
    Forall (fun v => exists elems,
                v = VArray elems
                /\ Z.of_nat (List.length elems) = size
                /\ Embeddings.isNumberArray v = true) embeddings.
Proof.
  induction embeddings as [|v rest IH]; intros index H; [constructor|].
  cbn [Embeddings.checkEmbeddings] in H.
  destruct v as [elems|]; [|discriminate].
  destruct (Embeddings.isNumberArray (VArray elems)) eqn:Hnum; cbn [negb] in H;
    [|discriminate].
  destruct (Z.eqb_spec (Z.of_nat (List.length elems)) size) as [Hlen|]; [|discriminate].
  constructor; [|exact (IH _ H)].
  exists elems. auto.
Qed.

Lemma ollama_generated (service service' : Embeddings.Service) (texts : list string)
    (env : Env) (s s' : State) (embeddings : list Vec) :
  Embeddings.kind service = Embeddings.ollama ->
  Embeddings.generateEmbeddings service texts env s = (Ok (service', embeddings), s') ->
  exists size,
    Embeddings.vectorSize service' = Ok size
    /\ Embeddings.checkEmbeddings (Some size) 0 embeddings = Ok tt.
Proof.
  intros Hkind. unfold Embeddings.generateEmbeddings. rewrite Hkind.
  unfold bind at 1.
  assert (forall ready size s1,
             Embeddings.kind ready = Embeddings.ollama ->
             Embeddings._vectorSize ready = Some size ->
             (data <- Embeddings.post (Embeddings.endpointText ready +:+ "/api/embed")
                        (Embeddings.modelName ready) texts;;
              match data with
              | None => throw (newError "Invalid response from Ollama API")
              | Some embeddings =>
                  lift (Embeddings.checkEmbeddings (Embeddings._vectorSize ready) 0
                          embeddings);;;
                  ret (ready, embeddings)
              end) env s1 = (Ok (service', embeddings), s') ->
             exists size,
               Embeddings.vectorSize service' = Ok size
               /\ Embeddings.checkEmbeddings (Some size) 0 embeddings = Ok tt) as Hrest.
  { intros ready size s1 Hready Hsize. unfold bind, Embeddings.post, lift, ret, throw.
    destruct (axiosPost env _ _ _ _) as [[answer|]|e]; try discriminate.
    rewrite Hsize.
    destruct (Embeddings.checkEmbeddings (Some size) 0 answer) as [[]|e] eqn:Hcheck;
      [|discriminate].
    intros [= <- <- _].
    exists size. unfold Embeddings.vectorSize. rewrite Hready, Hsize. auto. }
  destruct (Embeddings._vectorSize service) as [size|] eqn:Hsize.
  - unfold ret at 1. apply (Hrest service size); assumption.
  - destruct (Embeddings.initializeVectorSize service env s) as [[ready|e] s1] eqn:Hinit;
      [|discriminate].
    apply initializeVectorSize_sets in Hinit as [size ->].
    apply (Hrest _ size); [exact Hkind | reflexivity].
Qed.

Lemma numberArray_wellFormed (size : Z) (elems : list Elem) :
  Z.of_nat (List.length elems) = size ->
  Embeddings.isNumberArray (VArray elems) = true ->
  VectorData.wellFormed size (VArray elems)
  = forallb (fun v => match v with
                      | ENum value => negb (PrimFloat.is_nan value)
                      | EOther _ => false
                      end) elems.
Proof.
  intros Hlen Hnum. cbn [VectorData.wellFormed]. rewrite <- Hlen, Z.eqb_refl.
  cbn [andb]. clear Hlen. induction elems as [|[value|coerced] rest IH]; cbn in *;
    [reflexivity | | discriminate].
  now rewrite IH.
Qed.

(** X13. What the Ollama service returns has been checked against the
    size it detected: every embedding is an array of numbers of exactly
    [vectorSize] elements.  So the vector validation that the handlers run
    next accepts the batch exactly when it is not empty and holds no [NaN]. *)
Theorem ollama_embeddings_have_the_detected_size
    (service service' : Embeddings.Service) (texts : list string)
    (env : Env) (s s' : State) (embeddings : list Vec) :
  Embeddings.kind service = Embeddings.ollama ->
  Embeddings.generateEmbeddings service texts env s = (Ok (service', embeddings), s') ->
  exists size,
    Embeddings.vectorSize service' = Ok size
    /\ Forall (fun v => exists elems,
                  v = VArray elems
                  /\ Z.of_nat (List.length elems) = size
                  /\ Embeddings.isNumberArray v = true) embeddings
    /\ (VectorData.isValid (VectorData.validateVectorData embeddings size) = true
        <-> embeddings <> [] /\ forallb freeOfNaN embeddings = true).
Proof.
  intros Hkind Hrun.
  destruct (ollama_generated service service' texts env s s' embeddings Hkind Hrun)
    as (size & Hsize & Hcheck).
  exists size. split; [exact Hsize|].
  pose proof (checkEmbeddings_passed size embeddings 0 Hcheck) as Hshape.
  split; [exact Hshape|].
  assert (forallb (VectorData.wellFormed size) embeddings = forallb freeOfNaN embeddings)
    as Hsame.
  { clear -Hshape. induction Hshape as [|v rest (elems & -> & Hlen & Hnum) _ IH];
      [reflexivity|].
    cbn [forallb]. rewrite IH. f_equal.
    now rewrite (numberArray_wellFormed size elems Hlen Hnum). }
  rewrite <- Hsame.
  rewrite validateVectorData_unfold. cbv zeta. cbn [VectorData.isValid]. split.
  - intros H. apply Nat.eqb_eq in H. apply length_zero_iff_nil in H.
    apply app_eq_nil in H as [H0 H1]. split.
    + intros ->. discriminate.
    + apply (errorsFrom_empty_wellFormed size embeddings 0 H1).
  - intros [Hne Hwf]. rewrite (errorsFrom_wellFormed size embeddings Hwf).
    destruct embeddings; [contradiction | reflexivity].
Qed.

Lemma ollama_embeddings_have_the_detected_size_witness :
  exists size,
    Embeddings.vectorSize (Embeddings.setVectorSize Sample.ollamaFresh 3) = Ok size
    /\ Forall (fun v => exists elems,
                  v = VArray elems
                  /\ Z.of_nat (List.length elems) = size
                  /\ Embeddings.isNumberArray v = true)
         [VArray [ENum 1; ENum 0; ENum 0]; VArray [ENum 1; ENum 0; ENum 0]]
    /\ (VectorData.isValid
          (VectorData.validateVectorData
             [VArray [ENum 1; ENum 0; ENum 0]; VArray [ENum 1; ENum 0; ENum 0]] size) = true
        <-> [VArray [ENum 1; ENum 0; ENum 0]; VArray [ENum 1; ENum 0; ENum 0]] <> []
            /\ forallb freeOfNaN
                 [VArray [ENum 1; ENum 0; ENum 0]; VArray [ENum 1; ENum 0; ENum 0]] = true).
Proof.
  exact (ollama_embeddings_have_the_detected_size Sample.ollamaFresh
           (Embeddings.setVectorSize Sample.ollamaFresh 3) ["alpha"; "beta"]
           Sample.env (Server.startState ∅)
           (snd (Embeddings.generateEmbeddings Sample.ollamaFresh ["alpha"; "beta"]
                   Sample.env (Server.startState ∅)))
           [VArray [ENum 1; ENum 0; ENum 0]; VArray [ENum 1; ENum 0; ENum 0]]
           eq_refl eq_refl).
Defined.

Lemma pickEmbeddings_arrays (who : string) (items picked : list Vec) :
  Embeddings.pickEmbeddings who items = Ok picked ->
  picked = items /\ forallb Embeddings.isArray picked = true.
Proof.
  unfold Embeddings.pickEmbeddings.
  destruct (forallb Embeddings.isArray items) eqn:H; [|discriminate].
  intros [= <-]. auto.
Qed.

Lemma generated_arrays (service service' : Embeddings.Service) (texts : list string)
    (env : Env) (s s' : State) (embeddings : list Vec) :
  Embeddings.generateEmbeddings service texts env s = (Ok (service', embeddings), s') ->
  forallb Embeddings.isArray embeddings = true.
Proof.
  destruct (Embeddings.kind service) eqn:Hkind.
  1,2: unfold Embeddings.generateEmbeddings; rewrite Hkind;
       unfold bind, Embeddings.post, lift, ret, throw;
       destruct (axiosPost env _ _ _ _) as [[items|]|e]; try discriminate;
       destruct (Embeddings.pickEmbeddings _ items) as [picked|e] eqn:Hpick;
       [|discriminate];
       intros [= _ <- _]; exact (proj2 (pickEmbeddings_arrays _ _ _ Hpick)).
  - unfold Embeddings.generateEmbeddings. rewrite Hkind.
    unfold bind, Embeddings.embed, ret.
    destruct (fastEmbed env _ _ _) as [answer|e]; [|discriminate].
    intros [= _ <- _]. clear. induction answer as [|e rest IH]; [reflexivity|exact IH].
  - intros Hrun.
    destruct (ollama_generated service service' texts env s s' embeddings Hkind Hrun)
      as (size & _ & Hcheck).
    pose proof (checkEmbeddings_passed size embeddings 0 Hcheck) as Hshape.
    clear -Hshape. induction Hshape as [|v rest (elems & -> & _) _ IH]; [reflexivity|].
    exact IH.
Qed.

(** X14. Whatever provider is used, what [generateEmbeddings] returns
    holds arrays only: the OpenAI and OpenRouter services reject an item
    without an array, FastEmbed converts typed arrays, Ollama checks each
    embedding.  So the vector validation of an ingest never reports "is not
    an array", for any expected size. *)
Theorem generated_embeddings_are_arrays
    (service service' : Embeddings.Service) (texts : list string)
    (env : Env) (s s' : State) (embeddings : list Vec) :
  Embeddings.generateEmbeddings service texts env s = (Ok (service', embeddings), s') ->
  forallb Embeddings.isArray embeddings = true
  /\ forall (size : Z) (index : nat),
       ~ In (VectorData.notArrayMessage index)
           (VectorData.errors (VectorData.validateVectorData embeddings size)).
Proof.
  intros Hrun.
  pose proof (generated_arrays service service' texts env s s' embeddings Hrun) as Harrays.
  split; [exact Harrays|].
  intros size index Hin.
  apply in_errors_cases in Hin as [Hin | (i & v & Hnth & Hin)].
  - now apply notArrayMessage_not_noVectors in Hin.
  - assert (Embeddings.isArray v = true) as Hv.
    { apply nth_error_In in Hnth. rewrite forallb_forall in Harrays. auto. }
    destruct v as [elems|]; [|discriminate].
    apply vectorErrors_cases in Hin as [Hin | [Hin | Hin]].
    + destruct Hin as [Hv' _]. discriminate.
    + destruct Hin as (elems' & _ & _ & Hin).
      symmetry in Hin. now apply sizeMessage_not_notArray in Hin.
    + destruct Hin as (elems' & _ & _ & Hin).
      now apply notArrayMessage_not_nonNumeric in Hin.
Qed.

Lemma generated_embeddings_are_arrays_witness :
  forallb Embeddings.isArray [VArray [ENum 1; ENum 0; ENum 0]] = true
  /\ forall (size : Z) (index : nat),
       ~ In (VectorData.notArrayMessage index)
           (VectorData.errors
              (VectorData.validateVectorData [VArray [ENum 1; ENum 0; ENum 0]] size)).
Proof.
  exact (generated_embeddings_are_arrays
           {| Embeddings.kind := Embeddings.openai; Embeddings.apiKey := Some "sk-test";
              Embeddings.endpoint := Some "https://api.openai.com/v1";
              Embeddings.model := Some "text-embedding-ada-002";
              Embeddings._vectorSize := None |}
           _ ["alpha"] Sample.env (Server.startState ∅)
           (logEvent (Server.startState ∅)
              (AxiosPost "https://api.openai.com/v1/embeddings" "text-embedding-ada-002"
                 ["alpha"]))
           [VArray [ENum 1; ENum 0; ENum 0]] eq_refl).
Defined.

(** X15. A service of one of the three providers that embed over the
    network (OpenAI, OpenRouter, Ollama), whose size is known, embeds a
    batch with one request carrying all the texts, whether the request
    succeeds or not and whatever it answers; the run changes nothing else
    (store, dimension cache and text processor stay), and on success the
    service comes back as it was. *)
Theorem batch_is_embedded_in_one_request
    (service : Embeddings.Service) (texts : list string) (env : Env) (s : State)
    (size : Z) (request : Event) :
  batchRequest service texts = Some request ->
  Embeddings.vectorSize service = Ok size ->
  let run := Embeddings.generateEmbeddings service texts env s in
  snd run = logEvent s request
  /\ forall service' embeddings, fst run = Ok (service', embeddings) -> service' = service.
Proof.
  intros Hrequest Hsize. cbv zeta. revert Hrequest.
  unfold Embeddings.generateEmbeddings, batchRequest.
  unfold Embeddings.vectorSize in Hsize.
  destruct (Embeddings.kind service); intros [= <-].
  1,2: unfold bind, Embeddings.post, lift, ret, throw;
       destruct (axiosPost env _ _ _ _) as [[items|]|e]; cbn [fst snd];
       try (split; [reflexivity | discriminate]);
       destruct (Embeddings.pickEmbeddings _ items);
       (split; [reflexivity|]); cbn; congruence.
  destruct (Embeddings._vectorSize service) as [known|]; [|discriminate].
  unfold bind, Embeddings.post, lift, ret, throw.
  destruct (axiosPost env _ _ _ _) as [[items|]|e]; cbn [fst snd];
    try (split; [reflexivity | discriminate]).
  destruct (Embeddings.checkEmbeddings _ 0 items) as [[]|e];
    (split; [reflexivity|]); cbn; congruence.
Qed.

Lemma batch_is_embedded_in_one_request_witness :
  trace (snd (Embeddings.generateEmbeddings Sample.ollama768 ["alpha"; "beta"]
                Sample.silent (Server.startState Sample.docs768)))
  = [AxiosPost "http://localhost:11434/api/embed" "nomic-embed-text" ["alpha"; "beta"]].
Proof.
  exact (f_equal trace
           (proj1 (batch_is_embedded_in_one_request Sample.ollama768 ["alpha"; "beta"]
                     Sample.silent (Server.startState Sample.docs768) 768
                     (AxiosPost "http://localhost:11434/api/embed" "nomic-embed-text"
                        ["alpha"; "beta"])
                     eq_refl eq_refl))).
Defined.

(** ** Dimension detection of the Ollama service *)

(** The probe of [detectModelDimensions()]. *)
Lemma detectModelDimensions_run (service : Embeddings.Service) (env : Env) (s : State) :
  snd (Embeddings.detectModelDimensions service env s)
  = logEvent s (AxiosPost (Embeddings.endpointText service +:+ "/api/embed")
                  (Embeddings.modelName service) ["test"]).
Proof.
  unfold Embeddings.detectModelDimensions, bind, Embeddings.post, ret, throw.
  destruct (axiosPost env _ _ _ _) as [[[|first rest]|]|e]; try reflexivity.
  destruct (Embeddings.isNumberArray first); [destruct first|]; reflexivity.
Qed.

Lemma detectModelDimensions_ok (service : Embeddings.Service) (env : Env) (s s1 : State)
    (elems : list Elem) :
  Embeddings.detectModelDimensions service env s = (Ok elems, s1) ->
  exists rest,
    axiosPost env (List.length (trace s))
      (Embeddings.endpointText service +:+ "/api/embed") (Embeddings.modelName service)
      ["test"] = Ok (Some (VArray elems :: rest))
    /\ Embeddings.isNumberArray (VArray elems) = true.
Proof.
  unfold Embeddings.detectModelDimensions, bind, Embeddings.post, ret, throw.
  destruct (axiosPost env _ _ _ _) as [[[|first rest]|]|e]; try discriminate.
  destruct (Embeddings.isNumberArray first) eqn:Hnum; [|discriminate].
  destruct first as [found|]; [|discriminate].
  intros [= <- _]. eauto.
Qed.

(** X16. When [initializeVectorSize()] returns and the cache had no
    usable entry for the model (none, or the size 0), the size was detected
    by one probe with the single input "test": the server's first embedding
    was an array of numbers, the size is its length, the instance holds it,
    the cache now maps the model's key to it, and no other key of the cache
    has changed. *)
Theorem detected_dimension_is_probe_length
    (service service' : Embeddings.Service) (env : Env) (s s' : State) :
  dimensionCache s !! Embeddings.modelKey service = None
  \/ dimensionCache s !! Embeddings.modelKey service = Some 0 ->
  Embeddings.initializeVectorSize service env s = (Ok service', s') ->
  exists elems rest,
    axiosPost env (List.length (trace s))
      (Embeddings.endpointText service +:+ "/api/embed") (Embeddings.modelName service)
      ["test"] = Ok (Some (VArray elems :: rest))
    /\ Embeddings.isNumberArray (VArray elems) = true
    /\ service' = Embeddings.setVectorSize service (Z.of_nat (List.length elems))
    /\ trace s' = trace s ++ [AxiosPost (Embeddings.endpointText service +:+ "/api/embed")
                                (Embeddings.modelName service) ["test"]]
    /\ dimensionCache s'
       = <[Embeddings.modelKey service := Z.of_nat (List.length elems)]> (dimensionCache s)
    /\ store s' = store s.
Proof.
  intros Hmiss.
  assert (Embeddings.initializeVectorSize service env s
          = Embeddings.detectAndCache service env s) as ->.
  { unfold Embeddings.initializeVectorSize, bind, getState.
    destruct Hmiss as [-> | ->]; reflexivity. }
  unfold Embeddings.detectAndCache, tryCatch, bind, modify, ret, throw.
  pose proof (detectModelDimensions_run service env s) as Hrun.
  destruct (Embeddings.detectModelDimensions service env s) as [[elems|e] s1] eqn:Hprobe;
    [|discriminate].
  cbn [snd] in Hrun. subst s1.
  apply detectModelDimensions_ok in Hprobe as (rest & Hanswer & Hnum).
  intros [= <- <-]. exists elems, rest. auto 10.
Qed.

Lemma detected_dimension_is_probe_length_witness :
  exists elems rest,
    axiosPost Sample.env 0 "http://localhost:11434/api/embed" "nomic-embed-text" ["test"]
      = Ok (Some (VArray elems :: rest))
    /\ Embeddings.setVectorSize Sample.ollamaFresh 3
       = Embeddings.setVectorSize Sample.ollamaFresh (Z.of_nat (List.length elems)).
Proof.
  destruct (detected_dimension_is_probe_length Sample.ollamaFresh
              (Embeddings.setVectorSize Sample.ollamaFresh 3) Sample.env
              (Server.startState ∅)
              (snd (Embeddings.initializeVectorSize Sample.ollamaFresh Sample.env
                      (Server.startState ∅)))
              (or_introl eq_refl) eq_refl)
    as (elems & rest & Hanswer & _ & Hservice & _).
  exists elems, rest. split; [exact Hanswer | exact Hservice].
Defined.

(** X17. When [initializeVectorSize()] fails, the failure is that of the
    probe, wrapped in "Failed to detect vector dimensions for model M: "
    followed by the failure's text; the dimension cache and the store are
    as before (a failure is not cached, so the next call probes again), and
    the one probe request is the only thing that happened. *)
Theorem failed_detection_is_wrapped_and_not_cached
    (service : Embeddings.Service) (env : Env) (s s' : State) (e : Exn) :
  Embeddings.initializeVectorSize service env s = (Throw e, s') ->
  (exists cause,
      fst (Embeddings.detectModelDimensions service env s) = Throw cause
      /\ e = newError ("Failed to detect vector dimensions for model "
                         +:+ Embeddings.modelName service +:+ ": "
                         +:+ errorToString cause))
  /\ s' = logEvent s (AxiosPost (Embeddings.endpointText service +:+ "/api/embed")
                        (Embeddings.modelName service) ["test"])
  /\ Embeddings.initializeVectorSize service env s'
     = Embeddings.detectAndCache service env s'.
Proof.
  intros Hrun.
  assert (Embeddings.detectAndCache service env s = (Throw e, s')
          /\ (dimensionCache s !! Embeddings.modelKey service = None
              \/ dimensionCache s !! Embeddings.modelKey service = Some 0))
    as [Hdetect Hmiss].
  { revert Hrun. unfold Embeddings.initializeVectorSize, bind, getState, ret.
    destruct (dimensionCache s !! Embeddings.modelKey service) as [size|]; [|auto].
    destruct (Z.eqb_spec size 0) as [->|]; cbn [negb]; [auto | discriminate]. }
  revert Hdetect. unfold Embeddings.detectAndCache, tryCatch, bind, modify, ret, throw.
  pose proof (detectModelDimensions_run service env s) as Hprobe.
  destruct (Embeddings.detectModelDimensions service env s) as [[elems|cause] s1];
    [discriminate|].
  cbn [snd] in Hprobe. subst s1.
  intros [= <- <-]. split; [eauto|]. split; [reflexivity|].
  unfold Embeddings.initializeVectorSize, bind, getState. cbn [logEvent dimensionCache].
  destruct Hmiss as [-> | ->]; reflexivity.
Qed.

Lemma failed_detection_is_wrapped_and_not_cached_witness :
  snd (Embeddings.initializeVectorSize Sample.ollamaFresh Sample.silent
         (Server.startState ∅))
  = logEvent (Server.startState ∅)
      (AxiosPost (Embeddings.endpointText Sample.ollamaFresh +:+ "/api/embed")
         (Embeddings.modelName Sample.ollamaFresh) ["test"]).
Proof.
  exact (proj1 (proj2 (failed_detection_is_wrapped_and_not_cached Sample.ollamaFresh
                         Sample.silent (Server.startState ∅)
                         (snd (Embeddings.initializeVectorSize Sample.ollamaFresh
                                 Sample.silent (Server.startState ∅)))
                         (newError
                            ("Failed to detect vector dimensions for model nomic-embed-text: "
                               +:+ "Error: connect ECONNREFUSED"))
                         eq_refl))).
Defined.

(** ** The text processor *)

Lemma mapi_spec {A B : Type} (f : A -> nat -> B) (xs : list A) :
  forall start,
    List.length (mapi f start xs) = List.length xs
    /\ forall i x, nth_error xs i = Some x ->
                   nth_error (mapi f start xs) i = Some (f x (start + i)%nat).
Proof.
  induction xs as [|y rest IH]; intros start; split.
  - reflexivity.
  - intros [|i] x H; discriminate.
  - cbn [List.length mapi]. now rewrite (proj1 (IH (S start))).
  - intros [|i] x H; cbn [mapi nth_error] in *.
    + injection H as ->. now rewrite Nat.add_0_r.
    + rewrite (proj2 (IH (S start)) i x H). f_equal. f_equal. lia.
Qed.

(** X18. [processText] turns the documents of the splitter into chunks
    one for one and in order: chunk [i] carries the text and the offsets of
    document [i], the index [i] and the given source.  The splitter asked
    is the one the processor holds at that moment, with the size and the
    overlap it was built from. *)
Theorem processText_chunks_mirror_documents
    (content : string) (source : option string) (env : Env) (s s' : State)
    (chunks : list TextChunk) :
  TextProcessing.processText content source env s = (Ok chunks, s') ->
  exists documents,
    createDocuments env (fst (splitter (textProcessor s)))
      (snd (splitter (textProcessor s))) content = Ok documents
    /\ s' = logEvent s (CreateDocuments (fst (splitter (textProcessor s)))
                          (snd (splitter (textProcessor s))) content)
    /\ List.length chunks = List.length documents
    /\ forall i doc, nth_error documents i = Some doc ->
         nth_error chunks i
         = Some {| chunkText := pageContent doc; chunkIndex := i; chunkSource := source;
                   chunkStart := metadataStart doc; chunkEnd := metadataEnd doc |}.
Proof.
  unfold TextProcessing.processText, TextProcessing.splitDocuments, bind, ret.
  destruct (splitter (textProcessor s)) as [size overlap]. cbn [fst snd].
  destruct (createDocuments env size overlap content) as [documents|e]; [|discriminate].
  intros [= <- <-]. exists documents.
  split; [reflexivity|]. split; [reflexivity|].
  destruct (mapi_spec (fun doc index =>
                         {| chunkText := pageContent doc; chunkIndex := index;
                            chunkSource := source; chunkStart := metadataStart doc;
                            chunkEnd := metadataEnd doc |}) documents 0) as [Hlen Hnth].
  split; [exact Hlen|]. intros i doc Hi. exact (Hnth i doc Hi).
Qed.

Lemma processText_chunks_mirror_documents_witness :
  exists documents,
    createDocuments Sample.env 1000 200 "alpha beta gamma" = Ok documents
    /\ List.length [{| chunkText := "alpha beta gamma"; chunkIndex := 0;
                       chunkSource := Some "notes.txt";
                       chunkStart := None; chunkEnd := None |}]
       = List.length documents.
Proof.
  destruct (processText_chunks_mirror_documents "alpha beta gamma" (Some "notes.txt")
              Sample.env (Server.startState ∅)
              (snd (TextProcessing.processText "alpha beta gamma" (Some "notes.txt")
                      Sample.env (Server.startState ∅)))
              [{| chunkText := "alpha beta gamma"; chunkIndex := 0;
                  chunkSource := Some "notes.txt";
                  chunkStart := None; chunkEnd := None |}] eq_refl)
    as (documents & Hdocs & _ & Hlen & _).
  exists documents. split; [exact Hdocs | exact Hlen].
Defined.

(** X19. A setter writes its field before it builds the new splitter, so
    a size the splitter's constructor rejects stays in the processor while
    the old splitter stays in use; the next setter that succeeds builds the
    splitter from the stored fields, the once rejected size included. *)
Theorem rejected_chunk_size_takes_effect_later
    (size overlap : Z) (env : Env) (s s1 s2 : State) (e : Exn) :
  TextProcessing.setChunkSize size env s = (Throw e, s1) ->
  TextProcessing.setChunkOverlap overlap env s1 = (Ok tt, s2) ->
  newSplitter env size (chunkOverlap (textProcessor s)) = Some e
  /\ textProcessor s1
     = {| chunkSize := size; chunkOverlap := chunkOverlap (textProcessor s);
          splitter := splitter (textProcessor s) |}
  /\ textProcessor s2
     = {| chunkSize := size; chunkOverlap := overlap; splitter := (size, overlap) |}.
Proof.
  unfold TextProcessing.setChunkSize, TextProcessing.setChunkOverlap,
    TextProcessing.rebuildSplitter, bind, modify.
  cbn [setTextProcessor textProcessor chunkSize chunkOverlap splitter].
  destruct (newSplitter env size (chunkOverlap (textProcessor s))) as [e1|] eqn:H1;
    [|discriminate].
  intros [= <- <-].
  cbn [setTextProcessor textProcessor chunkSize chunkOverlap splitter].
  destruct (newSplitter env size overlap) as [e2|]; [discriminate|].
  intros [= <-]. auto.
Qed.

Lemma rejected_chunk_size_takes_effect_later_witness :
  let s1 := snd (TextProcessing.setChunkSize 100 Sample.env (Server.startState ∅)) in
  let s2 := snd (TextProcessing.setChunkOverlap 50 Sample.env s1) in
  splitter (textProcessor s1) = (1000, 200) /\ splitter (textProcessor s2) = (100, 50).
Proof.
  destruct (rejected_chunk_size_takes_effect_later 100 50 Sample.env (Server.startState ∅)
              (snd (TextProcessing.setChunkSize 100 Sample.env (Server.startState ∅)))
              (snd (TextProcessing.setChunkOverlap 50 Sample.env
                      (snd (TextProcessing.setChunkSize 100 Sample.env
                              (Server.startState ∅)))))
              (newError "Cannot have chunkOverlap >= chunkSize") eq_refl eq_refl)
    as (_ & H1 & H2).
  cbv zeta. rewrite H1, H2. split; reflexivity.
Defined.

(** ** The tool handlers *)

(** X20. No handler throws: whatever the store, the providers, the file
    system and the splitter do, a tool call that reaches a handler is
    answered with a tool result.  A sequence of calls is therefore served to
    its end. *)
Theorem handlers_always_answer (request : Server.Request) (env : Env) (s : State) :
  exists result, fst (Server.handle request env s) = Ok result.
Proof.
  destruct request as [|args|args|collection]; cbn [Server.handle].
  - unfold Server.handleListCollections, tryCatch.
    destruct (bind QdrantService.listCollections _ env s) as [[result|e] s1];
      [eexists; reflexivity|].
    unfold bind, getEnv, ret. eexists. reflexivity.
  - unfold Server.handleAddDocuments, tryCatch, Server.addDocumentsFailed, ret.
    destruct (bind (Server.prepareDocuments args) _ env s) as [[result|e] s1];
      eexists; reflexivity.
  - unfold Server.handleSearch, tryCatch, ret.
    destruct (bind (Server.buildService _) _ env s) as [[result|e] s1];
      eexists; reflexivity.
  - unfold Server.handleDeleteCollection, tryCatch, ret.
    destruct (bind (QdrantService.deleteCollection collection) _ env s)
      as [[result|e] s1]; eexists; reflexivity.
Qed.

(** X21. The two handlers that only talk to the store.  When the call
    goes through, listing answers with the rendered names and leaves the
    store alone, and deleting answers "Successfully deleted collection: C"
    with the collection removed.  When the call fails, both answer with
    [isError], the store is unchanged, and the failure's message comes
    behind two prefixes: the handler's and the adapter's. *)
Theorem store_only_handlers_report_the_call
    (env : Env) (s : State) (collection : string) :
  match qdrantFault env (List.length (trace s)) with
  | None =>
      Server.handleListCollections env s
      = (Ok (Server.success (stringify env (List.map fst (map_to_list (store s))))),
         logEvent s QdrantGetCollections)
      /\ Server.handleDeleteCollection collection env s
         = (Ok (Server.success ("Successfully deleted collection: " +:+ collection)),
            setStore (logEvent s (QdrantDeleteCollection collection))
              (delete collection (store s)))
  | Some fault =>
      Server.handleListCollections env s
      = (Ok (Server.failure
               ("Error listing collections: Error: Failed to list collections: "
                  +:+ errorMessage fault +:+ nl +:+ "Stack: "
                  +:+ errorStack env "Error"
                        ("Failed to list collections: " +:+ errorMessage fault))),
         logEvent s QdrantGetCollections)
      /\ Server.handleDeleteCollection collection env s
         = (Ok (Server.failure
                  ("Error deleting collection: Failed to delete collection: "
                     +:+ errorMessage fault)),
            logEvent s (QdrantDeleteCollection collection))
  end.
Proof.
  unfold Server.handleListCollections, Server.handleDeleteCollection,
    QdrantService.listCollections, QdrantService.deleteCollection,
    QdrantService.handleQdrantError, QdrantClient.getCollections,
    QdrantClient.deleteCollection, QdrantClient.call, tryCatch, bind, getEnv, ret, throw.
  destruct (qdrantFault env (List.length (trace s))) as [fault|]; split; reflexivity.
Qed.

(** X22. An ingest whose [chunkSize] the splitter's constructor rejects
    ends there: the answer is "Error adding documents: " and the
    constructor's message, with [isError]; no file is read and no provider
    or store is contacted (the trace is unchanged); the [chunkOverlap]
    argument is not applied; but the rejected size is already stored in the
    processor. *)
Theorem rejected_chunk_size_ends_the_ingest
    (args : Server.AddDocumentsArgs) (env : Env) (s : State) (size : Z) (e : Exn) :
  Server.argChunkSize args = Some size ->
  size <> 0 ->
  newSplitter env size (chunkOverlap (textProcessor s)) = Some e ->
  Server.handleAddDocuments args env s
  = (Ok (Server.failure ("Error adding documents: " +:+ errorMessage e)),
     setTextProcessor s
       {| chunkSize := size; chunkOverlap := chunkOverlap (textProcessor s);
          splitter := splitter (textProcessor s) |}).
Proof.
  intros Hsize Hnonzero Hreject.
  unfold Server.handleAddDocuments, Server.prepareDocuments, Server.configureTextProcessor,
    Server.truthyNumber, Server.addDocumentsFailed, tryCatch.
  rewrite Hsize. cbn [default].
  destruct (Z.eqb_spec size 0) as [|_]; [contradiction|]. cbn [negb].
  unfold TextProcessing.setChunkSize, TextProcessing.rebuildSplitter, bind, modify, ret.
  cbn [setTextProcessor textProcessor chunkSize chunkOverlap splitter].
  unfold id. rewrite Hreject. reflexivity.
Qed.

Lemma rejected_chunk_size_ends_the_ingest_witness :
  Server.handleAddDocuments
    {| Server.filePath := "notes.txt"; Server.addCollection := "docs";
       Server.addEmbeddingService := Embeddings.fastembed;
       Server.argChunkSize := Some 100; Server.argChunkOverlap := Some 50 |}
    Sample.env (Server.startState Sample.docs768)
  = (Ok (Server.failure "Error adding documents: Cannot have chunkOverlap >= chunkSize"),
     setTextProcessor (Server.startState Sample.docs768)
       {| chunkSize := 100; chunkOverlap := 200; splitter := (1000, 200) |}).
Proof.
  exact (rejected_chunk_size_ends_the_ingest
           {| Server.filePath := "notes.txt"; Server.addCollection := "docs";
              Server.addEmbeddingService := Embeddings.fastembed;
              Server.argChunkSize := Some 100; Server.argChunkOverlap := Some 50 |}
           Sample.env (Server.startState Sample.docs768) 100
           (newError "Cannot have chunkOverlap >= chunkSize")
           eq_refl ltac:(discriminate) eq_refl).
Defined.

(** ** What an ingest stores *)

(** The points of [chunks.map((chunk, i) => ({id: uuidv4(), ...}))]. *)
Lemma points_built (env : Env) (embeddings : list Vec) (chunks : list TextChunk) :
  forall (start : nat) (s : State),
  exists batch s1,
    mapM (fun ci =>
            id <- Server.uuidv4;;
            ret {| pointId := id;
                   pointVector := nth (snd ci) embeddings VNotArray;
                   pointPayload := fst ci |})
      (mapi (fun chunk i => (chunk, i)) start chunks) env s = (Ok batch, s1)
    /\ List.length batch = List.length chunks
    /\ (forall i chunk, nth_error chunks i = Some chunk ->
          nth_error batch i
          = Some {| pointId := uuid env (uuidsDrawn s + i);
                    pointVector := nth (start + i) embeddings VNotArray;
                    pointPayload := chunk |})
    /\ store s1 = store s /\ trace s1 = trace s
    /\ uuidsDrawn s1 = (uuidsDrawn s + List.length chunks)%nat.
Proof.
  induction chunks as [|chunk rest IH]; intros start s.
  - exists [], s. cbn. repeat split; auto. intros [|i] c H; discriminate.
  - cbn [mapi mapM]. unfold bind at 1. unfold bind at 1. unfold Server.uuidv4 at 1.
    unfold ret at 1. cbn [fst snd].
    destruct (IH (S start) (setUuidsDrawn s (S (uuidsDrawn s))))
      as (batch & s1 & Hrun & Hlen & Hnth & Hstore & Htrace & Hdrawn).
    unfold bind at 1. rewrite Hrun. unfold ret.
    eexists _, s1. split; [reflexivity|].
    cbn [List.length]. split; [now rewrite Hlen|].
    split; [|split; [exact Hstore | split; [exact Htrace|]]].
    + intros [|i] c Hc; cbn [nth_error] in *.
      * injection Hc as ->. now rewrite !Nat.add_0_r.
      * rewrite (Hnth i c Hc). cbn [setUuidsDrawn uuidsDrawn].
        do 2 f_equal; [f_equal; lia | f_equal; lia].
    + rewrite Hdrawn. cbn [setUuidsDrawn uuidsDrawn]. lia.
Qed.

Lemma addDocuments_done (env : Env) (s s1 : State) (name : string) (batch : list Point) :
  QdrantService.addDocuments name batch env s = (Ok tt, s1) ->
  exists c,
    store s !! name = Some c
    /\ s1 = setStore (logEvent s (QdrantUpsert name batch))
              (<[name := {| vectorsConfig := vectorsConfig c;
                            points := List.filter
                                        (fun p => negb (QdrantClient.sameId batch p))
                                        (points c) ++ batch |}]> (store s)).
Proof.
  unfold QdrantService.addDocuments, QdrantService.handleQdrantError. cbv zeta.
  rewrite rebuilt_documents.
  unfold QdrantClient.upsert, QdrantClient.call, tryCatch, throw.
  destruct (qdrantFault env (List.length (trace s))); [discriminate|].
  destruct (store s !! name) as [c|]; [|discriminate].
  intros [= <-]. eauto.
Qed.

(** X23. An ingest that reaches the store and succeeds has sent, after the
    creation call when the verdict asked for one, a single upsert with one
    point per chunk, in order: point [i] has a freshly drawn identifier,
    chunk [i] as payload and [embeddings[i]] as vector ([undefined] when the
    provider returned fewer embeddings than chunks: the counts are never
    compared).  All its points are then in the collection, and the answer is
    not an error. *)
Theorem ingest_stores_one_point_per_chunk
    (args : Server.AddDocumentsArgs) (chunks : list TextChunk)
    (service : Embeddings.Service) (verdict : Compatibility.Result)
    (embeddings : list Vec) (vectorValidation : VectorData.Result)
    (env : Env) (s s' : State) (result : Server.ToolResult) :
  Server.storeDocuments args chunks service verdict embeddings vectorValidation env s
    = (Ok result, s') ->
  exists batch collection,
    List.length batch = List.length chunks
    /\ (forall i chunk, nth_error chunks i = Some chunk ->
          nth_error batch i
          = Some {| pointId := uuid env (uuidsDrawn s + i);
                    pointVector := nth i embeddings VNotArray;
                    pointPayload := chunk |})
    /\ trace s' = trace s ++ creationEvents (Server.addCollection args) service verdict
                    ++ [QdrantUpsert (Server.addCollection args) batch]
    /\ uuidsDrawn s' = (uuidsDrawn s + List.length chunks)%nat
    /\ store s' !! Server.addCollection args = Some collection
    /\ incl batch (points collection)
    /\ Server.isError result = false.
Proof.
  unfold Server.storeDocuments. unfold bind at 1.
  set (creation := match Compatibility.action verdict with
                   | Compatibility.create_collection => _
                   | _ => _
                   end).
  destruct (creation env s) as [[[]|e] s0] eqn:Hcreation; [|discriminate].
  assert (trace s0 = trace s ++ creationEvents (Server.addCollection args) service verdict
          /\ uuidsDrawn s0 = uuidsDrawn s) as [Htrace0 Hdrawn0].
  { subst creation. unfold creationEvents.
    destruct (Compatibility.action verdict);
      try (unfold ret in Hcreation; injection Hcreation as <-;
           now rewrite app_nil_r).
    unfold bind, lift in Hcreation.
    destruct (Embeddings.vectorSize service) as [size|e]; [|discriminate].
    apply createCollection_done in Hcreation as [_ ->]. auto. }
  unfold bind at 1.
  destruct (points_built env embeddings chunks 0 s0)
    as (batch & s1 & Hrun & Hlen & Hnth & Hstore1 & Htrace1 & Hdrawn1).
  rewrite Hrun. unfold bind at 1.
  destruct (QdrantService.addDocuments (Server.addCollection args) batch env s1)
    as [[[]|e] s2] eqn:Hadd; [|discriminate].
  apply addDocuments_done in Hadd as (c & Hc & ->).
  unfold ret. intros [= <- <-].
  eexists batch, _. split; [exact Hlen|]. split.
  { intros i chunk Hi. rewrite (Hnth i chunk Hi), Hdrawn0. reflexivity. }
  split.
  { cbn [setStore logEvent trace]. now rewrite Htrace1, Htrace0, <- app_assoc. }
  split.
  { cbn [setStore logEvent uuidsDrawn]. now rewrite Hdrawn1, Hdrawn0. }
  split.
  { cbn [setStore store]. apply lookup_insert_eq. }
  split.
  { cbn [points]. intros p Hp. apply in_or_app. now right. }
  reflexivity.
Qed.

Lemma ingest_stores_one_point_per_chunk_witness :
  let chunk := {| chunkText := "alpha"; chunkIndex := 0; chunkSource := Some "notes.txt";
                  chunkStart := None; chunkEnd := None |} in
  let s' := snd (Server.storeDocuments Sample.addWithOpenAI [chunk] Sample.fastembed384
                   (Compatibility.createVerdict 384) [] (VectorData.validateVectorData [] 384)
                   Sample.env (Server.startState ∅)) in
  exists batch collection,
    nth_error batch 0
    = Some {| pointId := "id-0"; pointVector := VNotArray; pointPayload := chunk |}
    /\ trace s' = [QdrantCreateCollection "fresh" 384; QdrantUpsert "fresh" batch]
    /\ store s' !! "fresh" = Some collection
    /\ incl batch (points collection).
Proof.
  cbv zeta.
  pose proof (ingest_stores_one_point_per_chunk Sample.addWithOpenAI
                [{| chunkText := "alpha"; chunkIndex := 0; chunkSource := Some "notes.txt";
                    chunkStart := None; chunkEnd := None |}]
                Sample.fastembed384 (Compatibility.createVerdict 384) []
                (VectorData.validateVectorData [] 384) Sample.env (Server.startState ∅)
                (snd (Server.storeDocuments Sample.addWithOpenAI
                        [{| chunkText := "alpha"; chunkIndex := 0;
                            chunkSource := Some "notes.txt";
                            chunkStart := None; chunkEnd := None |}]
                        Sample.fastembed384 (Compatibility.createVerdict 384) []
                        (VectorData.validateVectorData [] 384) Sample.env
                        (Server.startState ∅)))
                (Server.success
                   "Successfully processed and added 1 chunks to collection fresh"))
    as Hrun.
  destruct (Hrun ltac:(vm_compute; reflexivity))
    as (batch & collection & _ & Hnth & Htrace & _ & Hstore & Hincl & _).
  exists batch, collection.
  split; [exact (Hnth 0%nat _ eq_refl)|].
  split; [exact Htrace|]. split; [exact Hstore | exact Hincl].
Defined.

(** X24. Nothing is rolled back: when the verdict asked for the collection
    to be created, the creation went through and the upsert that follows
    fails, the run ends with "Failed to add documents: " and the failure's
    message, and the new, empty collection stays in the store. *)
Theorem failed_upsert_leaves_the_created_collection
    (args : Server.AddDocumentsArgs) (chunks : list TextChunk)
    (service : Embeddings.Service) (verdict : Compatibility.Result)
    (embeddings : list Vec) (vectorValidation : VectorData.Result)
    (env : Env) (s : State) (size : Z) (fault : Exn) :
  Compatibility.action verdict = Compatibility.create_collection ->
  Embeddings.vectorSize service = Ok size ->
  store s !! Server.addCollection args = None ->
  qdrantFault env (List.length (trace s)) = None ->
  qdrantFault env (S (List.length (trace s))) = Some fault ->
  let run := Server.storeDocuments args chunks service verdict embeddings vectorValidation
               env s in
  fst run = Throw (newError ("Failed to add documents: " +:+ errorMessage fault))
  /\ store (snd run)
     = <[Server.addCollection args :=
           {| vectorsConfig := Some {| paramsSize := size; paramsDistance := Some "Cosine" |};
              points := [] |}]> (store s)
  /\ exists batch,
       trace (snd run)
       = trace s ++ [QdrantCreateCollection (Server.addCollection args) size;
                     QdrantUpsert (Server.addCollection args) batch].
Proof.
  intros Haction Hsize Hfree Hup Hdown. cbv zeta.
  pose (s0 := setStore
                (logEvent s (QdrantCreateCollection (Server.addCollection args) size))
                (<[Server.addCollection args :=
                     {| vectorsConfig :=
                          Some {| paramsSize := size; paramsDistance := Some "Cosine" |};
                        points := [] |}]> (store s))).
  destruct (points_built env embeddings chunks 0 s0)
    as (batch & s1 & Hrun & _ & _ & Hstore1 & Htrace1 & _).
  assert (Server.storeDocuments args chunks service verdict embeddings vectorValidation
            env s
          = (Throw (newError ("Failed to add documents: " +:+ errorMessage fault)),
             logEvent s1 (QdrantUpsert (Server.addCollection args) batch))) as ->.
  { unfold Server.storeDocuments. rewrite Haction. unfold bind at 1.
    unfold bind at 1. unfold lift. rewrite Hsize.
    unfold QdrantService.createCollection, QdrantClient.createCollection,
      QdrantClient.call, tryCatch.
    rewrite Hup, Hfree. fold s0.
    unfold bind at 1. rewrite Hrun. unfold bind at 1.
    unfold QdrantService.addDocuments, QdrantService.handleQdrantError. cbv zeta.
    rewrite rebuilt_documents.
    unfold QdrantClient.upsert, QdrantClient.call, tryCatch, throw.
    assert (List.length (trace s1) = S (List.length (trace s))) as ->.
    { rewrite Htrace1. subst s0. cbn [setStore logEvent trace].
      rewrite length_app. cbn. lia. }
    rewrite Hdown. reflexivity. }
  cbn [fst snd logEvent store trace].
  split; [reflexivity|]. split; [now rewrite Hstore1|].
  exists batch. rewrite Htrace1. subst s0. cbn [setStore logEvent trace].
  now rewrite <- app_assoc.
Qed.

Lemma failed_upsert_leaves_the_created_collection_witness :
  let run := Server.storeDocuments Sample.addWithOpenAI [] Sample.fastembed384
               (Compatibility.createVerdict 384) [] (VectorData.validateVectorData [] 384)
               Sample.secondCallFails (Server.startState ∅) in
  fst run = Throw (newError "Failed to add documents: socket hang up")
  /\ store (snd run) !! "fresh"
     = Some {| vectorsConfig := Some {| paramsSize := 384; paramsDistance := Some "Cosine" |};
               points := [] |}.
Proof.
  cbv zeta.
  pose proof (failed_upsert_leaves_the_created_collection Sample.addWithOpenAI []
                Sample.fastembed384 (Compatibility.createVerdict 384) []
                (VectorData.validateVectorData [] 384) Sample.secondCallFails
                (Server.startState ∅) 384 (newError "socket hang up")
                eq_refl eq_refl eq_refl eq_refl eq_refl) as (Hfirst & Hstore & _).
  split; [exact Hfirst|]. rewrite Hstore. reflexivity.
Defined.

(** ** What a search answers *)

Lemma formatted_hits (toFixed : float -> string) (first : SearchResult)
    (rest : list SearchResult) (index : nat) :
  exists tail,
    String.concat "" (mapi (Server.formatResult toFixed) index (first :: rest))
    = "Result " +:+ tail.
Proof.
  cbn [mapi String.concat].
  destruct (mapi (Server.formatResult toFixed) (S index) rest);
    unfold Server.formatResult; cbn; eexists; reflexivity.
Qed.

(** X25. A search that is answered without [isError] ended with the
    store's similarity search as its last call: on the requested
    collection, with the limit of the arguments or 10 when none was given.
    The answer starts with "No results found." exactly when that call
    returned no hit. *)
Theorem successful_search_ends_with_the_store_search
    (args : Server.SearchArgs) (env : Env) (s s' : State) (result : Server.ToolResult) :
  Server.handleSearch args env s = (Ok result, s') ->
  Server.isError result = false ->
  exists before vector,
    trace s' = before ++ [QdrantSearch (Server.searchCollection args) vector
                            (match Server.limit args with
                             | Some l => l
                             | None => 10
                             end)]
    /\ (searchResponse env (List.length before) = []
        <-> exists suffix, Server.text result = "No results found." +:+ suffix).
Proof.
  unfold Server.handleSearch, tryCatch.
  destruct (bind (Server.buildService _) _ env s) as [[answer|e] s0] eqn:Hbody.
  2:{ unfold ret. intros [= <- _] H. discriminate. }
  intros [= -> ->] Hok. revert Hbody.
  unfold bind at 1.
  destruct (Server.buildService _ env s) as [[service|e] s1]; [|discriminate].
  unfold bind at 1.
  destruct (Server.validationService _ service env s1) as [[verdict|e] s2]; [|discriminate].
  unfold Server.embedAndSearch.
  destruct (negb (Compatibility.isValid verdict)).
  { unfold ret. intros [= <- _]. discriminate. }
  unfold bind at 1.
  destruct (Embeddings.generateEmbeddings service _ env s2)
    as [[[service' embeddings]|e] s3]; [|discriminate].
  unfold bind at 1. unfold lift at 1.
  destruct (Embeddings.vectorSize service') as [size|e]; [|discriminate].
  destruct (negb (VectorData.isValid _)).
  { unfold ret. intros [= <- _]. discriminate. }
  unfold bind at 1.
  unfold QdrantService.search, QdrantService.limitOrDefault,
    QdrantService.handleQdrantError, QdrantClient.search, QdrantClient.call,
    tryCatch, throw.
  unfold bind at 1.
  destruct (qdrantFault env (List.length (trace s3))); [discriminate|].
  destruct (store s3 !! Server.searchCollection args); [|discriminate].
  unfold bind, getEnv, ret. intros [= <- <-].
  exists (trace s3), (nth 0 embeddings VNotArray).
  split; [reflexivity|].
  cbn [Server.text Server.success].
  destruct (searchResponse env (List.length (trace s3))) as [|hit rest].
  - cbn [List.map mapi String.concat String.eqb]. split; [intros _|reflexivity].
    destruct (Nat.ltb 0 _); eexists; [reflexivity|].
    instantiate (1 := ""). reflexivity.
  - cbn [List.map].
    match goal with
    | |- context [mapi _ 0%nat (?first :: ?others)] =>
        destruct (formatted_hits (toFixed2 env) first others 0) as [tail ->]
    end.
    split; [discriminate|]. intros [suffix H]. exfalso. revert H.
    cbn [String.eqb String.append]. destruct (Nat.ltb 0 _); cbn; discriminate.
Qed.

Lemma successful_search_ends_with_the_store_search_witness :
  let run := Server.handleSearch Sample.searchSmall Sample.env
               (Server.startState Sample.small384) in
  fst run = Ok (Server.success "No results found.")
  /\ exists before vector, trace (snd run) = before ++ [QdrantSearch "small" vector 10].
Proof.
  cbv zeta.
  pose proof (successful_search_ends_with_the_store_search Sample.searchSmall Sample.env
                (Server.startState Sample.small384)
                (snd (Server.handleSearch Sample.searchSmall Sample.env
                        (Server.startState Sample.small384)))
                (Server.success "No results found.")) as Hrun.
  destruct (Hrun ltac:(vm_compute; reflexivity) eq_refl) as (before & vector & Htrace & _).
  split; [vm_compute; reflexivity|].
  exists before, vector. exact Htrace.
Defined.

(** X26. A provider that answers the query with an empty list of
    embeddings leaves the handler with [undefined] as query vector; the
    vector validation catches it, the answer is the error "Query vector
    validation failed: Vector at index 0 is not an array", and the store is
    not searched. *)
Theorem search_without_query_embedding_is_refused
    (args : Server.SearchArgs) (service service' : Embeddings.Service)
    (verdict : Compatibility.Result) (env : Env) (s s1 : State) (size : Z) :
  Compatibility.isValid verdict = true ->
  Embeddings.generateEmbeddings service [Server.query args] env s = (Ok (service', []), s1) ->
  Embeddings.vectorSize service' = Ok size ->
  Server.embedAndSearch args service verdict env s
  = (Ok {| Server.text :=
             "Query vector validation failed: Vector at index 0 is not an array";
           Server.isError := true |}, s1).
Proof.
  intros Hvalid Hrun Hsize.
  unfold Server.embedAndSearch. rewrite Hvalid. cbn [negb].
  unfold bind at 1. rewrite Hrun. unfold bind at 1. unfold lift. rewrite Hsize.
  reflexivity.
Qed.

Lemma search_without_query_embedding_is_refused_witness :
  fst (Server.embedAndSearch Sample.searchSmall Sample.fastembed384
         (Compatibility.compatibleVerdict 384 384) Sample.mute
         (Server.startState Sample.small384))
  = Ok (Server.failure "Query vector validation failed: Vector at index 0 is not an array").
Proof.
  pose proof (search_without_query_embedding_is_refused Sample.searchSmall
                Sample.fastembed384 Sample.fastembed384
                (Compatibility.compatibleVerdict 384 384) Sample.mute
                (Server.startState Sample.small384)
                (snd (Embeddings.generateEmbeddings Sample.fastembed384 ["hello"]
                        Sample.mute (Server.startState Sample.small384)))
                384 eq_refl eq_refl eq_refl) as Hrun.
  rewrite Hrun. reflexivity.
Defined.

(** X27. An ingest for which the provider returns no embedding at all (as
    for a file without chunks) is refused by the vector validation with
    "Vector validation failed:" and, on the next line, "No vectors
    provided"; the run ends there, so no collection is created and nothing
    is stored. *)
Theorem ingest_without_embeddings_is_refused
    (args : Server.AddDocumentsArgs) (chunks : list TextChunk)
    (service service' : Embeddings.Service)
    (verdict : Compatibility.Result) (env : Env) (s s1 : State) (size : Z) :
  Compatibility.isValid verdict = true ->
  Embeddings.generateEmbeddings service (List.map chunkText chunks) env s
    = (Ok (service', []), s1) ->
  Embeddings.vectorSize service' = Ok size ->
  Server.embedAndStore args chunks service verdict env s
  = (Ok {| Server.text := "Vector validation failed:" +:+ nl +:+ "No vectors provided";
           Server.isError := true |}, s1).
Proof.
  intros Hvalid Hrun Hsize.
  unfold Server.embedAndStore. rewrite Hvalid. cbn [negb].
  unfold bind at 1. rewrite Hrun. unfold bind at 1. unfold lift. rewrite Hsize.
  reflexivity.
Qed.

Lemma ingest_without_embeddings_is_refused_witness :
  Server.embedAndStore Sample.addWithOpenAI [] Sample.fastembed384
    (Compatibility.createVerdict 384) Sample.env (Server.startState ∅)
  = (Ok (Server.failure ("Vector validation failed:" +:+ nl +:+ "No vectors provided")),
     logEvent (Server.startState ∅) (FastEmbedCall "BAAI/bge-small-en" [])).
Proof.
  exact (ingest_without_embeddings_is_refused Sample.addWithOpenAI []
           Sample.fastembed384 Sample.fastembed384 (Compatibility.createVerdict 384)
           Sample.env (Server.startState ∅)
           (logEvent (Server.startState ∅) (FastEmbedCall "BAAI/bge-small-en" []))
           384 eq_refl eq_refl eq_refl).
Defined.

(** ** An ingest from end to end *)

Lemma built_service_kind (k : Embeddings.ServiceKind) (env : Env) (s s1 : State)
    (service : Embeddings.Service) :
  Server.buildService k env s = (Ok service, s1) -> Embeddings.kind service = k.
Proof.
  unfold Server.buildService, Server.configFromEnv,
    Embeddings.createAndInitializeEmbeddingService, bind, getEnv, ret, lift.
  destruct (Embeddings.createEmbeddingService _) as [created|e] eqn:Hcreate;
    [|discriminate].
  apply createEmbeddingService_kind in Hcreate. cbn [Embeddings.configType] in Hcreate.
  destruct (Embeddings.kind created) eqn:Hkind; try (intros [= <- _]; congruence).
  intros Hinit. apply initializeVectorSize_sets in Hinit as [size ->].
  cbn [Embeddings.setVectorSize Embeddings.kind]. congruence.
Qed.

Lemma getCollectionInfo_some (env : Env) (s s1 : State) (name : string)
    (collectionSize : Z) (distance : string) :
  QdrantService.getCollectionInfo name env s = (Ok (Some (collectionSize, distance)), s1) ->
  exists c params,
    store s !! name = Some c /\ vectorsConfig c = Some params
    /\ paramsSize params = collectionSize.
Proof.
  unfold QdrantService.getCollectionInfo, QdrantClient.getCollection, QdrantClient.call,
    tryCatch, bind, ret.
  destruct (qdrantFault env _); [discriminate|].
  destruct (store s !! name) as [c|]; [|discriminate].
  destruct (vectorsConfig c) as [params|] eqn:Hparams; [|discriminate].
  intros [= <- _ _]. eauto.
Qed.

Lemma holdsSize_spec (st : gmap string CollectionState) (name : string) (size : Z) :
  holdsSize st name size = true
  <-> exists c params,
        st !! name = Some c /\ vectorsConfig c = Some params /\ paramsSize params = size.
Proof.
  unfold holdsSize. split.
  - destruct (st !! name) as [c|]; [|discriminate].
    destruct (vectorsConfig c) as [params|] eqn:Hparams; [|discriminate].
    intros H. apply Z.eqb_eq in H. eauto.
  - intros (c & params & -> & -> & <-). apply Z.eqb_refl.
Qed.

Lemma valid_verdict_default (env : Env) (s s2 : State) (name : string)
    (service : Embeddings.Service) (size : Z) (verdict : Compatibility.Result) :
  Embeddings.vectorSize service = Ok size ->
  Server.validationService name service env s = (Ok verdict, s2) ->
  Compatibility.isValid verdict = true ->
  Compatibility.action verdict = Compatibility.create_collection
  \/ holdsSize (store s) name size = true.
Proof.
  intros Hsize. unfold Server.validationService.
  destruct (QdrantService.collectionExists name env s) as [[[|]|e] s1] eqn:H1.
  - destruct (QdrantService.getCollectionInfo name env s1)
      as [[[[collectionSize distance]|]|e] s3] eqn:H2.
    + rewrite (validate_existing Compatibility.defaultService env name service size Hsize
                 s s1 s3 collectionSize distance H1 H2).
      destruct (Z.eqb_spec collectionSize size) as [->|Hne]; cbn [negb];
        intros [= <- _] Hvalid; [|discriminate].
      right. apply holdsSize_spec.
      apply getCollectionInfo_some in H2 as (c & params & Hc & Hparams & Hp).
      exists c, params. split; [|auto].
      destruct (storeUntouched_collectionExists name env s) as [Hstore _].
      rewrite H1 in Hstore. cbn [snd] in Hstore. now rewrite <- Hstore.
    + rewrite (validate_no_info Compatibility.defaultService env name service size Hsize
                 s s1 s3 H1 H2).
      intros [= <- _]. discriminate.
    + rewrite (validate_info_throws Compatibility.defaultService env name service size
                 Hsize s s1 s3 e H1 H2).
      intros [= <- _]. discriminate.
  - rewrite (validate_missing Compatibility.defaultService env name service size Hsize
               s s1 H1).
    intros [= <- _] _. now left.
  - rewrite (validate_exists_throws Compatibility.defaultService env name service size
               Hsize s s1 e H1).
    intros [= <- _]. discriminate.
Qed.

Lemma generated_service_same (service service' : Embeddings.Service)
    (texts : list string) (env : Env) (s s' : State) (embeddings : list Vec) (size : Z) :
  Embeddings.vectorSize service = Ok size ->
  Embeddings.generateEmbeddings service texts env s = (Ok (service', embeddings), s') ->
  service' = service.
Proof.
  unfold Embeddings.vectorSize, Embeddings.generateEmbeddings.
  destruct (Embeddings.kind service).
  1,2: intros _; unfold bind, Embeddings.post, lift, ret, throw;
       destruct (axiosPost env _ _ _ _) as [[items|]|e]; try discriminate;
       destruct (Embeddings.pickEmbeddings _ items); [|discriminate]; congruence.
  - intros _. unfold bind, Embeddings.embed, ret.
    destruct (fastEmbed env _ _ _); [|discriminate]. congruence.
  - destruct (Embeddings._vectorSize service) as [known|]; [|discriminate]. intros _.
    unfold bind, Embeddings.post, lift, ret, throw.
    destruct (axiosPost env _ _ _ _) as [[items|]|e]; try discriminate.
    destruct (Embeddings.checkEmbeddings _ 0 items) as [[]|e]; [|discriminate]. congruence.
Qed.

Lemma storeDocuments_collection
    (args : Server.AddDocumentsArgs) (chunks : list TextChunk)
    (service : Embeddings.Service) (verdict : Compatibility.Result)
    (embeddings : list Vec) (vectorValidation : VectorData.Result)
    (env : Env) (s s' : State) (result : Server.ToolResult) (size : Z) :
  Embeddings.vectorSize service = Ok size ->
  Compatibility.action verdict = Compatibility.create_collection
  \/ holdsSize (store s) (Server.addCollection args) size = true ->
  Server.storeDocuments args chunks service verdict embeddings vectorValidation env s
    = (Ok result, s') ->
  holdsSize (store s') (Server.addCollection args) size = true.
Proof.
  intros Hsize Hbefore. unfold Server.storeDocuments. unfold bind at 1.
  set (creation := match Compatibility.action verdict with
                   | Compatibility.create_collection => _
                   | _ => _
                   end).
  destruct (creation env s) as [[[]|e] s0] eqn:Hcreation; [|discriminate].
  assert (holdsSize (store s0) (Server.addCollection args) size = true) as Hholds.
  { subst creation.
    destruct (Compatibility.action verdict) eqn:Haction.
    - unfold bind, lift in Hcreation. rewrite Hsize in Hcreation.
      apply createCollection_done in Hcreation as [_ ->].
      apply holdsSize_spec.
      eexists _, _. cbn [setStore store]. split; [apply lookup_insert_eq|]. auto.
    - destruct Hbefore as [|H]; [discriminate|].
      unfold ret in Hcreation. now injection Hcreation as <-.
    - destruct Hbefore as [|H]; [discriminate|].
      unfold ret in Hcreation. now injection Hcreation as <-.
    - destruct Hbefore as [|H]; [discriminate|].
      unfold ret in Hcreation. now injection Hcreation as <-. }
  apply holdsSize_spec in Hholds as (c0 & p0 & Hc0 & Hp0 & Hs0).
  unfold bind at 1.
  destruct (points_built env embeddings chunks 0 s0)
    as (batch & s1 & Hrun & _ & _ & Hstore1 & _ & _).
  rewrite Hrun. unfold bind at 1.
  destruct (QdrantService.addDocuments (Server.addCollection args) batch env s1)
    as [[[]|e] s2] eqn:Hadd; [|discriminate].
  apply addDocuments_done in Hadd as (c & Hc & ->).
  unfold ret. intros [= _ <-].
  rewrite Hstore1, Hc0 in Hc. injection Hc as <-.
  apply holdsSize_spec. eexists _, p0. cbn [setStore store]. split; [apply lookup_insert_eq|]. auto.
Qed.

(** X28. After an ingest that is answered without [isError], the
    collection is in the store and its vector size is the size of the
    service the handler built for this invocation (for Ollama: the size
    that [initializeVectorSize()] gave that instance): either the
    collection was there with that size (verdict [compatible]), or the
    ingest created it with that size. *)
Theorem successful_ingest_leaves_a_matching_collection
    (args : Server.AddDocumentsArgs) (env : Env) (s s' : State)
    (result : Server.ToolResult) :
  Server.handleAddDocuments args env s = (Ok result, s') ->
  Server.isError result = false ->
  exists chunks service prepared size,
    Server.prepareDocuments args env s = (Ok (chunks, service), prepared)
    /\ Embeddings.kind service = Server.addEmbeddingService args
    /\ Embeddings.vectorSize service = Ok size
    /\ holdsSize (store s') (Server.addCollection args) size = true.
Proof.
  unfold Server.handleAddDocuments, tryCatch.
  destruct (bind (Server.prepareDocuments args) _ env s) as [[answer|e] s0] eqn:Hbody.
  2:{ unfold Server.addDocumentsFailed, ret. intros [= <- _] H. discriminate. }
  intros [= -> ->] Hok. revert Hbody.
  unfold bind at 1.
  pose proof (storeUntouched_prepareDocuments args env s) as [Hstore1 _].
  destruct (Server.prepareDocuments args env s) as [[[chunks service]|e] s1] eqn:Hprepare;
    [|discriminate].
  cbn [snd] in Hstore1.
  assert (Embeddings.kind service = Server.addEmbeddingService args
          /\ exists size, Embeddings.vectorSize service = Ok size) as [Hkind [size Hsize]].
  { revert Hprepare. unfold Server.prepareDocuments, Server.readAndBuild.
    unfold bind at 1.
    destruct (Server.configureTextProcessor args env s) as [[[]|e] sa]; [|discriminate].
    unfold bind at 1.
    destruct (Server.readFileSync _ env sa) as [[content|e] sb]; [|discriminate].
    unfold bind at 1.
    destruct (TextProcessing.processFile content _ env sb) as [[cs|e] sc]; [|discriminate].
    unfold bind at 1.
    destruct (Server.buildService _ env sc) as [[built|e] sd] eqn:Hbuild; [|discriminate].
    unfold ret. intros [= _ <- _]. split.
    - exact (built_service_kind _ env sc sd built Hbuild).
    - exact (built_service_has_size _ env sc sd built Hbuild). }
  unfold Server.validateAndStore. unfold bind at 1.
  pose proof (storeUntouched_validationService (Server.addCollection args) service env s1)
    as [Hstore2 _].
  destruct (Server.validationService _ service env s1) as [[verdict|e] s2] eqn:Hverdict;
    [|discriminate].
  cbn [snd] in Hstore2.
  unfold Server.embedAndStore.
  destruct (Compatibility.isValid verdict) eqn:Hvalid; cbn [negb].
  2:{ unfold ret. intros [= <- _]. discriminate. }
  pose proof (valid_verdict_default env s1 s2 _ service size verdict Hsize Hverdict Hvalid)
    as Hbefore.
  unfold bind at 1.
  pose proof (storeUntouched_generateEmbeddings service (List.map chunkText chunks) env s2)
    as [Hstore3 _].
  destruct (Embeddings.generateEmbeddings service _ env s2)
    as [[[service' embeddings]|e] s3] eqn:Hgenerate; [|discriminate].
  cbn [snd] in Hstore3.
  apply (generated_service_same service service' _ env s2 s3 embeddings size Hsize)
    in Hgenerate as ->.
  unfold bind at 1. unfold lift at 1. rewrite Hsize.
  destruct (negb (VectorData.isValid _)).
  { unfold ret. intros [= <- _]. discriminate. }
  intros Hstore. exists chunks, service, s1, size.
  split; [reflexivity|]. split; [exact Hkind|]. split; [exact Hsize|].
  refine (storeDocuments_collection args chunks service verdict embeddings _ env s3 s'
            result size Hsize _ Hstore).
  rewrite Hstore3, Hstore2. exact Hbefore.
Qed.

Lemma successful_ingest_leaves_a_matching_collection_witness :
  let s' := snd (Server.handleAddDocuments Sample.addOllama Sample.env
                   (Server.startState ∅)) in
  exists chunks service prepared size,
    Server.prepareDocuments Sample.addOllama Sample.env (Server.startState ∅)
      = (Ok (chunks, service), prepared)
    /\ Embeddings.kind service = Embeddings.ollama
    /\ Embeddings.vectorSize service = Ok size
    /\ holdsSize (store s') "fresh" size = true.
Proof.
  cbv zeta.
  pose proof (successful_ingest_leaves_a_matching_collection Sample.addOllama Sample.env
                (Server.startState ∅)
                (snd (Server.handleAddDocuments Sample.addOllama Sample.env
                        (Server.startState ∅)))
                (Server.success
                   "Successfully processed and added 1 chunks to collection fresh"))
    as Hrun.
  exact (Hrun ltac:(vm_compute; reflexivity) eq_refl).
Defined.

(** ** The recommendation table *)

(** X29. The recommendation table agrees with the services: each of the
    four providers has exactly one row; the row's model is the default
    model of the provider's class, which is the model of a service created
    without a model setting; and for the three providers with a fixed size
    the row's size is the size such a service reports.  The Ollama row has
    the size the earlier revision of the Ollama class fixed. *)
Theorem recommendations_agree_with_the_services (k : Embeddings.ServiceKind) :
  exists row,
    Recommendations.rowsFor k = [row]
    /\ Recommendations.model row = Embeddings.defaultModel k
    /\ (forall config service,
           Embeddings.configType config = k ->
           falsyString (Embeddings.configModel config) = true ->
           Embeddings.createEmbeddingService config = Ok service ->
           Embeddings.modelName service = Recommendations.model row
           /\ (k <> Embeddings.ollama ->
               Embeddings.vectorSize service = Ok (Recommendations.vectorSize row)))
    /\ (k = Embeddings.ollama ->
        forall endpoint model,
          LegacyOllama.vectorSize (LegacyOllama.create endpoint model)
          = Recommendations.vectorSize row).
Proof.
  assert (forall config service,
             falsyString (Embeddings.configModel config) = true ->
             Embeddings.createEmbeddingService config = Ok service ->
             Embeddings.kind service = Embeddings.configType config
             /\ Embeddings.modelName service
                = Embeddings.defaultModel (Embeddings.configType config)) as Hcreated.
  { intros config service Hmodel Hcreate.
    pose proof (createEmbeddingService_kind config service Hcreate) as Hkind.
    split; [exact Hkind|].
    assert (Embeddings.model service
            = Some (Embeddings.defaultModel (Embeddings.configType config))) as Hdefault.
    { revert Hcreate. unfold Embeddings.createEmbeddingService.
      assert (forall fallback, orDefault (Embeddings.configModel config) fallback = fallback)
        as Hor.
      { intros fallback. unfold orDefault, falsyString in *.
        destruct (Embeddings.configModel config) as [m|]; [|reflexivity].
        now rewrite Hmodel. }
      destruct (Embeddings.configType config); cbv zeta;
        repeat match goal with
               | |- context [if ?b then _ else _] => destruct b
               end;
        intros [= <-]; cbn [Embeddings.model Embeddings.defaultModel];
        now rewrite Hor. }
    unfold Embeddings.modelName. rewrite Hdefault, Hkind.
    unfold orDefault.
    destruct (Embeddings.configType config); reflexivity. }
  destruct k; eexists; (split; [reflexivity|]); (split; [reflexivity|]); split;
    try (intros H; discriminate H);
    try (intros _ endpoint model; reflexivity).
  all: intros config service Hk Hmodel Hcreate;
    destruct (Hcreated config service Hmodel Hcreate) as [Hkind Hname];
    rewrite Hk in Hkind, Hname;
    (split; [exact Hname|]); intros Hnot;
    try contradiction;
    unfold Embeddings.vectorSize; now rewrite Hkind.
Qed.

(** ** The earlier Ollama service *)

Section LegacyRun.

Variable axiosPost : nat -> LegacyOllama.Request -> Outcome (option Vec).
Variable service : Embeddings.Service.

Lemma embedEach_run (texts : list string) :
  forall (embeddings : list Vec) (log : list LegacyOllama.Request),
    match LegacyOllama.embedEach axiosPost service texts embeddings log with
    | (Ok result, log') =>
        log' = log ++ List.map (LegacyOllama.requestOf service) texts
        /\ exists added,
             result = embeddings ++ added
             /\ List.length added = List.length texts
             /\ forallb Embeddings.isArray added = true
             /\ forall i text,
                  nth_error texts i = Some text ->
                  exists v,
                    nth_error added i = Some v
                    /\ axiosPost (List.length log + i)
                         (LegacyOllama.requestOf service text) = Ok (Some v)
    | (Throw e, log') =>
        exists sent text,
          nth_error texts sent = Some text
          /\ log' = log ++ List.map (LegacyOllama.requestOf service)
                             (firstn (S sent) texts)
          /\ match axiosPost (List.length log + sent)
                     (LegacyOllama.requestOf service text) with
             | Throw cause => e = cause
             | Ok (Some (VArray _)) => False
             | Ok _ => e = newError "Invalid response from Ollama API"
             end
    end.
Proof.
  induction texts as [|text rest IH]; intros embeddings log.
  - cbn. split; [now rewrite app_nil_r|]. exists []. rewrite app_nil_r.
    repeat split; auto. intros [|i] t H; discriminate.
  - cbn [LegacyOllama.embedEach].
    destruct (axiosPost (List.length log) (LegacyOllama.requestOf service text))
      as [[[elems|]|]|cause] eqn:Hanswer.
    + specialize (IH (embeddings ++ [VArray elems])
                    (log ++ [LegacyOllama.requestOf service text])).
      destruct (LegacyOllama.embedEach axiosPost service rest _ _) as [[result|e] log'].
      * destruct IH as [-> (added & -> & Hlen & Harrays & Hnth)].
        split; [cbn [List.map]; now rewrite <- app_assoc|].
        exists (VArray elems :: added). split; [now rewrite <- app_assoc|].
        split; [cbn; now rewrite Hlen|]. split; [exact Harrays|].
        intros [|i] t Ht; cbn [nth_error] in *.
        -- injection Ht as <-. exists (VArray elems). rewrite Nat.add_0_r. auto.
        -- destruct (Hnth i t Ht) as (v & Hv & Hpost). exists v. split; [exact Hv|].
           rewrite length_app in Hpost. cbn [List.length] in Hpost.
           now replace (List.length log + S i)%nat with (List.length log + 1 + i)%nat by lia.
      * destruct IH as (sent & t & Ht & -> & Hcause).
        exists (S sent), t. split; [exact Ht|].
        split; [cbn [firstn List.map]; now rewrite <- app_assoc|].
        rewrite length_app in Hcause. cbn [List.length] in Hcause.
        now replace (List.length log + S sent)%nat
          with (List.length log + 1 + sent)%nat by lia.
    + exists 0%nat, text. rewrite Nat.add_0_r, Hanswer. auto.
    + exists 0%nat, text. rewrite Nat.add_0_r, Hanswer. auto.
    + exists 0%nat, text. rewrite Nat.add_0_r, Hanswer. auto.
Qed.

End LegacyRun.

(** X30. The earlier Ollama service embeds the texts one by one and in
    order.  When it returns, it made exactly one request per text, each
    answer held an array, and embedding [i] is the array answered for text
    [i].  When it throws, it stopped at the first text whose request failed
    or whose answer held no array (then with "Invalid response from Ollama
    API"): the texts after it were never sent. *)
Theorem legacy_ollama_embeds_texts_one_by_one
    (axiosPost : nat -> LegacyOllama.Request -> Outcome (option Vec))
    (service : Embeddings.Service) (texts : list string)
    (log : list LegacyOllama.Request) :
  match LegacyOllama.generateEmbeddings axiosPost service texts log with
  | (Ok embeddings, log') =>
      log' = log ++ List.map (LegacyOllama.requestOf service) texts
      /\ List.length embeddings = List.length texts
      /\ forallb Embeddings.isArray embeddings = true
      /\ forall i text,
           nth_error texts i = Some text ->
           exists v,
             nth_error embeddings i = Some v
             /\ axiosPost (List.length log + i)%nat (LegacyOllama.requestOf service text)
                = Ok (Some v)
  | (Throw e, log') =>
      exists sent text,
        nth_error texts sent = Some text
        /\ log' = log ++ List.map (LegacyOllama.requestOf service) (firstn (S sent) texts)
        /\ match axiosPost (List.length log + sent)%nat
                   (LegacyOllama.requestOf service text) with
           | Throw cause => e = cause
           | Ok (Some (VArray _)) => False
           | Ok _ => e = newError "Invalid response from Ollama API"
           end
  end.
Proof.
  unfold LegacyOllama.generateEmbeddings.
  pose proof (embedEach_run axiosPost service texts [] log) as H.
  destruct (LegacyOllama.embedEach axiosPost service texts [] log) as [[result|e] log'].
  - destruct H as [-> (added & -> & Hlen & Harrays & Hnth)]. cbn [app]. auto.
  - exact H.
Qed.
